(** * Triton pintool dispatcher (src/main.cpp): shallow embedding

    The file embeds the callbacks of [main.cpp] as programs of a small
    monad threading the global state ([analysisTrigger], [ap], the
    memory of the analysed process) and collecting the observable
    operations of one invocation (lock, unlock, Trigger updates,
    scripting hooks, instruction records, inserted calls).  The classes
    declared in headers that are not part of [main.cpp] are either
    parameters (Pin API, IRBuilder engine, scripting layer) or small
    models following the specification (Trigger, AnalysisProcessor). *)

From Stdlib Require Import ZArith List String Bool Lia.
From stdpp Require Import base gmap.
Import ListNotations.

Local Open Scope Z_scope.

(** ** Machine integers *)

(** [uint64] arithmetic wraps modulo 2^64. *)
Definition wrap64 (z : Z) : Z := z mod 2 ^ 64.

(** ** Opaque handles of the host and of the scripting layer *)

Definition ADDRINT := Z.
Definition THREADID := Z.
Definition CONTEXT := Z.
Definition PyObject := Z.
Definition SYSCALL_STANDARD := Z.

(** ** Pin API used by [main.cpp] (parameter: [pin.H] is external) *)

Module Pin.

Definition RTN := Z.
Definition SEC := Z.
Definition IMG := Z.

Record API : Type := {
  RTN_FindByAddress : ADDRINT -> RTN;
  RTN_FindNameByAddress : ADDRINT -> string;
  RTN_FindByName : IMG -> string -> RTN;
  RTN_Valid : RTN -> bool;
  RTN_Sec : RTN -> SEC;
  SEC_Valid : SEC -> bool;
  SEC_Img : SEC -> IMG;
  IMG_Valid : IMG -> bool;
  IMG_Name : IMG -> string;
  IMG_LowAddress : IMG -> ADDRINT;
  IMG_HighAddress : IMG -> ADDRINT
}.

(** An instruction of a trace, with the static queries the installer
    makes on it. *)
Record INS : Type := {
  INS_Address : ADDRINT;
  INS_MemoryOperandCount : Z;
  INS_IsSyscall : bool;
  INS_HasFallThrough : bool;
  INS_OperandCount : Z;
  INS_MemoryOperandIsWritten : Z -> bool;
  INS_MemoryWriteSize : Z
}.

(** [BBL_Valid]/[BBL_Next] and [INS_Valid]/[INS_Next] walk linked
    lists: a trace is the list of its blocks. *)
Definition BBL := list INS.
Definition TRACE := list BBL.

Inductive IPOINT : Type :=
| IPOINT_BEFORE
| IPOINT_AFTER
| IPOINT_TAKEN_BRANCH.

End Pin.
Import Pin.

(** ** PyTritonOptions: the configuration surface *)

Module PyTritonOptions.

(** [startAnalysisFromSymbol] is a nullable [char *]; the four rule
    sets are [std::set<uint64>]; the routine tables are
    [std::map<const char *, PyObject *>], walked in order. *)
Record t : Type := {
  startAnalysisFromSymbol : option string;
  startAnalysisFromAddr : gset Z;
  startAnalysisFromOffset : gset Z;
  stopAnalysisFromAddr : gset Z;
  stopAnalysisFromOffset : gset Z;
  callbackRoutineEntry : list (string * PyObject);
  callbackRoutineExit : list (string * PyObject)
}.

End PyTritonOptions.

(** ** Trigger *)

Module Trigger.

(** Modelled from the spec: [Trigger.h] is not part of the sources.
    Section 3: the state of the Trigger is one boolean. *)
Definition t := bool.

(** Modelled from the spec: [Trigger::getState] is not part of the
    sources.  Section 4.1: [getState() -> bool]. *)
Definition getState (tr : t) : bool := tr.

(** Modelled from the spec: [Trigger::update] is not part of the
    sources.  Section 4.1: [update(bool)] sets the state
    unconditionally, a full overwrite. *)
Definition update (flag : bool) (tr : t) : t := flag.

End Trigger.

(** ** Instruction descriptors and records *)

(** Modelled from the spec: [IRBuilder.h] is not part of the sources.
    Section 4.3: a per-instruction descriptor holding static decode
    information, into which the run phase binds the effective address,
    the thread and the branch information. *)
Record IRBuilder : Type := {
  irb_address : Z;
  irb_ea : option Z;
  irb_threadID : Z;
  irb_branchTaken : bool;
  irb_branchTargetAddress : Z;
  irb_nextAddress : Z;
  irb_opcode : Z;
  irb_opcodeCategory : Z;
  irb_operands : list Z
}.

Definition irb_setup (ea : Z) (irb : IRBuilder) : IRBuilder :=
  {| irb_address := irb_address irb; irb_ea := Some ea;
     irb_threadID := irb_threadID irb;
     irb_branchTaken := irb_branchTaken irb;
     irb_branchTargetAddress := irb_branchTargetAddress irb;
     irb_nextAddress := irb_nextAddress irb;
     irb_opcode := irb_opcode irb;
     irb_opcodeCategory := irb_opcodeCategory irb;
     irb_operands := irb_operands irb |}.

Definition irb_setThreadID (tid : Z) (irb : IRBuilder) : IRBuilder :=
  {| irb_address := irb_address irb; irb_ea := irb_ea irb;
     irb_threadID := tid;
     irb_branchTaken := irb_branchTaken irb;
     irb_branchTargetAddress := irb_branchTargetAddress irb;
     irb_nextAddress := irb_nextAddress irb;
     irb_opcode := irb_opcode irb;
     irb_opcodeCategory := irb_opcodeCategory irb;
     irb_operands := irb_operands irb |}.

Definition irb_setBranchTaken (b : bool) (irb : IRBuilder) : IRBuilder :=
  {| irb_address := irb_address irb; irb_ea := irb_ea irb;
     irb_threadID := irb_threadID irb;
     irb_branchTaken := b;
     irb_branchTargetAddress := irb_branchTargetAddress irb;
     irb_nextAddress := irb_nextAddress irb;
     irb_opcode := irb_opcode irb;
     irb_opcodeCategory := irb_opcodeCategory irb;
     irb_operands := irb_operands irb |}.

Definition irb_setBranchTargetAddress (a : Z) (irb : IRBuilder) : IRBuilder :=
  {| irb_address := irb_address irb; irb_ea := irb_ea irb;
     irb_threadID := irb_threadID irb;
     irb_branchTaken := irb_branchTaken irb;
     irb_branchTargetAddress := a;
     irb_nextAddress := irb_nextAddress irb;
     irb_opcode := irb_opcode irb;
     irb_opcodeCategory := irb_opcodeCategory irb;
     irb_operands := irb_operands irb |}.

(** Modelled from the spec: [Inst.h] is not part of the sources.
    Section 3: the record identifies the executing thread and carries
    opcode, opcode category, operand list, branch-taken flag, branch
    target address and next-instruction address. *)
Record Inst : Type := {
  inst_threadId : Z;
  inst_address : Z;
  inst_nextAddress : Z;
  inst_opcode : Z;
  inst_opcodeCategory : Z;
  inst_operands : list Z;
  inst_branchTaken : bool;
  inst_branchTargetAddress : Z
}.

(** The six setters that [callbackBefore] applies to the fresh record,
    in the order of the source. *)
Definition inst_export (irb : IRBuilder) (inst : Inst) : Inst :=
  {| inst_threadId := inst_threadId inst;
     inst_address := inst_address inst;
     inst_nextAddress := irb_nextAddress irb;
     inst_opcode := irb_opcode irb;
     inst_opcodeCategory := irb_opcodeCategory irb;
     inst_operands := irb_operands irb;
     inst_branchTaken := irb_branchTaken irb;
     inst_branchTargetAddress := irb_branchTargetAddress irb |}.

(** [new PINContextHandler(ctx, threadId)]. *)
Record PINContextHandler : Type := {
  pch_ctx : CONTEXT;
  pch_threadId : THREADID
}.

(** ** AnalysisProcessor *)

Module AnalysisProcessor.

(** Modelled from the spec: [AnalysisProcessor.h] is not part of the
    sources.  Sections 3, 4.2 and 4.5: the current context handle
    (exactly one live, replaced by [updateCurrentCtxH]), the ordered
    instruction trace, the branch counter, the journal lock flag and
    the append-only journal of (address, previous byte) pairs. *)
Record t : Type := {
  currentCtxH : option PINContextHandler;
  trace : list Inst;
  numberOfBranchesTaken : Z;
  snapshotLocked : bool;
  snapshotJournal : list (Z * Byte.byte)
}.

(** Modelled from the spec: section 4.2, [updateCurrentContextHandle]
    replaces the previous handle. *)
Definition updateCurrentCtxH (h : PINContextHandler) (a : t) : t :=
  {| currentCtxH := Some h; trace := trace a;
     numberOfBranchesTaken := numberOfBranchesTaken a;
     snapshotLocked := snapshotLocked a;
     snapshotJournal := snapshotJournal a |}.

(** Modelled from the spec: section 3, the handle carries the thread
    identifier; there is none to read while no handle is installed. *)
Definition getThreadID (a : t) : option THREADID :=
  option_map pch_threadId (currentCtxH a).

(** Modelled from the spec: section 4.3, the record is appended to
    the ordered trace. *)
Definition addInstructionToTrace (i : Inst) (a : t) : t :=
  {| currentCtxH := currentCtxH a; trace := trace a ++ [i];
     numberOfBranchesTaken := numberOfBranchesTaken a;
     snapshotLocked := snapshotLocked a;
     snapshotJournal := snapshotJournal a |}.

(** Modelled from the spec: section 4.3, the most recently appended
    instruction record; a null pointer when the trace holds none. *)
Definition getLastInstruction (a : t) : option Inst :=
  List.last (List.map Some (trace a)) None.

(** Modelled from the spec: section 4.3, the branch-taken
    statistics, a [uint64] counter. *)
Definition incNumberOfBranchesTaken (isBranch : bool) (a : t) : t :=
  {| currentCtxH := currentCtxH a; trace := trace a;
     numberOfBranchesTaken :=
       if isBranch then wrap64 (numberOfBranchesTaken a + 1)
       else numberOfBranchesTaken a;
     snapshotLocked := snapshotLocked a;
     snapshotJournal := snapshotJournal a |}.

(** Modelled from the spec: section 4.5, [isSnapshotLocked() -> bool]
    reads the journal lock flag. *)
Definition isSnapshotLocked (a : t) : bool := snapshotLocked a.

(** Modelled from the spec: sections 3 and 4.5, the journal is
    append-only and an entry is the pair of an address and the byte
    found there. *)
Definition addSnapshotModification (addr : Z) (byte : Byte.byte) (a : t) : t :=
  {| currentCtxH := currentCtxH a; trace := trace a;
     numberOfBranchesTaken := numberOfBranchesTaken a;
     snapshotLocked := snapshotLocked a;
     snapshotJournal := snapshotJournal a ++ [(addr, byte)] |}.

End AnalysisProcessor.

(** ** The scripting layer and the IR engine (parameters) *)

Module ProcessingPyConf.

(** One constructor per method of [processingPyConf] that [main.cpp]
    invokes, with the arguments it passes.  [callbackAfter] receives
    the pointer returned by [getLastInstruction], which may be null. *)
Inductive call : Type :=
| applyConfBeforeProcessing (irb : IRBuilder)
| callbackBeforeIRProc (irb : IRBuilder)
| callbackBefore (inst : Inst)
| callbackAfter (inst : option Inst)
| callbackRoutine (threadId : THREADID) (callback : PyObject)
| callbackFini
| callbackSyscallEntry (threadId : THREADID) (std : SYSCALL_STANDARD)
| callbackSyscallExit (threadId : THREADID) (std : SYSCALL_STANDARD)
| callbackImageLoad (imagePath : string) (imageBase imageSize : Z)
| callbackSignals (threadId : THREADID) (sig : Z).

(** The scripting layer is a black box: every hook may transform the
    analysis context it is given; [applyConfBeforeProcessing] may
    also reconfigure the descriptor.  The Trigger is mutated only
    through [toggleWrapper] (spec, section 3).  Scope of the model: a
    hook returns, and what it may do to the memory of the process or
    to the descriptor passed to [callbackBeforeIRProc] is not
    represented: the state after a hook is described for the Trigger
    and the analysis context only. *)
Record t : Type := {
  hook : call -> AnalysisProcessor.t -> AnalysisProcessor.t;
  applyConf : IRBuilder -> IRBuilder
}.

End ProcessingPyConf.

(** [createIRBuilder], [IRBuilder::process] and [Inst::isBranch]. *)
Record Engine : Type := {
  createIRBuilder : INS -> IRBuilder;
  process : IRBuilder -> AnalysisProcessor.t -> Inst * AnalysisProcessor.t;
  isBranch : Inst -> bool
}.

(** ** Calls inserted in the instrumented code *)

(** How the effective-address argument of [callbackBefore] is bound. *)
Inductive EA_ARG : Type :=
| IARG_MEMORYOP_EA (idx : Z)
| IARG_ADDRINT (v : Z).

(** An analysis routine with the arguments fixed at insertion time; the
    remaining [IARG_*] are resolved by the host when the call fires. *)
Inductive AFUNPTR : Type :=
| AF_callbackBefore (irb : IRBuilder) (hasEA : bool) (ea : EA_ARG)
| AF_callbackAfter
| AF_callbackLockCheck
| AF_callbackSnapshot (writeSize : Z)
| AF_toggleWrapper (flag : bool)
| AF_callbackRoutineEntry (callback : PyObject)
| AF_callbackRoutineExit (callback : PyObject).

(** ** Observable operations of one invocation *)

Inductive Event : Type :=
| EvLock
| EvUnlock
| EvTriggerUpdate (flag : bool)
| EvUpdateCtxH (h : PINContextHandler)
| EvRecord (inst : Inst)
| EvHook (c : ProcessingPyConf.call)
| EvPyFinalize
| EvRTN_Open (rtn : RTN)
| EvRTN_Close (rtn : RTN)
| EvRTN_InsertCall (rtn : RTN) (ipoint : IPOINT) (f : AFUNPTR)
| EvINS_InsertCall (ins : INS) (ipoint : IPOINT) (f : AFUNPTR).

(** ** Global state and the monad of the callbacks *)

(** [memory] gives the bytes of the analysed process that can be read;
    the death of the process on the read of an unmapped address is not
    represented. *)
Record World : Type := {
  analysisTrigger : Trigger.t;
  ap : AnalysisProcessor.t;
  memory : Z -> Byte.byte
}.

Definition set_trigger (tr : Trigger.t) (w : World) : World :=
  {| analysisTrigger := tr; ap := ap w; memory := memory w |}.

Definition set_ap (a : AnalysisProcessor.t) (w : World) : World :=
  {| analysisTrigger := analysisTrigger w; ap := a; memory := memory w |}.

(** A callback returns, terminates the process ([exit]), or faults on a
    null pointer. *)
Inductive Outcome (A : Type) : Type :=
| Returned (a : A) (w : World) (evs : list Event)
| Exited (code : Z) (w : World) (evs : list Event)
| Faulted (w : World) (evs : list Event).
Arguments Returned {A} a w evs.
Arguments Exited {A} code w evs.
Arguments Faulted {A} w evs.

Definition M (A : Type) : Type := World -> Outcome A.

Definition ret {A} (a : A) : M A := fun w => Returned a w [].

Definition bind {A B} (m : M A) (k : A -> M B) : M B :=
  fun w =>
    match m w with
    | Returned a w1 e1 =>
        match k a w1 with
        | Returned b w2 e2 => Returned b w2 (e1 ++ e2)
        | Exited c w2 e2 => Exited c w2 (e1 ++ e2)
        | Faulted w2 e2 => Faulted w2 (e1 ++ e2)
        end
    | Exited c w1 e1 => Exited c w1 e1
    | Faulted w1 e1 => Faulted w1 e1
    end.

Declare Scope cb_scope.
Delimit Scope cb_scope with cb.
Notation "'do' x <- m ; k" := (bind m (fun x => k))
  (at level 10, x name, m at level 100, k at level 200) : cb_scope.
Notation "m ;; k" := (bind m (fun _ => k))
  (at level 100, k at level 200, right associativity) : cb_scope.
Local Open Scope cb_scope.

Definition emit (e : Event) : M unit := fun w => Returned tt w [e].
Definition get {A} (f : World -> A) : M A := fun w => Returned (f w) w [].
Definition modify (f : World -> World) : M unit := fun w => Returned tt (f w) [].
Definition exit (code : Z) : M unit := fun w => Exited code w [].
Definition deref {A} (p : option A) : M A :=
  fun w => match p with Some a => Returned a w [] | None => Faulted w [] end.

(** Components of an outcome. *)
Definition events {A} (o : Outcome A) : list Event :=
  match o with
  | Returned _ _ e | Exited _ _ e | Faulted _ e => e
  end.

Definition final {A} (o : Outcome A) : World :=
  match o with
  | Returned _ w _ | Exited _ w _ | Faulted w _ => w
  end.

Definition completes {A} (o : Outcome A) : bool :=
  match o with
  | Returned _ _ _ | Exited _ _ _ => true
  | Faulted _ _ => false
  end.

(** ** The functions of [main.cpp] *)

Section Pintool.

Variable pin : Pin.API.
Variable engine : Engine.
Variable processingPyConf : ProcessingPyConf.t.
Variable options : PyTritonOptions.t.

(** [#ifndef LIGHT_VERSION] regions are compiled when this is [false]. *)
Variable LIGHT_VERSION : bool.

(** *** Primitive operations on the globals *)

Definition ap_lock : M unit := emit EvLock.
Definition ap_unlock : M unit := emit EvUnlock.

Definition ap_get {A} (f : AnalysisProcessor.t -> A) : M A :=
  get (fun w => f (ap w)).

Definition ap_do (f : AnalysisProcessor.t -> AnalysisProcessor.t) : M unit :=
  modify (fun w => set_ap (f (ap w)) w).

Definition ap_updateCurrentCtxH (h : PINContextHandler) : M unit :=
  emit (EvUpdateCtxH h) ;; ap_do (AnalysisProcessor.updateCurrentCtxH h).

Definition trigger_getState : M bool :=
  get (fun w => Trigger.getState (analysisTrigger w)).

Definition trigger_update (flag : bool) : M unit :=
  emit (EvTriggerUpdate flag) ;;
  modify (fun w => set_trigger (Trigger.update flag (analysisTrigger w)) w).

(** Invocation of a method of [processingPyConf]. *)
Definition py (c : ProcessingPyConf.call) : M unit :=
  emit (EvHook c) ;; ap_do (ProcessingPyConf.hook processingPyConf c).

(** [irb->process(ap)]: a fresh instruction record. *)
Definition irb_process (irb : IRBuilder) : M Inst :=
  do a <- ap_get id;
  let r := process engine irb a in
  emit (EvRecord (fst r)) ;; ap_do (fun _ => snd r) ;; ret (fst r).

(** Writes through the pointer [inst], which aliases the record that
    [addInstructionToTrace] has just appended. *)
Definition trace_set_last (i : Inst) (a : AnalysisProcessor.t) : AnalysisProcessor.t :=
  {| AnalysisProcessor.currentCtxH := AnalysisProcessor.currentCtxH a;
     AnalysisProcessor.trace := List.removelast (AnalysisProcessor.trace a) ++ [i];
     AnalysisProcessor.numberOfBranchesTaken := AnalysisProcessor.numberOfBranchesTaken a;
     AnalysisProcessor.snapshotLocked := AnalysisProcessor.snapshotLocked a;
     AnalysisProcessor.snapshotJournal := AnalysisProcessor.snapshotJournal a |}.

(** *** Lock/Unlock analysis flag *)

Definition toggleWrapper (flag : bool) : M unit :=
  ap_lock ;;
  trigger_update flag ;;
  ap_unlock.

(** *** Base address and offset of an instruction *)

Definition getBaseAddress (address : Z) : M Z :=
  ap_lock ;;
  let rtn := RTN_FindByAddress pin address in
  do found <-
    (if RTN_Valid pin rtn then
       let sec := RTN_Sec pin rtn in
       if SEC_Valid pin sec then
         let img := SEC_Img pin sec in
         if IMG_Valid pin img then
           ap_unlock ;; ret (Some (IMG_LowAddress pin img))
         else ret None
       else ret None
     else ret None);
  match found with
  | Some base => ret base
  | None => ap_unlock ;; ret 0
  end.

Definition getInsOffset (address : Z) : M Z :=
  do base <- getBaseAddress address;
  if base =? 0 then ret 0
  else ret (wrap64 (address - base)).

(** *** Stop rules *)

Definition checkLockAnalysis (address : Z) : M unit :=
  if bool_decide (elem_of address (PyTritonOptions.stopAnalysisFromAddr options)) then
    toggleWrapper false
  else
    do offset <- getInsOffset address;
    if bool_decide (elem_of offset (PyTritonOptions.stopAnalysisFromOffset options)) then
      toggleWrapper false
    else ret tt.

(** *** Start rules *)

Definition checkUnlockAnalysis (address : Z) : M unit :=
  match PyTritonOptions.startAnalysisFromSymbol options with
  | Some symbol =>
      if String.eqb (RTN_FindNameByAddress pin address) symbol then
        toggleWrapper true
      else ret tt
  | None =>
      if bool_decide (elem_of address (PyTritonOptions.startAnalysisFromAddr options)) then
        toggleWrapper true
      else
        do offset <- getInsOffset address;
        if bool_decide (elem_of offset (PyTritonOptions.startAnalysisFromOffset options)) then
          toggleWrapper true
        else ret tt
  end.

(** *** Callback before instruction processing *)

Definition callbackBefore (irb : IRBuilder) (ctx : CONTEXT) (hasEA : bool)
    (ea : ADDRINT) (isBranchTaken : bool) (branchTargetAddress : ADDRINT)
    (threadId : THREADID) : M unit :=
  do active <- trigger_getState;
  if negb active then ret tt
  else
    ap_lock ;;
    py (ProcessingPyConf.applyConfBeforeProcessing irb) ;;
    let irb := ProcessingPyConf.applyConf processingPyConf irb in
    let irb := if hasEA then irb_setup ea irb else irb in
    ap_updateCurrentCtxH {| pch_ctx := ctx; pch_threadId := threadId |} ;;
    do tid <- (do t <- ap_get AnalysisProcessor.getThreadID; deref t);
    let irb := irb_setThreadID tid irb in
    let irb := irb_setBranchTaken isBranchTaken irb in
    let irb := irb_setBranchTargetAddress branchTargetAddress irb in
    py (ProcessingPyConf.callbackBeforeIRProc irb) ;;
    do inst <- irb_process irb;
    ap_do (AnalysisProcessor.addInstructionToTrace inst) ;;
    let inst := inst_export irb inst in
    ap_do (trace_set_last inst) ;;
    py (ProcessingPyConf.callbackBefore inst) ;;
    ap_unlock.

(** *** Callback after instruction processing *)

Definition callbackAfter (ctx : CONTEXT) (threadId : THREADID) : M unit :=
  do active <- trigger_getState;
  if negb active then ret tt
  else
    ap_lock ;;
    ap_updateCurrentCtxH {| pch_ctx := ctx; pch_threadId := threadId |} ;;
    do inst <- ap_get AnalysisProcessor.getLastInstruction;
    (if LIGHT_VERSION then ret tt
     else
       do i <- deref inst;
       ap_do (AnalysisProcessor.incNumberOfBranchesTaken (isBranch engine i))) ;;
    py (ProcessingPyConf.callbackAfter inst) ;;
    ap_unlock.

(** *** Callback saving bytes for the snapshot engine *)

(** The [for] loop: [n] iterations remain and the counter is [i].  The
    bytes at [mem + i] are taken to be readable, as those of a write
    about to be performed are. *)
Fixpoint snapshot_loop (mem : Z) (n : nat) (i : Z) : M unit :=
  match n with
  | O => ret tt
  | S n' =>
      do byte <- get (fun w => memory w (wrap64 (mem + i)));
      ap_do (AnalysisProcessor.addSnapshotModification (wrap64 (mem + i)) byte) ;;
      snapshot_loop mem n' (i + 1)
  end.

Definition callbackSnapshot (mem : Z) (writeSize : Z) : M unit :=
  do active <- trigger_getState;
  if negb active then ret tt
  else if LIGHT_VERSION then ret tt
  else
    do locked <- ap_get AnalysisProcessor.isSnapshotLocked;
    if locked then ret tt
    else
      ap_lock ;;
      snapshot_loop mem (Z.to_nat writeSize) 0 ;;
      ap_unlock.

(** *** Routine entry and exit *)

Definition callbackRoutineEntry (ctx : CONTEXT) (threadId : THREADID)
    (callback : PyObject) : M unit :=
  do active <- trigger_getState;
  if negb active then ret tt
  else
    ap_lock ;;
    ap_updateCurrentCtxH {| pch_ctx := ctx; pch_threadId := threadId |} ;;
    py (ProcessingPyConf.callbackRoutine threadId callback) ;;
    ap_unlock.

Definition callbackRoutineExit (ctx : CONTEXT) (threadId : THREADID)
    (callback : PyObject) : M unit :=
  do active <- trigger_getState;
  if negb active then ret tt
  else
    ap_lock ;;
    ap_updateCurrentCtxH {| pch_ctx := ctx; pch_threadId := threadId |} ;;
    py (ProcessingPyConf.callbackRoutine threadId callback) ;;
    ap_unlock.

(** *** End of the execution *)

Definition callbackFini (code : Z) : M unit :=
  py ProcessingPyConf.callbackFini ;;
  emit EvPyFinalize.

(** *** System calls *)

Definition callbackSyscallEntry (threadId : THREADID) (ctx : CONTEXT)
    (std : SYSCALL_STANDARD) : M unit :=
  do active <- trigger_getState;
  if negb active then ret tt
  else
    ap_lock ;;
    ap_updateCurrentCtxH {| pch_ctx := ctx; pch_threadId := threadId |} ;;
    py (ProcessingPyConf.callbackSyscallEntry threadId std) ;;
    ap_unlock.

Definition callbackSyscallExit (threadId : THREADID) (ctx : CONTEXT)
    (std : SYSCALL_STANDARD) : M unit :=
  do active <- trigger_getState;
  if negb active then ret tt
  else
    ap_lock ;;
    ap_updateCurrentCtxH {| pch_ctx := ctx; pch_threadId := threadId |} ;;
    py (ProcessingPyConf.callbackSyscallExit threadId std) ;;
    ap_unlock.

(** *** Image load: called even outside the range of the analysis *)

Definition callbackImageLoad (img : IMG) : M unit :=
  ap_lock ;;
  let imagePath := IMG_Name pin img in
  let imageBase := IMG_LowAddress pin img in
  let imageSize := wrap64 (wrap64 (IMG_HighAddress pin img + 1) - imageBase) in
  py (ProcessingPyConf.callbackImageLoad imagePath imageBase imageSize) ;;
  ap_unlock.

(** *** Signals *)

Definition callbackSignals (threadId : THREADID) (sig : Z) (ctx : CONTEXT)
    (hasHandler : bool) : M bool :=
  do active <- trigger_getState;
  if negb active then ret false
  else
    ap_lock ;;
    ap_updateCurrentCtxH {| pch_ctx := ctx; pch_threadId := threadId |} ;;
    py (ProcessingPyConf.callbackSignals threadId sig) ;;
    ap_unlock ;;
    exit 0 ;;
    ret true.

(** *** Threads *)

Definition callbackThreadEntry (threadId : THREADID) (ctx : CONTEXT)
    (flags : Z) : M unit :=
  ap_lock ;;
  ap_unlock.

Definition callbackThreadExit (threadId : THREADID) (ctx : CONTEXT)
    (flags : Z) : M unit :=
  ap_lock ;;
  ap_unlock.

(** *** Stop-rule check inserted after an instruction *)

Definition callbackLockCheck (address : Z) : M unit :=
  checkLockAnalysis address.

(** *** Image instrumentation *)

(** One of the two loops over a routine table of [PyTritonOptions]. *)
Fixpoint insert_routine_calls (img : IMG) (ipoint : IPOINT)
    (f : PyObject -> AFUNPTR) (table : list (string * PyObject)) : M unit :=
  match table with
  | [] => ret tt
  | (name, callback) :: rest =>
      let targetRTN := RTN_FindByName pin img name in
      (if RTN_Valid pin targetRTN then
         emit (EvRTN_Open targetRTN) ;;
         emit (EvRTN_InsertCall targetRTN ipoint (f callback)) ;;
         emit (EvRTN_Close targetRTN)
       else ret tt) ;;
      insert_routine_calls img ipoint f rest
  end.

Definition IMG_Instrumentation (img : IMG) : M unit :=
  (match PyTritonOptions.startAnalysisFromSymbol options with
   | Some symbol =>
       let targetRTN := RTN_FindByName pin img symbol in
       if RTN_Valid pin targetRTN then
         emit (EvRTN_Open targetRTN) ;;
         emit (EvRTN_InsertCall targetRTN IPOINT_AFTER (AF_toggleWrapper false)) ;;
         emit (EvRTN_Close targetRTN)
       else ret tt
   | None => ret tt
   end) ;;
  insert_routine_calls img IPOINT_BEFORE AF_callbackRoutineEntry
    (PyTritonOptions.callbackRoutineEntry options) ;;
  insert_routine_calls img IPOINT_AFTER AF_callbackRoutineExit
    (PyTritonOptions.callbackRoutineExit options) ;;
  if IMG_Valid pin img then callbackImageLoad img else ret tt.

(** *** Trace instrumentation *)

(** The calls inserted for an instruction once the Trigger has been
    found active: the part of the loop body after the gate. *)
Definition INS_InsertCalls (ins : INS) : M unit :=
  let irb := createIRBuilder engine ins in
  (if 0 <? INS_MemoryOperandCount ins then
     emit (EvINS_InsertCall ins IPOINT_BEFORE
             (AF_callbackBefore irb true (IARG_MEMORYOP_EA 0)))
   else
     emit (EvINS_InsertCall ins IPOINT_BEFORE
             (AF_callbackBefore irb false (IARG_ADDRINT 0)))) ;;
  (if negb (INS_IsSyscall ins) then
     let ipoint :=
       if negb (INS_HasFallThrough ins) then IPOINT_TAKEN_BRANCH else IPOINT_AFTER in
     emit (EvINS_InsertCall ins ipoint AF_callbackAfter) ;;
     emit (EvINS_InsertCall ins ipoint AF_callbackLockCheck)
   else ret tt) ;;
  (if (1 <? INS_OperandCount ins) && INS_MemoryOperandIsWritten ins 0 then
     emit (EvINS_InsertCall ins IPOINT_BEFORE
             (AF_callbackSnapshot (INS_MemoryWriteSize ins)))
   else ret tt).

(** One iteration of the inner loop; [false] stands for the [return]
    that leaves the whole function. *)
Definition TRACE_Instrumentation_INS (ins : INS) : M bool :=
  checkUnlockAnalysis (INS_Address ins) ;;
  do active <- trigger_getState;
  if negb active then ret false
  else INS_InsertCalls ins ;; ret true.

Fixpoint TRACE_Instrumentation_BBL (bbl : BBL) : M bool :=
  match bbl with
  | [] => ret true
  | ins :: rest =>
      do continue <- TRACE_Instrumentation_INS ins;
      if continue then TRACE_Instrumentation_BBL rest else ret false
  end.

Fixpoint TRACE_Instrumentation_loop (trace : TRACE) : M bool :=
  match trace with
  | [] => ret true
  | bbl :: rest =>
      do continue <- TRACE_Instrumentation_BBL bbl;
      if continue then TRACE_Instrumentation_loop rest else ret false
  end.

Definition TRACE_Instrumentation (trace : TRACE) : M unit :=
  TRACE_Instrumentation_loop trace ;; ret tt.

(** *** Registrations of [main] and dispatch by the host *)

(** Values of [<csignal>] on Linux. *)
Definition SIGILL : Z := 4.
Definition SIGFPE : Z := 8.
Definition SIGKILL : Z := 9.
Definition SIGSEGV : Z := 11.
Definition SIGPIPE : Z := 13.

(** The signals for which [main] calls [PIN_InterceptSignal]. *)
Definition intercepted_signals : list Z :=
  [SIGFPE; SIGILL; SIGKILL; SIGPIPE; SIGSEGV].

(** Arguments that the host resolves when an inserted call fires. *)
Record IARGS : Type := {
  IARG_CONTEXT : CONTEXT;
  IARG_THREAD_ID : THREADID;
  IARG_MEMORYOP_EA_at : Z -> ADDRINT;
  IARG_BRANCH_TAKEN : bool;
  IARG_BRANCH_TARGET_ADDR : ADDRINT;
  IARG_INST_PTR : ADDRINT
}.

(** An inserted call fires: the analysis routine runs on the arguments
    given to [INS_InsertCall] or [RTN_InsertCall].  The descriptor of
    the before call is the one built at insertion time: what an
    earlier firing left in the shared [IRBuilder] object is not
    represented. *)
Definition fire (f : AFUNPTR) (a : IARGS) : M unit :=
  match f with
  | AF_callbackBefore irb hasEA ea =>
      callbackBefore irb (IARG_CONTEXT a) hasEA
        (match ea with
         | IARG_MEMORYOP_EA idx => IARG_MEMORYOP_EA_at a idx
         | IARG_ADDRINT v => v
         end)
        (IARG_BRANCH_TAKEN a) (IARG_BRANCH_TARGET_ADDR a) (IARG_THREAD_ID a)
  | AF_callbackAfter => callbackAfter (IARG_CONTEXT a) (IARG_THREAD_ID a)
  | AF_callbackLockCheck => callbackLockCheck (IARG_INST_PTR a)
  | AF_callbackSnapshot writeSize =>
      callbackSnapshot (IARG_MEMORYOP_EA_at a 0) writeSize
  | AF_toggleWrapper flag => toggleWrapper flag
  | AF_callbackRoutineEntry callback =>
      callbackRoutineEntry (IARG_CONTEXT a) (IARG_THREAD_ID a) callback
  | AF_callbackRoutineExit callback =>
      callbackRoutineExit (IARG_CONTEXT a) (IARG_THREAD_ID a) callback
  end.

(** What the host can ask of the tool after [main] has registered its
    functions. *)
Inductive HostEvent : Type :=
| HE_Image (img : IMG)
| HE_Trace (trace : TRACE)
| HE_Fini (code : Z)
| HE_SyscallEntry (threadId : THREADID) (ctx : CONTEXT) (std : SYSCALL_STANDARD)
| HE_SyscallExit (threadId : THREADID) (ctx : CONTEXT) (std : SYSCALL_STANDARD)
| HE_Signal (threadId : THREADID) (sig : Z) (ctx : CONTEXT) (hasHandler : bool)
| HE_ThreadStart (threadId : THREADID) (ctx : CONTEXT) (flags : Z)
| HE_ThreadFini (threadId : THREADID) (ctx : CONTEXT) (flags : Z)
| HE_Call (f : AFUNPTR) (a : IARGS).

Definition dispatch (e : HostEvent) : M unit :=
  match e with
  | HE_Image img => IMG_Instrumentation img
  | HE_Trace trace => TRACE_Instrumentation trace
  | HE_Fini code => callbackFini code
  | HE_SyscallEntry threadId ctx std => callbackSyscallEntry threadId ctx std
  | HE_SyscallExit threadId ctx std => callbackSyscallExit threadId ctx std
  | HE_Signal threadId sig ctx hasHandler =>
      if existsb (Z.eqb sig) intercepted_signals then
        callbackSignals threadId sig ctx hasHandler ;; ret tt
      else ret tt
  | HE_ThreadStart threadId ctx flags => callbackThreadEntry threadId ctx flags
  | HE_ThreadFini threadId ctx flags => callbackThreadExit threadId ctx flags
  | HE_Call f a => fire f a
  end.

Fixpoint run (es : list HostEvent) : M unit :=
  match es with
  | [] => ret tt
  | e :: rest => dispatch e ;; run rest
  end.

End Pintool.



(** ** Observations on the operations of an invocation *)

Definition is_lock (e : Event) : bool :=
  match e with EvLock => true | _ => false end.

Definition is_hook (e : Event) : bool :=
  match e with EvHook _ => true | _ => false end.

Definition is_record (e : Event) : bool :=
  match e with EvRecord _ => true | _ => false end.

Definition count_locks (evs : list Event) : nat :=
  List.length (List.filter is_lock evs).

Definition no_record (evs : list Event) : bool :=
  forallb (fun e => negb (is_record e)) evs.

Definition no_hook (evs : list Event) : bool :=
  forallb (fun e => negb (is_hook e)) evs.

(** The lock protocol, followed from a state in which the lock is held
    or not: an acquisition needs a free lock, a release a held one.
    The result is the state of the lock at the end, [None] when the
    protocol is broken. *)
Fixpoint lock_run (held : bool) (evs : list Event) : option bool :=
  match evs with
  | [] => Some held
  | EvLock :: rest => if held then None else lock_run true rest
  | EvUnlock :: rest => if held then lock_run false rest else None
  | _ :: rest => lock_run held rest
  end.

(** Every acquisition is followed by exactly one release. *)
Definition lock_balanced (evs : list Event) : bool :=
  match lock_run false evs with
  | Some false => true
  | _ => false
  end.

(** The callbacks whose body starts with the test of the Trigger. *)
Definition gated (e : HostEvent) : bool :=
  match e with
  | HE_Call (AF_callbackBefore _ _ _) _
  | HE_Call AF_callbackAfter _
  | HE_Call (AF_callbackSnapshot _) _
  | HE_Call (AF_callbackRoutineEntry _) _
  | HE_Call (AF_callbackRoutineExit _) _
  | HE_SyscallEntry _ _ _
  | HE_SyscallExit _ _ _
  | HE_Signal _ _ _ _ => true
  | _ => false
  end.

(** ** The rules, as functions of the address *)

Section Rules.

Variable pin : Pin.API.
Variable options : PyTritonOptions.t.

(** The owning module of the address is found: the three validity
    tests of [getBaseAddress] succeed. *)
Definition resolves (address : Z) : bool :=
  let rtn := RTN_FindByAddress pin address in
  RTN_Valid pin rtn
  && SEC_Valid pin (RTN_Sec pin rtn)
  && IMG_Valid pin (SEC_Img pin (RTN_Sec pin rtn)).

Definition base_of (address : Z) : Z :=
  if resolves address then
    IMG_LowAddress pin (SEC_Img pin (RTN_Sec pin (RTN_FindByAddress pin address)))
  else 0.

Definition offset_of (address : Z) : Z :=
  if base_of address =? 0 then 0 else wrap64 (address - base_of address).

(** The condition under which [checkLockAnalysis] calls
    [toggleWrapper(false)]. *)
Definition stop_rule (address : Z) : bool :=
  bool_decide (elem_of address (PyTritonOptions.stopAnalysisFromAddr options))
  || bool_decide (elem_of (offset_of address)
                    (PyTritonOptions.stopAnalysisFromOffset options)).

(** The condition under which [checkUnlockAnalysis] calls
    [toggleWrapper(true)]. *)
Definition start_rule (address : Z) : bool :=
  match PyTritonOptions.startAnalysisFromSymbol options with
  | Some symbol => String.eqb (RTN_FindNameByAddress pin address) symbol
  | None =>
      bool_decide (elem_of address (PyTritonOptions.startAnalysisFromAddr options))
      || bool_decide (elem_of (offset_of address)
                        (PyTritonOptions.startAnalysisFromOffset options))
  end.

(** The activation rule in the words of the specification (section
    4.1): the start symbol is set and the address resolves to that
    routine name, OR the address is in [startAddresses], OR its offset
    is in [startOffsets]. *)
Definition start_rule_spec (address : Z) : bool :=
  match PyTritonOptions.startAnalysisFromSymbol options with
  | Some symbol => String.eqb (RTN_FindNameByAddress pin address) symbol
  | None => false
  end
  || bool_decide (elem_of address (PyTritonOptions.startAnalysisFromAddr options))
  || bool_decide (elem_of (offset_of address)
                    (PyTritonOptions.startAnalysisFromOffset options)).

(** No activation happens at this request of the host: a trace is
    instrumented whose first instruction matches no start rule, or any
    other call than [toggleWrapper(true)] fires. *)
Definition no_activation (e : HostEvent) : bool :=
  match e with
  | HE_Trace trace =>
      match List.concat trace with
      | [] => true
      | ins :: _ => negb (start_rule (INS_Address ins))
      end
  | HE_Call (AF_toggleWrapper flag) _ => negb flag
  | _ => true
  end.

End Rules.

(** The state after the context handle has been replaced and the hook
    [c] has run. *)
Definition hooked (processingPyConf : ProcessingPyConf.t) (w : World)
    (ctx : CONTEXT) (threadId : THREADID) (c : ProcessingPyConf.call) : World :=
  set_ap (ProcessingPyConf.hook processingPyConf c
            (AnalysisProcessor.updateCurrentCtxH
               {| pch_ctx := ctx; pch_threadId := threadId |} (ap w))) w.

(** The handler of routine entry and exit in the words of the
    specification (section 4.4): check the Trigger; if active, acquire
    the lock, refresh the current context handle, invoke the routine
    hook with the thread id and the handle, release the lock. *)
Definition routine_handler_spec (processingPyConf : ProcessingPyConf.t)
    (ctx : CONTEXT) (threadId : THREADID) (callback : PyObject) : M unit :=
  fun w =>
    if Trigger.getState (analysisTrigger w) then
      let h := {| pch_ctx := ctx; pch_threadId := threadId |} in
      let c := ProcessingPyConf.callbackRoutine threadId callback in
      Returned tt
        (set_ap (ProcessingPyConf.hook processingPyConf c
                   (AnalysisProcessor.updateCurrentCtxH h (ap w))) w)
        [EvLock; EvUpdateCtxH h; EvHook c; EvUnlock]
    else Returned tt w [].

(** The journal entries of a write of [n] bytes at [A]: one per byte,
    with the value that the memory holds. *)
Definition written_bytes (mem : Z -> Byte.byte) (A n : Z) : list (Z * Byte.byte) :=
  List.map (fun a => (a, mem a)) (seqZ A n).

(** The entries that the loop of [callbackSnapshot] appends for [n]
    bytes from [A]: the addresses are computed in [uint64]. *)
Definition written_bytes_wrapped (mem : Z -> Byte.byte) (A n : Z) : list (Z * Byte.byte) :=
  List.map (fun a => (wrap64 a, mem (wrap64 a))) (seqZ A n).

Definition append_journal (entries : list (Z * Byte.byte)) (w : World) : World :=
  set_ap
    {| AnalysisProcessor.currentCtxH := AnalysisProcessor.currentCtxH (ap w);
       AnalysisProcessor.trace := AnalysisProcessor.trace (ap w);
       AnalysisProcessor.numberOfBranchesTaken :=
         AnalysisProcessor.numberOfBranchesTaken (ap w);
       AnalysisProcessor.snapshotLocked := AnalysisProcessor.snapshotLocked (ap w);
       AnalysisProcessor.snapshotJournal :=
         AnalysisProcessor.snapshotJournal (ap w) ++ entries |} w.

(** ** Concrete hosts, configurations and states *)

(** A host with no image loaded: no address resolves. *)
Definition pin_none : Pin.API :=
  {| RTN_FindByAddress := fun _ => 0;
     RTN_FindNameByAddress := fun _ => EmptyString;
     RTN_FindByName := fun _ _ => 0;
     RTN_Valid := fun _ => false;
     RTN_Sec := fun _ => 0;
     SEC_Valid := fun _ => false;
     SEC_Img := fun _ => 0;
     IMG_Valid := fun _ => false;
     IMG_Name := fun _ => EmptyString;
     IMG_LowAddress := fun _ => 0;
     IMG_HighAddress := fun _ => 0 |}.

(** A host with one image (handle 1) loaded at 0x400000..0x4fffff,
    whose routine [main] spans 0x401000..0x401fff; any other address of
    the image belongs to the routine [start]. *)
Definition pin_one : Pin.API :=
  {| RTN_FindByAddress :=
       fun a => if (4194304 <=? a) && (a <=? 5242879) then 1 else 0;
     RTN_FindNameByAddress :=
       fun a =>
         if (4198400 <=? a) && (a <=? 4202495) then "main"%string
         else if (4194304 <=? a) && (a <=? 5242879) then "start"%string
         else EmptyString;
     RTN_FindByName := fun img name => if String.eqb name "main" then 1 else 0;
     RTN_Valid := fun r => r =? 1;
     RTN_Sec := fun r => r;
     SEC_Valid := fun s => s =? 1;
     SEC_Img := fun s => s;
     IMG_Valid := fun i => i =? 1;
     IMG_Name := fun _ => "a.out"%string;
     IMG_LowAddress := fun i => if i =? 1 then 4194304 else 0;
     IMG_HighAddress := fun i => if i =? 1 then 5242879 else 0 |}.

(** A scripting layer whose hooks leave the analysis context alone. *)
Definition py_idle : ProcessingPyConf.t :=
  {| ProcessingPyConf.hook := fun _ a => a;
     ProcessingPyConf.applyConf := fun irb => irb |}.

Definition engine_plain : Engine :=
  {| createIRBuilder :=
       fun ins =>
         {| irb_address := INS_Address ins; irb_ea := None; irb_threadID := 0;
            irb_branchTaken := false; irb_branchTargetAddress := 0;
            irb_nextAddress := INS_Address ins + 1; irb_opcode := 0;
            irb_opcodeCategory := 0; irb_operands := [] |};
     process :=
       fun irb a =>
         ({| inst_threadId := irb_threadID irb; inst_address := irb_address irb;
             inst_nextAddress := 0; inst_opcode := 0; inst_opcodeCategory := 0;
             inst_operands := []; inst_branchTaken := false;
             inst_branchTargetAddress := 0 |}, a);
     isBranch := fun _ => false |}.

Definition options_none : PyTritonOptions.t :=
  {| PyTritonOptions.startAnalysisFromSymbol := None;
     PyTritonOptions.startAnalysisFromAddr := empty;
     PyTritonOptions.startAnalysisFromOffset := empty;
     PyTritonOptions.stopAnalysisFromAddr := empty;
     PyTritonOptions.stopAnalysisFromOffset := empty;
     PyTritonOptions.callbackRoutineEntry := [];
     PyTritonOptions.callbackRoutineExit := [] |}.

(** [startAnalysisFromSymbol = "main"] together with the start address
    0x400500, which lies in the routine [start]. *)
Definition options_symbol_and_address : PyTritonOptions.t :=
  {| PyTritonOptions.startAnalysisFromSymbol := Some "main"%string;
     PyTritonOptions.startAnalysisFromAddr := {[ 4195584 ]};
     PyTritonOptions.startAnalysisFromOffset := empty;
     PyTritonOptions.stopAnalysisFromAddr := empty;
     PyTritonOptions.stopAnalysisFromOffset := empty;
     PyTritonOptions.callbackRoutineEntry := [];
     PyTritonOptions.callbackRoutineExit := [] |}.

(** [stopAnalysisFromOffset = {0}]. *)
Definition options_stop_offset_zero : PyTritonOptions.t :=
  {| PyTritonOptions.startAnalysisFromSymbol := None;
     PyTritonOptions.startAnalysisFromAddr := empty;
     PyTritonOptions.startAnalysisFromOffset := empty;
     PyTritonOptions.stopAnalysisFromAddr := empty;
     PyTritonOptions.stopAnalysisFromOffset := {[ 0 ]};
     PyTritonOptions.callbackRoutineEntry := [];
     PyTritonOptions.callbackRoutineExit := [] |}.

(** Scenario B of the specification: [stopAddresses = {0x4010a0}]. *)
Definition options_stop_address : PyTritonOptions.t :=
  {| PyTritonOptions.startAnalysisFromSymbol := None;
     PyTritonOptions.startAnalysisFromAddr := empty;
     PyTritonOptions.startAnalysisFromOffset := empty;
     PyTritonOptions.stopAnalysisFromAddr := {[ 4198560 ]};
     PyTritonOptions.stopAnalysisFromOffset := empty;
     PyTritonOptions.callbackRoutineEntry := [];
     PyTritonOptions.callbackRoutineExit := [] |}.

Definition ap_fresh : AnalysisProcessor.t :=
  {| AnalysisProcessor.currentCtxH := None;
     AnalysisProcessor.trace := [];
     AnalysisProcessor.numberOfBranchesTaken := 0;
     AnalysisProcessor.snapshotLocked := false;
     AnalysisProcessor.snapshotJournal := [] |}.

(** A memory in which the byte at [a] is [a mod 256]. *)
Definition memory_ramp (a : Z) : Byte.byte :=
  match Byte.of_N (Z.to_N (a mod 256)) with
  | Some b => b
  | None => Byte.x00
  end.

Definition world_inactive : World :=
  {| analysisTrigger := false; ap := ap_fresh; memory := memory_ramp |}.

Definition world_active : World :=
  {| analysisTrigger := true; ap := ap_fresh; memory := memory_ramp |}.

Definition iargs_at (address : Z) : IARGS :=
  {| IARG_CONTEXT := 0; IARG_THREAD_ID := 1;
     IARG_MEMORYOP_EA_at := fun _ => 6295616;
     IARG_BRANCH_TAKEN := false; IARG_BRANCH_TARGET_ADDR := 0;
     IARG_INST_PTR := address |}.

(** A [syscall] instruction at the stop address of
    [options_stop_address]. *)
Definition ins_syscall : INS :=
  {| INS_Address := 4198560; INS_MemoryOperandCount := 0;
     INS_IsSyscall := true; INS_HasFallThrough := true;
     INS_OperandCount := 0; INS_MemoryOperandIsWritten := fun _ => false;
     INS_MemoryWriteSize := 0 |}.

(** A [mov] to memory at the same address. *)
Definition ins_store : INS :=
  {| INS_Address := 4198560; INS_MemoryOperandCount := 1;
     INS_IsSyscall := false; INS_HasFallThrough := true;
     INS_OperandCount := 2; INS_MemoryOperandIsWritten := fun _ => true;
     INS_MemoryWriteSize := 4 |}.

(** ** Specifications of computations *)

(** A computation that, from any state satisfying [I], returns in a
    state satisfying [I] after operations satisfying [E]. *)
Definition ensures {A} (I : World -> Prop) (E : list Event -> Prop) (m : M A) : Prop :=
  forall w, I w -> exists a w' evs, m w = Returned a w' evs /\ I w' /\ E evs.

(** Returns, the lock being released as often as acquired. *)
Definition orderly {A} (m : M A) : Prop :=
  ensures (fun _ => True) (fun evs => lock_run false evs = Some false) m.

(** Returns with the Trigger still inactive and no record created. *)
Definition dormant {A} (m : M A) : Prop :=
  ensures (fun w => Trigger.getState (analysisTrigger w) = false)
          (fun evs => no_record evs = true) m.

(** The calls that may be inserted for a system call: the before
    callback and the snapshot callback only. *)
Definition syscall_insert_ok (e : Event) : bool :=
  match e with
  | EvINS_InsertCall ins _ f =>
      if INS_IsSyscall ins then
        match f with
        | AF_callbackBefore _ _ _ | AF_callbackSnapshot _ => true
        | _ => false
        end
      else true
  | _ => true
  end.

(** Returns after insertions that respect [syscall_insert_ok]. *)
Definition installs_safely {A} (m : M A) : Prop :=
  ensures (fun _ => True) (fun evs => forallb syscall_insert_ok evs = true) m.

(** ** Further observations, for the installers and the whole tool *)

Definition is_insert (e : Event) : bool :=
  match e with
  | EvRTN_InsertCall _ _ _ | EvINS_InsertCall _ _ _ => true
  | _ => false
  end.

Definition no_insert (evs : list Event) : bool :=
  forallb (fun e => negb (is_insert e)) evs.

(** An inserted call of [toggleWrapper], with either flag, on a
    routine or on an instruction. *)
Definition toggle_insert (e : Event) : bool :=
  match e with
  | EvRTN_InsertCall _ _ (AF_toggleWrapper _)
  | EvINS_InsertCall _ _ (AF_toggleWrapper _) => true
  | _ => false
  end.

(** The host operations of the first block of [IMG_Instrumentation]:
    the toggle on the routine of the start symbol, when a symbol is
    configured and the image holds it. *)
Definition symbol_insertions (pin : Pin.API) (options : PyTritonOptions.t)
    (img : IMG) : list Event :=
  match PyTritonOptions.startAnalysisFromSymbol options with
  | Some symbol =>
      let targetRTN := RTN_FindByName pin img symbol in
      if RTN_Valid pin targetRTN then
        [EvRTN_Open targetRTN;
         EvRTN_InsertCall targetRTN IPOINT_AFTER (AF_toggleWrapper false);
         EvRTN_Close targetRTN]
      else []
  | None => []
  end.

(** The invocation of the image-load hook made by [callbackImageLoad],
    with the size computed in [uint64]. *)
Definition image_load_call (pin : Pin.API) (img : IMG) : ProcessingPyConf.call :=
  ProcessingPyConf.callbackImageLoad (IMG_Name pin img) (IMG_LowAddress pin img)
    (wrap64 (wrap64 (IMG_HighAddress pin img + 1) - IMG_LowAddress pin img)).

(** The before call that the installer inserts for an instruction. *)
Definition before_call (engine : Engine) (ins : INS) : Event :=
  EvINS_InsertCall ins IPOINT_BEFORE
    (if 0 <? INS_MemoryOperandCount ins then
       AF_callbackBefore (createIRBuilder engine ins) true (IARG_MEMORYOP_EA 0)
     else AF_callbackBefore (createIRBuilder engine ins) false (IARG_ADDRINT 0)).

(** The host operations of one loop of [IMG_Instrumentation] over a
    routine table: the entries whose routine is found, in order. *)
Definition routine_insertions (pin : Pin.API) (img : IMG) (ipoint : IPOINT)
    (f : PyObject -> AFUNPTR) (table : list (string * PyObject)) : list Event :=
  List.flat_map
    (fun entry =>
       let targetRTN := RTN_FindByName pin img (fst entry) in
       if RTN_Valid pin targetRTN then
         [EvRTN_Open targetRTN;
          EvRTN_InsertCall targetRTN ipoint (f (snd entry));
          EvRTN_Close targetRTN]
       else [])
    table.

(** The requests of the host that cannot disable the Trigger: all but
    a stop-rule check at an address matching a stop rule and a fired
    [toggleWrapper(false)]. *)
Definition keeps_active (pin : Pin.API) (options : PyTritonOptions.t)
    (e : HostEvent) : bool :=
  match e with
  | HE_Call AF_callbackLockCheck a => negb (stop_rule pin options (IARG_INST_PTR a))
  | HE_Call (AF_toggleWrapper flag) _ => flag
  | _ => true
  end.

(** Returns with the Trigger still active. *)
Definition stays_active {A} (m : M A) : Prop :=
  ensures (fun w => Trigger.getState (analysisTrigger w) = true) (fun _ => True) m.

(** Returns without having inserted any call of [toggleWrapper]. *)
Definition inserts_no_toggle {A} (m : M A) : Prop :=
  ensures (fun _ => True)
          (fun evs => forallb (fun e => negb (toggle_insert e)) evs = true) m.

(** The descriptor as [callbackBefore] hands it to the hook before the
    IR processing: after the configuration hook, with the effective
    address, the thread and the branch outcome of this execution. *)
Definition bound_irb (processingPyConf : ProcessingPyConf.t) (irb : IRBuilder)
    (hasEA : bool) (ea : ADDRINT) (isBranchTaken : bool)
    (branchTargetAddress : ADDRINT) (threadId : THREADID) : IRBuilder :=
  let irb1 := ProcessingPyConf.applyConf processingPyConf irb in
  let irb2 := if hasEA then irb_setup ea irb1 else irb1 in
  irb_setBranchTargetAddress branchTargetAddress
    (irb_setBranchTaken isBranchTaken (irb_setThreadID threadId irb2)).

(** ** [main] and [Usage] *)

(** The calls that [main] makes to the host and to the bindings, and
    the lines it writes to [std::cerr]. *)
Inductive Setup : Type :=
| PIN_InitSymbols
| PIN_SetSyntaxIntel
| initBindings
| IMG_AddInstrumentFunction
| TRACE_AddInstrumentFunction
| PIN_AddFiniFunction
| PIN_AddSyscallEntryFunction
| PIN_AddSyscallExitFunction
| PIN_InterceptSignal (sig : Z)
| PIN_AddThreadStartFunction
| PIN_AddThreadFiniFunction
| execBindings (script : string)
| cerr (line : string).

(** [main] returns a status or leaves through [exit]. *)
Inductive Status : Type :=
| Return (code : Z)
| Exit (code : Z).

(** [Usage]: the summary of the knobs goes to [std::cerr]; the result
    is -1. *)
Definition Usage (StringKnobSummary : string) : list Setup * Z :=
  ([cerr StringKnobSummary], -1).

(** [main], given the result of [PIN_Init] ([true] on failure, as in
    Pin), the value of the knob [-script] and whether [execBindings]
    finds the script. *)
Definition main (PIN_Init : bool) (StringKnobSummary : string)
    (KnobPythonModule : string) (execBindings_result : bool) : list Setup * Status :=
  if PIN_Init then
    let u := Usage StringKnobSummary in
    ([PIN_InitSymbols; PIN_SetSyntaxIntel] ++ fst u, Return (snd u))
  else
    let setup :=
      [PIN_InitSymbols; PIN_SetSyntaxIntel;
       initBindings;
       IMG_AddInstrumentFunction;
       TRACE_AddInstrumentFunction;
       PIN_AddFiniFunction;
       PIN_AddSyscallEntryFunction;
       PIN_AddSyscallExitFunction;
       PIN_InterceptSignal SIGFPE;
       PIN_InterceptSignal SIGILL;
       PIN_InterceptSignal SIGKILL;
       PIN_InterceptSignal SIGPIPE;
       PIN_InterceptSignal SIGSEGV;
       PIN_AddThreadStartFunction;
       PIN_AddThreadFiniFunction;
       execBindings KnobPythonModule] in
    if negb execBindings_result then
      (setup ++ [cerr "Error: Script file can't be found!"], Exit 1)
    else (setup, Return 0).

(** The signals that a setup intercepts, in order. *)
Definition intercepted_by (setup : list Setup) : list Z :=
  List.flat_map
    (fun s => match s with PIN_InterceptSignal sig => [sig] | _ => [] end) setup.

Definition registers_callbacks (setup : list Setup) : bool :=
  existsb
    (fun s =>
       match s with
       | PIN_InitSymbols | PIN_SetSyntaxIntel | cerr _ => false
       | _ => true
       end) setup.

(** ** Further concrete inputs *)

(** [startAnalysisFromAddr = {0x4010a4}], no start symbol. *)
Definition options_start_address : PyTritonOptions.t :=
  {| PyTritonOptions.startAnalysisFromSymbol := None;
     PyTritonOptions.startAnalysisFromAddr := {[ 4198564 ]};
     PyTritonOptions.startAnalysisFromOffset := empty;
     PyTritonOptions.stopAnalysisFromAddr := empty;
     PyTritonOptions.stopAnalysisFromOffset := empty;
     PyTritonOptions.callbackRoutineEntry := [];
     PyTritonOptions.callbackRoutineExit := [] |}.

(** [startAnalysisFromOffset = {0}], no start symbol. *)
Definition options_start_offset_zero : PyTritonOptions.t :=
  {| PyTritonOptions.startAnalysisFromSymbol := None;
     PyTritonOptions.startAnalysisFromAddr := empty;
     PyTritonOptions.startAnalysisFromOffset := {[ 0 ]};
     PyTritonOptions.stopAnalysisFromAddr := empty;
     PyTritonOptions.stopAnalysisFromOffset := empty;
     PyTritonOptions.callbackRoutineEntry := [];
     PyTritonOptions.callbackRoutineExit := [] |}.

(** Routine hooks on [main] (found in the image of [pin_one]) and on
    [helper] (not found). *)
Definition options_routines : PyTritonOptions.t :=
  {| PyTritonOptions.startAnalysisFromSymbol := Some "main"%string;
     PyTritonOptions.startAnalysisFromAddr := empty;
     PyTritonOptions.startAnalysisFromOffset := empty;
     PyTritonOptions.stopAnalysisFromAddr := empty;
     PyTritonOptions.stopAnalysisFromOffset := empty;
     PyTritonOptions.callbackRoutineEntry :=
       [("helper"%string, 7); ("main"%string, 8)];
     PyTritonOptions.callbackRoutineExit := [("main"%string, 9)] |}.

(** A register-to-register instruction at 0x4010a0 and a store at
    0x4010a4. *)
Definition ins_plain : INS :=
  {| INS_Address := 4198560; INS_MemoryOperandCount := 0;
     INS_IsSyscall := false; INS_HasFallThrough := true;
     INS_OperandCount := 2; INS_MemoryOperandIsWritten := fun _ => false;
     INS_MemoryWriteSize := 0 |}.

Definition ins_store_next : INS :=
  {| INS_Address := 4198564; INS_MemoryOperandCount := 1;
     INS_IsSyscall := false; INS_HasFallThrough := true;
     INS_OperandCount := 2; INS_MemoryOperandIsWritten := fun _ => true;
     INS_MemoryWriteSize := 4 |}.

(** A state whose trace holds one record, of a branch for
    [engine_branch]. *)
Definition inst_sample : Inst :=
  {| inst_threadId := 1; inst_address := 4198560; inst_nextAddress := 4198564;
     inst_opcode := 0; inst_opcodeCategory := 1; inst_operands := [];
     inst_branchTaken := true; inst_branchTargetAddress := 4198400 |}.

Definition engine_branch : Engine :=
  {| createIRBuilder := createIRBuilder engine_plain;
     process := process engine_plain;
     isBranch := fun i => inst_opcodeCategory i =? 1 |}.

Definition world_traced : World :=
  {| analysisTrigger := true;
     ap := {| AnalysisProcessor.currentCtxH := None;
              AnalysisProcessor.trace := [inst_sample];
              AnalysisProcessor.numberOfBranchesTaken := 5;
              AnalysisProcessor.snapshotLocked := false;
              AnalysisProcessor.snapshotJournal := [] |};
     memory := memory_ramp |}.

(** * Properties *)

Arguments wrap64 : simpl never.

(** ** Reasoning on sequences of operations *)

Lemma lock_run_app (e1 e2 : list Event) (held : bool) :
  lock_run held (e1 ++ e2) =
  match lock_run held e1 with
  | Some held' => lock_run held' e2
  | None => None
  end.
Proof.
  revert held.
  induction e1 as [|e e1 IH]; intros held; [reflexivity|].
  destruct e; cbn [app lock_run]; try apply IH; destruct held; auto.
Qed.

Lemma no_record_app (e1 e2 : list Event) :
  no_record (e1 ++ e2) = no_record e1 && no_record e2.
Proof. unfold no_record. apply forallb_app. Qed.

Lemma count_locks_app (e1 e2 : list Event) :
  count_locks (e1 ++ e2) = (count_locks e1 + count_locks e2)%nat.
Proof. unfold count_locks. rewrite List.filter_app. apply List.length_app. Qed.

Section Ensures.

Variable I : World -> Prop.
Variable E : list Event -> Prop.
Hypothesis E_nil : E [].
Hypothesis E_app : forall e1 e2, E e1 -> E e2 -> E (e1 ++ e2).

Lemma ensures_ret {A} (a : A) : ensures I E (ret a).
Proof. intros w Hw. exists a, w, []. auto. Qed.

Lemma ensures_bind {A B} (m : M A) (k : A -> M B) :
  ensures I E m -> (forall a, ensures I E (k a)) -> ensures I E (bind m k).
Proof.
  intros Hm Hk w Hw.
  destruct (Hm w Hw) as (a & w1 & e1 & Em & Hw1 & He1).
  destruct (Hk a w1 Hw1) as (b & w2 & e2 & Ek & Hw2 & He2).
  exists b, w2, (e1 ++ e2). unfold bind. rewrite Em, Ek. auto.
Qed.

Lemma ensures_if {A} (c : bool) (m1 m2 : M A) :
  ensures I E m1 -> ensures I E m2 -> ensures I E (if c then m1 else m2).
Proof. destruct c; auto. Qed.

End Ensures.

Lemma balanced_app (e1 e2 : list Event) :
  lock_run false e1 = Some false -> lock_run false e2 = Some false ->
  lock_run false (e1 ++ e2) = Some false.
Proof. intros H1 H2. rewrite lock_run_app, H1. exact H2. Qed.

Lemma no_record_app_true (e1 e2 : list Event) :
  no_record e1 = true -> no_record e2 = true -> no_record (e1 ++ e2) = true.
Proof. intros H1 H2. rewrite no_record_app, H1, H2. reflexivity. Qed.

Lemma orderly_ret {A} (a : A) : orderly (ret a).
Proof. apply ensures_ret. reflexivity. Qed.

Lemma orderly_bind {A B} (m : M A) (k : A -> M B) :
  orderly m -> (forall a, orderly (k a)) -> orderly (bind m k).
Proof. apply ensures_bind. exact balanced_app. Qed.

Lemma dormant_ret {A} (a : A) : dormant (ret a).
Proof. apply ensures_ret. reflexivity. Qed.

Lemma dormant_bind {A B} (m : M A) (k : A -> M B) :
  dormant m -> (forall a, dormant (k a)) -> dormant (bind m k).
Proof. apply ensures_bind. exact no_record_app_true. Qed.

(** Operations that neither touch the lock nor create a record, and
    leave the state alone. *)
Lemma orderly_emit (e : Event) :
  lock_run false [e] = Some false -> orderly (emit e).
Proof. intros He w _. exists tt, w, [e]. auto. Qed.

Lemma dormant_emit (e : Event) :
  is_record e = false -> dormant (emit e).
Proof.
  intros He w Hw. exists tt, w, [e]. repeat split; auto.
  unfold no_record. cbn. rewrite He. reflexivity.
Qed.

(** ** The helpers of the rules *)

Section Facts.

Variable pin : Pin.API.
Variable engine : Engine.
Variable processingPyConf : ProcessingPyConf.t.
Variable options : PyTritonOptions.t.
Variable LIGHT_VERSION : bool.

Lemma toggleWrapper_run (flag : bool) (w : World) :
  toggleWrapper flag w =
  Returned tt (set_trigger flag w) [EvLock; EvTriggerUpdate flag; EvUnlock].
Proof. reflexivity. Qed.

Lemma getBaseAddress_run (address : Z) (w : World) :
  getBaseAddress pin address w =
  Returned (base_of pin address) w [EvLock; EvUnlock].
Proof.
  unfold getBaseAddress, base_of, resolves.
  destruct (RTN_Valid pin (RTN_FindByAddress pin address)) eqn:Hrtn;
    [destruct (SEC_Valid pin (RTN_Sec pin (RTN_FindByAddress pin address))) eqn:Hsec;
     [destruct (IMG_Valid pin (SEC_Img pin (RTN_Sec pin (RTN_FindByAddress pin address)))) eqn:Himg|]|];
    cbn; rewrite ?Hrtn, ?Hsec, ?Himg; reflexivity.
Qed.

Lemma getInsOffset_run (address : Z) (w : World) :
  getInsOffset pin address w =
  Returned (offset_of pin address) w [EvLock; EvUnlock].
Proof.
  unfold getInsOffset, bind, offset_of. rewrite getBaseAddress_run.
  destruct (base_of pin address =? 0); reflexivity.
Qed.

Lemma checkLockAnalysis_run (address : Z) (w : World) :
  checkLockAnalysis pin options address w =
  if bool_decide (elem_of address (PyTritonOptions.stopAnalysisFromAddr options)) then
    Returned tt (set_trigger false w) [EvLock; EvTriggerUpdate false; EvUnlock]
  else if bool_decide (elem_of (offset_of pin address)
                         (PyTritonOptions.stopAnalysisFromOffset options)) then
    Returned tt (set_trigger false w)
      [EvLock; EvUnlock; EvLock; EvTriggerUpdate false; EvUnlock]
  else Returned tt w [EvLock; EvUnlock].
Proof.
  unfold checkLockAnalysis.
  destruct (bool_decide (elem_of address _)); [reflexivity|].
  unfold bind. rewrite getInsOffset_run.
  destruct (bool_decide (elem_of (offset_of pin address) _)); reflexivity.
Qed.

Lemma checkUnlockAnalysis_run (address : Z) (w : World) :
  checkUnlockAnalysis pin options address w =
  match PyTritonOptions.startAnalysisFromSymbol options with
  | Some symbol =>
      if String.eqb (RTN_FindNameByAddress pin address) symbol then
        Returned tt (set_trigger true w) [EvLock; EvTriggerUpdate true; EvUnlock]
      else Returned tt w []
  | None =>
      if bool_decide (elem_of address (PyTritonOptions.startAnalysisFromAddr options)) then
        Returned tt (set_trigger true w) [EvLock; EvTriggerUpdate true; EvUnlock]
      else if bool_decide (elem_of (offset_of pin address)
                             (PyTritonOptions.startAnalysisFromOffset options)) then
        Returned tt (set_trigger true w)
          [EvLock; EvUnlock; EvLock; EvTriggerUpdate true; EvUnlock]
      else Returned tt w [EvLock; EvUnlock]
  end.
Proof.
  unfold checkUnlockAnalysis.
  destruct (PyTritonOptions.startAnalysisFromSymbol options) as [symbol|].
  - destruct (String.eqb _ symbol); reflexivity.
  - destruct (bool_decide (elem_of address _)); [reflexivity|].
    unfold bind. rewrite getInsOffset_run.
    destruct (bool_decide (elem_of (offset_of pin address) _)); reflexivity.
Qed.

(** The Trigger after the two checks, in terms of the rules. *)
Lemma checkLockAnalysis_trigger (address : Z) (w : World) :
  analysisTrigger (final (checkLockAnalysis pin options address w)) =
  if stop_rule pin options address then false else analysisTrigger w.
Proof.
  rewrite checkLockAnalysis_run. unfold stop_rule.
  destruct (bool_decide (elem_of address _)); [reflexivity|].
  destruct (bool_decide (elem_of (offset_of pin address) _)); reflexivity.
Qed.

Lemma checkUnlockAnalysis_trigger (address : Z) (w : World) :
  analysisTrigger (final (checkUnlockAnalysis pin options address w)) =
  if start_rule pin options address then true else analysisTrigger w.
Proof.
  rewrite checkUnlockAnalysis_run. unfold start_rule.
  destruct (PyTritonOptions.startAnalysisFromSymbol options) as [symbol|].
  - destruct (String.eqb _ symbol); reflexivity.
  - destruct (bool_decide (elem_of address _)); [reflexivity|].
    destruct (bool_decide (elem_of (offset_of pin address) _)); reflexivity.
Qed.

End Facts.

(** ** The gate of the callbacks *)

Section Gate.

Variable pin : Pin.API.
Variable engine : Engine.
Variable processingPyConf : ProcessingPyConf.t.
Variable options : PyTritonOptions.t.
Variable LIGHT_VERSION : bool.

Variable w : World.
Hypothesis inactive : Trigger.getState (analysisTrigger w) = false.

Ltac gate_closed f :=
  unfold f, bind, trigger_getState, get; rewrite inactive; reflexivity.

Lemma callbackBefore_inactive irb ctx hasEA ea taken target threadId :
  callbackBefore engine processingPyConf irb ctx hasEA ea taken target threadId w =
  Returned tt w [].
Proof. gate_closed @callbackBefore. Qed.

Lemma callbackAfter_inactive ctx threadId :
  callbackAfter engine processingPyConf LIGHT_VERSION ctx threadId w = Returned tt w [].
Proof. gate_closed @callbackAfter. Qed.

Lemma callbackSnapshot_inactive mem writeSize :
  callbackSnapshot LIGHT_VERSION mem writeSize w = Returned tt w [].
Proof. gate_closed @callbackSnapshot. Qed.

Lemma callbackRoutineEntry_inactive ctx threadId callback :
  callbackRoutineEntry processingPyConf ctx threadId callback w = Returned tt w [].
Proof. gate_closed @callbackRoutineEntry. Qed.

Lemma callbackRoutineExit_inactive ctx threadId callback :
  callbackRoutineExit processingPyConf ctx threadId callback w = Returned tt w [].
Proof. gate_closed @callbackRoutineExit. Qed.

Lemma callbackSyscallEntry_inactive threadId ctx std :
  callbackSyscallEntry processingPyConf threadId ctx std w = Returned tt w [].
Proof. gate_closed @callbackSyscallEntry. Qed.

Lemma callbackSyscallExit_inactive threadId ctx std :
  callbackSyscallExit processingPyConf threadId ctx std w = Returned tt w [].
Proof. gate_closed @callbackSyscallExit. Qed.

Lemma callbackSignals_inactive threadId sig ctx hasHandler :
  callbackSignals processingPyConf threadId sig ctx hasHandler w = Returned false w [].
Proof. gate_closed @callbackSignals. Qed.

(** The stop-rule check has no gate: whatever the Trigger, it takes the
    lock, in [toggleWrapper] or in [getBaseAddress]. *)
Lemma callbackLockCheck_inactive address :
  exists w' evs,
    callbackLockCheck pin options address w = Returned tt w' evs
    /\ Trigger.getState (analysisTrigger w') = false
    /\ no_record evs = true /\ no_hook evs = true
    /\ (1 <= count_locks evs)%nat /\ lock_balanced evs = true.
Proof.
  unfold callbackLockCheck. rewrite checkLockAnalysis_run.
  destruct (bool_decide (elem_of address _));
    [|destruct (bool_decide (elem_of (offset_of pin address) _))];
    eexists; eexists; (split; [reflexivity|]); cbn; auto 10 using inactive.
Qed.

End Gate.

(** ** Claim C1 *)

(** Claim C1, as amended.  For every instruction executed while the
    Trigger is inactive, the before, after and snapshot callbacks
    return at once: the state is unchanged and no operation is
    performed, hence no instruction record, no scripting hook and no
    lock.  The stop-rule check is not gated by the Trigger: it creates
    no record and invokes no hook either and leaves the Trigger
    inactive, but it acquires the lock at least once, and releases it
    as often. *)
Theorem inactive_instruction_callbacks
    (pin : Pin.API) (engine : Engine) (processingPyConf : ProcessingPyConf.t)
    (options : PyTritonOptions.t) (LIGHT_VERSION : bool) (w : World) :
  Trigger.getState (analysisTrigger w) = false ->
  (forall irb ctx hasEA ea taken target threadId,
      callbackBefore engine processingPyConf irb ctx hasEA ea taken target threadId w
      = Returned tt w [])
  /\ (forall ctx threadId,
         callbackAfter engine processingPyConf LIGHT_VERSION ctx threadId w
         = Returned tt w [])
  /\ (forall mem writeSize,
         callbackSnapshot LIGHT_VERSION mem writeSize w = Returned tt w [])
  /\ (forall address,
         exists w' evs,
           callbackLockCheck pin options address w = Returned tt w' evs
           /\ Trigger.getState (analysisTrigger w') = false
           /\ no_record evs = true /\ no_hook evs = true
           /\ (1 <= count_locks evs)%nat /\ lock_balanced evs = true).
Proof.
  intros Hw. repeat split.
  - intros. now apply callbackBefore_inactive.
  - intros. now apply callbackAfter_inactive.
  - intros. now apply callbackSnapshot_inactive.
  - intros. now apply callbackLockCheck_inactive.
Qed.

Lemma inactive_instruction_callbacks_witness :
  Trigger.getState (analysisTrigger world_inactive) = false
  /\ (forall irb ctx hasEA ea taken target threadId,
      callbackBefore engine_plain py_idle irb ctx hasEA ea taken target threadId
        world_inactive
      = Returned tt world_inactive [])
  /\ (forall ctx threadId,
         callbackAfter engine_plain py_idle false ctx threadId world_inactive
         = Returned tt world_inactive [])
  /\ (forall mem writeSize,
         callbackSnapshot false mem writeSize world_inactive
         = Returned tt world_inactive [])
  /\ (forall address,
         exists w' evs,
           callbackLockCheck pin_one options_stop_address address world_inactive
           = Returned tt w' evs
           /\ Trigger.getState (analysisTrigger w') = false
           /\ no_record evs = true /\ no_hook evs = true
           /\ (1 <= count_locks evs)%nat /\ lock_balanced evs = true).
Proof.
  split; [reflexivity|].
  apply (inactive_instruction_callbacks pin_one engine_plain py_idle
           options_stop_address false world_inactive).
  reflexivity.
Defined.

(** Claim C1 as stated fails: with the Trigger inactive, no stop rule
    configured and no module loaded, the stop-rule check fired for the
    instruction at 0x4010a0 acquires the lock (in [getBaseAddress]). *)
Lemma inactive_lock_check_takes_lock :
  Trigger.getState (analysisTrigger world_inactive) = false
  /\ callbackLockCheck pin_none options_none 4198560 world_inactive
     = Returned tt world_inactive [EvLock; EvUnlock]
  /\ count_locks (events (callbackLockCheck pin_none options_none 4198560 world_inactive))
     = 1%nat.
Proof. repeat split; vm_compute; reflexivity. Qed.

(** ** The gated lifecycle callbacks when the Trigger is active *)

Section Active.

Variable processingPyConf : ProcessingPyConf.t.
Variable w : World.
Hypothesis active : Trigger.getState (analysisTrigger w) = true.

Ltac gate_open f :=
  unfold f, bind, trigger_getState, get; rewrite active; reflexivity.

Lemma callbackSignals_active threadId sig ctx hasHandler :
  callbackSignals processingPyConf threadId sig ctx hasHandler w =
  Exited 0 (hooked processingPyConf w ctx threadId (ProcessingPyConf.callbackSignals threadId sig))
    [EvLock; EvUpdateCtxH {| pch_ctx := ctx; pch_threadId := threadId |};
     EvHook (ProcessingPyConf.callbackSignals threadId sig); EvUnlock].
Proof. gate_open @callbackSignals. Qed.

Lemma callbackSyscallEntry_active threadId ctx std :
  callbackSyscallEntry processingPyConf threadId ctx std w =
  Returned tt (hooked processingPyConf w ctx threadId (ProcessingPyConf.callbackSyscallEntry threadId std))
    [EvLock; EvUpdateCtxH {| pch_ctx := ctx; pch_threadId := threadId |};
     EvHook (ProcessingPyConf.callbackSyscallEntry threadId std); EvUnlock].
Proof. gate_open @callbackSyscallEntry. Qed.

Lemma callbackSyscallExit_active threadId ctx std :
  callbackSyscallExit processingPyConf threadId ctx std w =
  Returned tt (hooked processingPyConf w ctx threadId (ProcessingPyConf.callbackSyscallExit threadId std))
    [EvLock; EvUpdateCtxH {| pch_ctx := ctx; pch_threadId := threadId |};
     EvHook (ProcessingPyConf.callbackSyscallExit threadId std); EvUnlock].
Proof. gate_open @callbackSyscallExit. Qed.

Lemma callbackRoutineEntry_active ctx threadId callback :
  callbackRoutineEntry processingPyConf ctx threadId callback w =
  Returned tt (hooked processingPyConf w ctx threadId (ProcessingPyConf.callbackRoutine threadId callback))
    [EvLock; EvUpdateCtxH {| pch_ctx := ctx; pch_threadId := threadId |};
     EvHook (ProcessingPyConf.callbackRoutine threadId callback); EvUnlock].
Proof. gate_open @callbackRoutineEntry. Qed.

Lemma callbackRoutineExit_active ctx threadId callback :
  callbackRoutineExit processingPyConf ctx threadId callback w =
  Returned tt (hooked processingPyConf w ctx threadId (ProcessingPyConf.callbackRoutine threadId callback))
    [EvLock; EvUpdateCtxH {| pch_ctx := ctx; pch_threadId := threadId |};
     EvHook (ProcessingPyConf.callbackRoutine threadId callback); EvUnlock].
Proof. gate_open @callbackRoutineExit. Qed.

End Active.

(** ** Claim C2 *)

(** Claim C2, as amended.  For every signal handed to the handler (the
    five intercepted ones included): when the Trigger is active, the
    handler takes the lock, replaces the current context handle,
    forwards the signal exactly once to the scripting signal hook,
    releases the lock and then terminates the process with [exit(0)];
    when the Trigger is inactive, it returns [false] at once, without
    forwarding the signal and without terminating the process. *)
Theorem signal_handler_gated_then_exits
    (processingPyConf : ProcessingPyConf.t)
    (threadId : THREADID) (sig : Z) (ctx : CONTEXT) (hasHandler : bool) (w : World) :
  (Trigger.getState (analysisTrigger w) = true ->
   callbackSignals processingPyConf threadId sig ctx hasHandler w =
   Exited 0
     (set_ap (ProcessingPyConf.hook processingPyConf
                (ProcessingPyConf.callbackSignals threadId sig)
                (AnalysisProcessor.updateCurrentCtxH
                   {| pch_ctx := ctx; pch_threadId := threadId |} (ap w))) w)
     [EvLock; EvUpdateCtxH {| pch_ctx := ctx; pch_threadId := threadId |};
      EvHook (ProcessingPyConf.callbackSignals threadId sig); EvUnlock])
  /\ (Trigger.getState (analysisTrigger w) = false ->
      callbackSignals processingPyConf threadId sig ctx hasHandler w =
      Returned false w []).
Proof.
  split; intros Hw.
  - now apply callbackSignals_active.
  - now apply callbackSignals_inactive.
Qed.

Lemma signal_handler_gated_then_exits_witness :
  (Trigger.getState (analysisTrigger world_active) = true
   /\ callbackSignals py_idle 1 SIGSEGV 0 false world_active =
      Exited 0
        (set_ap (AnalysisProcessor.updateCurrentCtxH
                   {| pch_ctx := 0; pch_threadId := 1 |} (ap world_active))
           world_active)
        [EvLock; EvUpdateCtxH {| pch_ctx := 0; pch_threadId := 1 |};
         EvHook (ProcessingPyConf.callbackSignals 1 SIGSEGV); EvUnlock])
  /\ (Trigger.getState (analysisTrigger world_inactive) = false
      /\ callbackSignals py_idle 1 SIGSEGV 0 false world_inactive =
         Returned false world_inactive []).
Proof.
  split; (split; [reflexivity|]).
  - apply (proj1 (signal_handler_gated_then_exits py_idle 1 SIGSEGV 0 false world_active)).
    reflexivity.
  - apply (proj2 (signal_handler_gated_then_exits py_idle 1 SIGSEGV 0 false world_inactive)).
    reflexivity.
Defined.

(** Claim C2 as stated fails: a segmentation fault delivered while the
    Trigger is inactive is an intercepted signal, yet the handler
    returns [false] without any operation: the signal hook is not
    invoked and the process is not terminated. *)
Lemma inactive_signal_neither_forwarded_nor_fatal :
  In SIGSEGV intercepted_signals
  /\ Trigger.getState (analysisTrigger world_inactive) = false
  /\ callbackSignals py_idle 1 SIGSEGV 0 false world_inactive
     = Returned false world_inactive [].
Proof. repeat split; vm_compute; auto 10. Qed.

(** ** Claim C7 *)

(** Claim C7, as amended.  The syscall-entry, syscall-exit and signal
    callbacks are gated by the Trigger: when it is inactive they return
    at once, without any operation and with the state unchanged; when
    it is active they take the lock, replace the current context
    handle, invoke the matching scripting hook and release the lock
    (the signal callback then terminates the process).  The
    thread-start and thread-exit callbacks are not gated and have no
    scripting hook: whatever the Trigger, they acquire and release the
    lock and do nothing else. *)
Theorem lifecycle_callbacks_gates
    (processingPyConf : ProcessingPyConf.t)
    (threadId : THREADID) (ctx : CONTEXT) (std : SYSCALL_STANDARD)
    (sig : Z) (hasHandler : bool) (flags : Z) (w : World) :
  let h := {| pch_ctx := ctx; pch_threadId := threadId |} in
  let after c :=
    set_ap (ProcessingPyConf.hook processingPyConf c
              (AnalysisProcessor.updateCurrentCtxH h (ap w))) w in
  (Trigger.getState (analysisTrigger w) = false ->
   callbackSyscallEntry processingPyConf threadId ctx std w = Returned tt w []
   /\ callbackSyscallExit processingPyConf threadId ctx std w = Returned tt w []
   /\ callbackSignals processingPyConf threadId sig ctx hasHandler w
      = Returned false w [])
  /\ (Trigger.getState (analysisTrigger w) = true ->
      callbackSyscallEntry processingPyConf threadId ctx std w
      = Returned tt (after (ProcessingPyConf.callbackSyscallEntry threadId std))
          [EvLock; EvUpdateCtxH h;
           EvHook (ProcessingPyConf.callbackSyscallEntry threadId std); EvUnlock]
      /\ callbackSyscallExit processingPyConf threadId ctx std w
         = Returned tt (after (ProcessingPyConf.callbackSyscallExit threadId std))
             [EvLock; EvUpdateCtxH h;
              EvHook (ProcessingPyConf.callbackSyscallExit threadId std); EvUnlock]
      /\ callbackSignals processingPyConf threadId sig ctx hasHandler w
         = Exited 0 (after (ProcessingPyConf.callbackSignals threadId sig))
             [EvLock; EvUpdateCtxH h;
              EvHook (ProcessingPyConf.callbackSignals threadId sig); EvUnlock])
  /\ callbackThreadEntry threadId ctx flags w = Returned tt w [EvLock; EvUnlock]
  /\ callbackThreadExit threadId ctx flags w = Returned tt w [EvLock; EvUnlock].
Proof.
  cbv zeta. split; [|split]; [intros Hw|intros Hw|split; reflexivity].
  - split; [|split].
    + now apply callbackSyscallEntry_inactive.
    + now apply callbackSyscallExit_inactive.
    + now apply callbackSignals_inactive.
  - split; [|split].
    + now apply callbackSyscallEntry_active.
    + now apply callbackSyscallExit_active.
    + now apply callbackSignals_active.
Qed.

Lemma lifecycle_callbacks_gates_witness :
  Trigger.getState (analysisTrigger world_inactive) = false
  /\ callbackSyscallEntry py_idle 1 0 0 world_inactive = Returned tt world_inactive []
  /\ callbackSyscallExit py_idle 1 0 0 world_inactive = Returned tt world_inactive []
  /\ callbackSignals py_idle 1 SIGKILL 0 false world_inactive
     = Returned false world_inactive [].
Proof.
  split; [reflexivity|].
  apply (proj1 (lifecycle_callbacks_gates py_idle 1 0 0 SIGKILL false 0 world_inactive)).
  reflexivity.
Defined.

(** Claim C7 as stated fails: with the Trigger inactive, the
    thread-start callback does not return before the lock: it acquires
    and releases it, and it has no scripting hook to invoke. *)
Lemma inactive_thread_start_takes_lock :
  Trigger.getState (analysisTrigger world_inactive) = false
  /\ callbackThreadEntry 1 0 0 world_inactive
     = Returned tt world_inactive [EvLock; EvUnlock]
  /\ callbackThreadExit 1 0 0 world_inactive
     = Returned tt world_inactive [EvLock; EvUnlock].
Proof. repeat split. Qed.

(** ** Claim C9 *)

(** Claim C9.  The routine-entry and the routine-exit callbacks are
    extensionally identical: on every context, thread id, callback
    handle and state they yield the same outcome (same result, same
    final state, same sequence of operations), whether they run
    directly or as inserted calls; and this common behaviour is the one
    described for the handler: test of the Trigger, then lock,
    replacement of the current context handle, routine hook on the
    thread id and the handle, unlock. *)
Theorem routine_entry_exit_identical
    (pin : Pin.API) (engine : Engine) (processingPyConf : ProcessingPyConf.t)
    (options : PyTritonOptions.t) (LIGHT_VERSION : bool)
    (ctx : CONTEXT) (threadId : THREADID) (callback : PyObject)
    (a : IARGS) (w : World) :
  callbackRoutineEntry processingPyConf ctx threadId callback w
  = callbackRoutineExit processingPyConf ctx threadId callback w
  /\ callbackRoutineEntry processingPyConf ctx threadId callback w
     = routine_handler_spec processingPyConf ctx threadId callback w
  /\ callbackRoutineExit processingPyConf ctx threadId callback w
     = routine_handler_spec processingPyConf ctx threadId callback w
  /\ fire pin engine processingPyConf options LIGHT_VERSION
       (AF_callbackRoutineEntry callback) a w
     = fire pin engine processingPyConf options LIGHT_VERSION
         (AF_callbackRoutineExit callback) a w.
Proof.
  assert (Hspec : callbackRoutineEntry processingPyConf ctx threadId callback w
                  = routine_handler_spec processingPyConf ctx threadId callback w).
  { unfold routine_handler_spec.
    destruct (Trigger.getState (analysisTrigger w)) eqn:Hw.
    - now apply callbackRoutineEntry_active.
    - now apply callbackRoutineEntry_inactive. }
  assert (Hspec' : callbackRoutineExit processingPyConf ctx threadId callback w
                   = routine_handler_spec processingPyConf ctx threadId callback w).
  { unfold routine_handler_spec.
    destruct (Trigger.getState (analysisTrigger w)) eqn:Hw.
    - now apply callbackRoutineExit_active.
    - now apply callbackRoutineExit_inactive. }
  split; [congruence|].
  split; [exact Hspec|].
  split; [exact Hspec'|].
  reflexivity.
Qed.

(** ** Claim C3 *)

(** Claim C3 (a defect of the code).  With [startAnalysisFromSymbol =
    "main"] and [startAnalysisFromAddr = {0x400500}], the address
    0x400500 lies in the routine [start]: the rule of the claim, a
    disjunction, holds at this address and the Trigger should be
    enabled; [checkUnlockAnalysis] returns without any operation and
    leaves the Trigger inactive, because the tests of the address and
    of the offset hang on the [else] of the test of the symbol. *)
Lemma start_symbol_shadows_start_address :
  start_rule_spec pin_one options_symbol_and_address 4195584 = true
  /\ bool_decide (elem_of 4195584
        (PyTritonOptions.startAnalysisFromAddr options_symbol_and_address)) = true
  /\ checkUnlockAnalysis pin_one options_symbol_and_address 4195584 world_inactive
     = Returned tt world_inactive [].
Proof. repeat split; vm_compute; reflexivity. Qed.

(** ** Claim C4 *)

Lemma unresolved_base (pin : Pin.API) (address : Z) :
  resolves pin address = false -> base_of pin address = 0.
Proof. unfold base_of. now intros ->. Qed.

Lemma unresolved_offset (pin : Pin.API) (address : Z) :
  resolves pin address = false -> offset_of pin address = 0.
Proof. intros H. unfold offset_of. now rewrite (unresolved_base _ _ H). Qed.

(** Claim C4, as amended.  For every address whose owning module
    cannot be resolved, offset resolution returns 0.  For such an
    address that is not a stop address, the offset-based stop rule
    matches exactly when 0 is a configured stop offset: the check
    deactivates the Trigger when 0 is among the stop offsets and
    leaves the state alone when it is not.  For such an address that
    is not a start address, and when no start symbol is configured,
    the offset-based start rule matches exactly when 0 is a configured
    start offset: the check activates the Trigger when 0 is among the
    start offsets and leaves the state alone when it is not. *)
Theorem unresolved_offset_rules
    (pin : Pin.API) (options : PyTritonOptions.t) (address : Z) (w : World) :
  resolves pin address = false ->
  getInsOffset pin address w = Returned 0 w [EvLock; EvUnlock]
  /\ (~ elem_of address (PyTritonOptions.stopAnalysisFromAddr options) ->
      (~ elem_of 0 (PyTritonOptions.stopAnalysisFromOffset options) ->
       checkLockAnalysis pin options address w = Returned tt w [EvLock; EvUnlock])
      /\ (elem_of 0 (PyTritonOptions.stopAnalysisFromOffset options) ->
          checkLockAnalysis pin options address w =
          Returned tt (set_trigger false w)
            [EvLock; EvUnlock; EvLock; EvTriggerUpdate false; EvUnlock]))
  /\ (PyTritonOptions.startAnalysisFromSymbol options = None ->
      ~ elem_of address (PyTritonOptions.startAnalysisFromAddr options) ->
      (~ elem_of 0 (PyTritonOptions.startAnalysisFromOffset options) ->
       checkUnlockAnalysis pin options address w = Returned tt w [EvLock; EvUnlock])
      /\ (elem_of 0 (PyTritonOptions.startAnalysisFromOffset options) ->
          checkUnlockAnalysis pin options address w =
          Returned tt (set_trigger true w)
            [EvLock; EvUnlock; EvLock; EvTriggerUpdate true; EvUnlock])).
Proof.
  intros Hres. split; [|split].
  - rewrite getInsOffset_run, (unresolved_offset _ _ Hres). reflexivity.
  - intros Haddr. rewrite checkLockAnalysis_run, (unresolved_offset _ _ Hres).
    rewrite (bool_decide_eq_false_2 _ Haddr).
    split; intros H0.
    + now rewrite (bool_decide_eq_false_2 _ H0).
    + now rewrite (bool_decide_eq_true_2 _ H0).
  - intros Hsym Haddr. rewrite checkUnlockAnalysis_run, Hsym, (unresolved_offset _ _ Hres).
    rewrite (bool_decide_eq_false_2 _ Haddr).
    split; intros H0.
    + now rewrite (bool_decide_eq_false_2 _ H0).
    + now rewrite (bool_decide_eq_true_2 _ H0).
Qed.

Lemma unresolved_offset_rules_witness :
  (resolves pin_none 4660 = false
   /\ ~ elem_of 4660 (PyTritonOptions.stopAnalysisFromAddr options_stop_offset_zero)
   /\ elem_of 0 (PyTritonOptions.stopAnalysisFromOffset options_stop_offset_zero)
   /\ PyTritonOptions.startAnalysisFromSymbol options_start_offset_zero = None
   /\ ~ elem_of 4660 (PyTritonOptions.startAnalysisFromAddr options_start_offset_zero)
   /\ elem_of 0 (PyTritonOptions.startAnalysisFromOffset options_start_offset_zero))
  /\ getInsOffset pin_none 4660 world_active
     = Returned 0 world_active [EvLock; EvUnlock]
  /\ checkLockAnalysis pin_none options_stop_offset_zero 4660 world_active
     = Returned tt (set_trigger false world_active)
         [EvLock; EvUnlock; EvLock; EvTriggerUpdate false; EvUnlock]
  /\ checkUnlockAnalysis pin_none options_start_offset_zero 4660 world_inactive
     = Returned tt (set_trigger true world_inactive)
         [EvLock; EvUnlock; EvLock; EvTriggerUpdate true; EvUnlock].
Proof.
  assert (Haddr : ~ elem_of 4660
                      (PyTritonOptions.stopAnalysisFromAddr options_stop_offset_zero)).
  { apply (proj1 (bool_decide_eq_false _)). vm_compute. reflexivity. }
  assert (Hzero : elem_of 0
                    (PyTritonOptions.stopAnalysisFromOffset options_stop_offset_zero)).
  { apply (bool_decide_unpack _). vm_compute. exact I. }
  assert (Haddr' : ~ elem_of 4660
                       (PyTritonOptions.startAnalysisFromAddr
                          options_start_offset_zero)).
  { apply (proj1 (bool_decide_eq_false _)). vm_compute. reflexivity. }
  assert (Hzero' : elem_of 0
                     (PyTritonOptions.startAnalysisFromOffset
                        options_start_offset_zero)).
  { apply (bool_decide_unpack _). vm_compute. exact I. }
  split; [repeat split; assumption|].
  split; [|split].
  - apply (proj1 (unresolved_offset_rules pin_none options_stop_offset_zero 4660
                    world_active eq_refl)).
  - apply (proj2 (proj1 (proj2 (unresolved_offset_rules pin_none
                                  options_stop_offset_zero 4660 world_active eq_refl))
                    Haddr) Hzero).
  - apply (proj2 (proj2 (proj2 (unresolved_offset_rules pin_none
                                  options_start_offset_zero 4660 world_inactive
                                  eq_refl))
                    eq_refl Haddr') Hzero').
Defined.

(** Claim C4 as stated fails: the value returned for an unresolved
    address is 0, which can be configured as an offset.  With
    [stopAnalysisFromOffset = {0}] and no module loaded, the stop-rule
    check at 0x1234 matches the offset rule and deactivates the active
    Trigger. *)
Lemma unresolved_address_matches_offset_zero :
  resolves pin_none 4660 = false
  /\ Trigger.getState (analysisTrigger world_active) = true
  /\ events (checkLockAnalysis pin_none options_stop_offset_zero 4660 world_active)
     = [EvLock; EvUnlock; EvLock; EvTriggerUpdate false; EvUnlock]
  /\ Trigger.getState
       (analysisTrigger
          (final (checkLockAnalysis pin_none options_stop_offset_zero 4660 world_active)))
     = false.
Proof. repeat split; vm_compute; reflexivity. Qed.

(** ** Claim C5 *)

Lemma append_journal_nil (w : World) : append_journal [] w = w.
Proof.
  destruct w as [tr a m]. destruct a. unfold append_journal, set_ap. cbn.
  now rewrite List.app_nil_r.
Qed.

Lemma append_journal_cons (addr : Z) (byte : Byte.byte)
    (entries : list (Z * Byte.byte)) (w : World) :
  append_journal entries
    (set_ap (AnalysisProcessor.addSnapshotModification addr byte (ap w)) w)
  = append_journal ((addr, byte) :: entries) w.
Proof.
  unfold append_journal, set_ap. cbn. now rewrite <- List.app_assoc.
Qed.

(** The loop appends one entry per iteration, in increasing order of
    the counter, and performs no other operation. *)
Lemma snapshot_loop_run (n : nat) :
  forall (mem i : Z) (w : World),
    snapshot_loop mem n i w =
    Returned tt
      (append_journal (written_bytes_wrapped (memory w) (mem + i) (Z.of_nat n)) w) [].
Proof.
  induction n as [|n IH]; intros mem i w.
  - unfold written_bytes_wrapped. rewrite seqZ_nil by lia.
    cbn. now rewrite append_journal_nil.
  - cbn [snapshot_loop]. unfold bind, get, ap_do, modify.
    rewrite IH. cbn [app set_ap memory].
    rewrite append_journal_cons. unfold written_bytes_wrapped.
    rewrite (seqZ_cons (mem + i) (Z.of_nat (S n))) by lia.
    replace (Z.pred (Z.of_nat (S n))) with (Z.of_nat n) by lia.
    replace (Z.succ (mem + i)) with (mem + (i + 1)) by lia.
    reflexivity.
Qed.

(** Inside the address space the addresses do not wrap. *)
Lemma written_bytes_in_range (mem : Z -> Byte.byte) (A n : Z) :
  0 <= A -> A + n <= 2 ^ 64 ->
  written_bytes_wrapped mem A n = written_bytes mem A n.
Proof.
  intros HA Hn. unfold written_bytes_wrapped, written_bytes.
  apply List.map_ext_in. intros a Ha.
  apply list_elem_of_In, elem_of_seqZ in Ha.
  unfold wrap64. now rewrite Z.mod_small by lia.
Qed.

Lemma written_bytes_lookup (mem : Z -> Byte.byte) (A n : Z) (k : nat) :
  Z.of_nat k < n ->
  written_bytes mem A n !! k = Some (A + Z.of_nat k, mem (A + Z.of_nat k)).
Proof.
  intros Hk. unfold written_bytes.
  change (List.map ?f ?l) with (f <$> l).
  rewrite list_lookup_fmap, lookup_seqZ_lt by exact Hk. reflexivity.
Qed.

Lemma written_bytes_length (mem : Z -> Byte.byte) (A n : Z) :
  List.length (written_bytes mem A n) = Z.to_nat n.
Proof. unfold written_bytes. now rewrite List.length_map, length_seqZ. Qed.

Lemma callbackSnapshot_journals (mem writeSize : Z) (w : World) :
  Trigger.getState (analysisTrigger w) = true ->
  AnalysisProcessor.isSnapshotLocked (ap w) = false ->
  0 <= writeSize ->
  callbackSnapshot false mem writeSize w =
  Returned tt (append_journal (written_bytes_wrapped (memory w) mem writeSize) w)
    [EvLock; EvUnlock].
Proof.
  intros Hact Hunl Hsz.
  unfold callbackSnapshot, bind, trigger_getState, ap_get, get.
  rewrite Hact. cbn [negb]. rewrite Hunl.
  unfold ap_lock, emit. rewrite snapshot_loop_run.
  rewrite Z2Nat.id, Z.add_0_r by exact Hsz. reflexivity.
Qed.

Lemma callbackSnapshot_locked (LIGHT_VERSION : bool) (mem writeSize : Z) (w : World) :
  AnalysisProcessor.isSnapshotLocked (ap w) = true ->
  callbackSnapshot LIGHT_VERSION mem writeSize w = Returned tt w [].
Proof.
  intros Hl. unfold callbackSnapshot, bind, trigger_getState, ap_get, get.
  destruct (Trigger.getState (analysisTrigger w)); [|reflexivity].
  destruct LIGHT_VERSION; [reflexivity|]. cbn [negb]. now rewrite Hl.
Qed.

(** Claim C5.  In the build with the snapshot engine ([LIGHT_VERSION]
    not defined), for a write of [n] bytes at address [A] inside the
    address space: while the Trigger is active and the journal
    unlocked, the snapshot callback, which runs before the write, takes
    the lock once and appends to the journal exactly [n] entries, the
    [k]-th being the address [A + k] with the byte that the memory
    holds there when the callback runs, and changes nothing else;
    while the journal is locked or the Trigger inactive, it appends
    nothing. *)
Theorem snapshot_journals_written_bytes (A n : Z) (w : World) :
  0 <= A -> 0 <= n -> A + n <= 2 ^ 64 ->
  (Trigger.getState (analysisTrigger w) = true ->
   AnalysisProcessor.isSnapshotLocked (ap w) = false ->
   callbackSnapshot false A n w =
   Returned tt (append_journal (written_bytes (memory w) A n) w) [EvLock; EvUnlock]
   /\ List.length (written_bytes (memory w) A n) = Z.to_nat n
   /\ forall k : nat,
        Z.of_nat k < n ->
        written_bytes (memory w) A n !! k
        = Some (A + Z.of_nat k, memory w (A + Z.of_nat k)))
  /\ (Trigger.getState (analysisTrigger w) = false
      \/ AnalysisProcessor.isSnapshotLocked (ap w) = true ->
      callbackSnapshot false A n w = Returned tt w []).
Proof.
  intros HA Hn Hfit. split.
  - intros Hact Hunl. split; [|split].
    + rewrite <- (written_bytes_in_range (memory w) A n HA Hfit).
      now apply callbackSnapshot_journals.
    + apply written_bytes_length.
    + intros k Hk. now apply written_bytes_lookup.
  - intros [Hin|Hl].
    + now apply callbackSnapshot_inactive.
    + now apply callbackSnapshot_locked.
Qed.

Lemma snapshot_journals_written_bytes_witness :
  (0 <= 6295616 /\ 0 <= 4 /\ 6295616 + 4 <= 2 ^ 64
   /\ Trigger.getState (analysisTrigger world_active) = true
   /\ AnalysisProcessor.isSnapshotLocked (ap world_active) = false)
  /\ callbackSnapshot false 6295616 4 world_active =
     Returned tt (append_journal (written_bytes (memory world_active) 6295616 4)
                    world_active) [EvLock; EvUnlock]
  /\ AnalysisProcessor.snapshotJournal
       (ap (append_journal (written_bytes (memory world_active) 6295616 4)
              world_active))
     = [(6295616, Byte.x40); (6295617, Byte.x41);
        (6295618, Byte.x42); (6295619, Byte.x43)].
Proof.
  split; [repeat split; try reflexivity; lia|].
  split; [|vm_compute; reflexivity].
  apply (proj1 (snapshot_journals_written_bytes 6295616 4 world_active
                  ltac:(lia) ltac:(lia) ltac:(lia))); reflexivity.
Defined.

(** ** The lock discipline of the callbacks *)

Lemma orderly_outcome {A} (m : M A) (w : World) :
  orderly m -> completes (m w) = true /\ lock_balanced (events (m w)) = true.
Proof.
  intros Hm. destruct (Hm w I) as (a & w' & evs & -> & _ & Hevs).
  unfold lock_balanced. cbn. now rewrite Hevs.
Qed.

Lemma orderly_get {A} (f : World -> A) : orderly (get f).
Proof. intros w _. exists (f w), w, []. auto. Qed.

Lemma orderly_if {A} (c : bool) (m1 m2 : M A) :
  orderly m1 -> orderly m2 -> orderly (if c then m1 else m2).
Proof. apply ensures_if. Qed.

Ltac orderly_steps :=
  repeat first
    [ apply orderly_ret
    | apply orderly_get
    | apply orderly_emit; reflexivity
    | apply orderly_if
    | apply orderly_bind; [|intros ?] ].

Section Discipline.

Variable pin : Pin.API.
Variable engine : Engine.
Variable processingPyConf : ProcessingPyConf.t.
Variable options : PyTritonOptions.t.
Variable LIGHT_VERSION : bool.

Lemma toggleWrapper_orderly (flag : bool) : orderly (toggleWrapper flag).
Proof. intros w _. rewrite toggleWrapper_run. eauto 10. Qed.

Lemma checkLockAnalysis_orderly (address : Z) :
  orderly (checkLockAnalysis pin options address).
Proof.
  intros w _. rewrite checkLockAnalysis_run.
  destruct (bool_decide (elem_of address _));
    [|destruct (bool_decide (elem_of (offset_of pin address) _))]; eauto 10.
Qed.

Lemma checkUnlockAnalysis_orderly (address : Z) :
  orderly (checkUnlockAnalysis pin options address).
Proof.
  intros w _. rewrite checkUnlockAnalysis_run.
  destruct (PyTritonOptions.startAnalysisFromSymbol options) as [symbol|];
    [destruct (String.eqb _ symbol)
    |destruct (bool_decide (elem_of address _));
       [|destruct (bool_decide (elem_of (offset_of pin address) _))]]; eauto 10.
Qed.

Lemma callbackBefore_orderly irb ctx hasEA ea taken target threadId :
  orderly (callbackBefore engine processingPyConf irb ctx hasEA ea taken target threadId).
Proof.
  intros w _.
  destruct (Trigger.getState (analysisTrigger w)) eqn:Hw.
  - unfold callbackBefore, bind, trigger_getState, get. rewrite Hw. cbn.
    eexists _, _, _. split; [reflexivity|]. split; [exact I|reflexivity].
  - rewrite callbackBefore_inactive by exact Hw. eauto 10.
Qed.

(** [callbackAfter] faults on the null record of an empty trace;
    whenever it returns, the lock has been released. *)
Lemma callbackAfter_balanced ctx threadId (w : World) :
  completes (callbackAfter engine processingPyConf LIGHT_VERSION ctx threadId w) = true ->
  lock_balanced
    (events (callbackAfter engine processingPyConf LIGHT_VERSION ctx threadId w)) = true.
Proof.
  destruct (Trigger.getState (analysisTrigger w)) eqn:Hw.
  - unfold callbackAfter, bind, trigger_getState, get, ap_get, get.
    rewrite Hw. cbn.
    destruct LIGHT_VERSION; cbn; [reflexivity|].
    destruct (List.last _ None); cbn; [reflexivity|discriminate].
  - rewrite callbackAfter_inactive by exact Hw. reflexivity.
Qed.

Lemma snapshot_loop_orderly (mem : Z) (n : nat) (i : Z) :
  orderly (snapshot_loop mem n i).
Proof. intros w _. rewrite snapshot_loop_run. eauto 10. Qed.

Lemma callbackSnapshot_orderly (mem writeSize : Z) :
  orderly (callbackSnapshot LIGHT_VERSION mem writeSize).
Proof.
  intros w _.
  unfold callbackSnapshot, bind, trigger_getState, ap_get, get.
  destruct (Trigger.getState (analysisTrigger w)); cbn [negb]; [|eauto 10].
  destruct LIGHT_VERSION; [eauto 10|].
  destruct (AnalysisProcessor.isSnapshotLocked (ap w)); [eauto 10|].
  unfold ap_lock, emit. rewrite snapshot_loop_run. cbn. eauto 10.
Qed.

Lemma callbackRoutineEntry_orderly ctx threadId callback :
  orderly (callbackRoutineEntry processingPyConf ctx threadId callback).
Proof.
  intros w _. destruct (Trigger.getState (analysisTrigger w)) eqn:Hw.
  - rewrite callbackRoutineEntry_active by exact Hw. eauto 10.
  - rewrite callbackRoutineEntry_inactive by exact Hw. eauto 10.
Qed.

Lemma callbackRoutineExit_orderly ctx threadId callback :
  orderly (callbackRoutineExit processingPyConf ctx threadId callback).
Proof.
  intros w _. destruct (Trigger.getState (analysisTrigger w)) eqn:Hw.
  - rewrite callbackRoutineExit_active by exact Hw. eauto 10.
  - rewrite callbackRoutineExit_inactive by exact Hw. eauto 10.
Qed.

Lemma callbackSyscallEntry_orderly threadId ctx std :
  orderly (callbackSyscallEntry processingPyConf threadId ctx std).
Proof.
  intros w _. destruct (Trigger.getState (analysisTrigger w)) eqn:Hw.
  - rewrite callbackSyscallEntry_active by exact Hw. eauto 10.
  - rewrite callbackSyscallEntry_inactive by exact Hw. eauto 10.
Qed.

Lemma callbackSyscallExit_orderly threadId ctx std :
  orderly (callbackSyscallExit processingPyConf threadId ctx std).
Proof.
  intros w _. destruct (Trigger.getState (analysisTrigger w)) eqn:Hw.
  - rewrite callbackSyscallExit_active by exact Hw. eauto 10.
  - rewrite callbackSyscallExit_inactive by exact Hw. eauto 10.
Qed.

Lemma callbackFini_orderly (code : Z) : orderly (callbackFini processingPyConf code).
Proof. intros w _. unfold callbackFini. cbn. eauto 10. Qed.

Lemma callbackImageLoad_orderly (img : IMG) :
  orderly (callbackImageLoad pin processingPyConf img).
Proof. intros w _. unfold callbackImageLoad. cbn. eauto 10. Qed.

Lemma insert_routine_calls_orderly img ipoint f table :
  orderly (insert_routine_calls pin img ipoint f table).
Proof.
  induction table as [|[name callback] rest IH]; cbn [insert_routine_calls].
  - apply orderly_ret.
  - orderly_steps. exact IH.
Qed.

Lemma IMG_Instrumentation_orderly (img : IMG) :
  orderly (IMG_Instrumentation pin processingPyConf options img).
Proof.
  unfold IMG_Instrumentation.
  apply orderly_bind; [|intros _].
  { destruct (PyTritonOptions.startAnalysisFromSymbol options); orderly_steps. }
  apply orderly_bind; [apply insert_routine_calls_orderly|intros _].
  apply orderly_bind; [apply insert_routine_calls_orderly|intros _].
  apply orderly_if; [apply callbackImageLoad_orderly|apply orderly_ret].
Qed.

Lemma INS_InsertCalls_orderly (ins : INS) : orderly (INS_InsertCalls engine ins).
Proof. unfold INS_InsertCalls. orderly_steps. Qed.

Lemma TRACE_Instrumentation_INS_orderly (ins : INS) :
  orderly (TRACE_Instrumentation_INS pin engine options ins).
Proof.
  unfold TRACE_Instrumentation_INS.
  apply orderly_bind; [apply checkUnlockAnalysis_orderly|intros _].
  apply orderly_bind; [apply orderly_get|intros active].
  apply orderly_if; [apply orderly_ret|].
  apply orderly_bind; [apply INS_InsertCalls_orderly|intros _; apply orderly_ret].
Qed.

Lemma TRACE_Instrumentation_BBL_orderly (bbl : BBL) :
  orderly (TRACE_Instrumentation_BBL pin engine options bbl).
Proof.
  induction bbl as [|ins rest IH]; cbn [TRACE_Instrumentation_BBL].
  - apply orderly_ret.
  - apply orderly_bind; [apply TRACE_Instrumentation_INS_orderly|intros continue].
    apply orderly_if; [exact IH|apply orderly_ret].
Qed.

Lemma TRACE_Instrumentation_orderly (trace : TRACE) :
  orderly (TRACE_Instrumentation pin engine options trace).
Proof.
  unfold TRACE_Instrumentation.
  apply orderly_bind; [|intros _; apply orderly_ret].
  induction trace as [|bbl rest IH]; cbn [TRACE_Instrumentation_loop].
  - apply orderly_ret.
  - apply orderly_bind; [apply TRACE_Instrumentation_BBL_orderly|intros continue].
    apply orderly_if; [exact IH|apply orderly_ret].
Qed.

(** The signal handler releases the lock before it terminates the
    process. *)
Lemma callbackSignals_balanced threadId sig ctx hasHandler (w : World) :
  lock_balanced
    (events (callbackSignals processingPyConf threadId sig ctx hasHandler w)) = true.
Proof.
  destruct (Trigger.getState (analysisTrigger w)) eqn:Hw.
  - rewrite callbackSignals_active by exact Hw. reflexivity.
  - rewrite callbackSignals_inactive by exact Hw. reflexivity.
Qed.

End Discipline.

(** ** Claim C8 *)

(** Claim C8.  For every function that [main] registers or that the
    installers insert, and every state: on each path on which the
    invocation returns or terminates the process, every acquisition of
    the lock is followed by exactly one release before the next
    acquisition and before the exit ([getBaseAddress], reached from the
    two rule checks, releases on both of its paths); and when the
    Trigger is inactive a gated callback returns at once without any
    operation, hence without taking the lock. *)
Theorem lock_released_on_every_exit
    (pin : Pin.API) (engine : Engine) (processingPyConf : ProcessingPyConf.t)
    (options : PyTritonOptions.t) (LIGHT_VERSION : bool)
    (e : HostEvent) (w : World) :
  (completes (dispatch pin engine processingPyConf options LIGHT_VERSION e w) = true ->
   lock_balanced
     (events (dispatch pin engine processingPyConf options LIGHT_VERSION e w)) = true)
  /\ (gated e = true -> Trigger.getState (analysisTrigger w) = false ->
      dispatch pin engine processingPyConf options LIGHT_VERSION e w = Returned tt w [])
  /\ (forall address, getBaseAddress pin address w
                      = Returned (base_of pin address) w [EvLock; EvUnlock]).
Proof.
  split; [|split].
  - destruct e as [img|trace|code|threadId ctx std|threadId ctx std
                  |threadId sig ctx hasHandler|threadId ctx flags|threadId ctx flags|f a];
      cbn [dispatch].
    + intros _. apply orderly_outcome, IMG_Instrumentation_orderly.
    + intros _. apply orderly_outcome, TRACE_Instrumentation_orderly.
    + intros _. apply orderly_outcome, callbackFini_orderly.
    + intros _. apply orderly_outcome, callbackSyscallEntry_orderly.
    + intros _. apply orderly_outcome, callbackSyscallExit_orderly.
    + intros _. destruct (existsb (Z.eqb sig) intercepted_signals); [|reflexivity].
      pose proof (callbackSignals_balanced processingPyConf threadId sig ctx hasHandler w)
        as Hb.
      unfold bind.
      destruct (callbackSignals processingPyConf threadId sig ctx hasHandler w);
        cbn in *; rewrite ?List.app_nil_r; exact Hb.
    + intros _. reflexivity.
    + intros _. reflexivity.
    + destruct f as [irb hasEA ea| | |writeSize|flag|callback|callback]; cbn [fire].
      * intros _. apply orderly_outcome, callbackBefore_orderly.
      * apply callbackAfter_balanced.
      * intros _. apply orderly_outcome, checkLockAnalysis_orderly.
      * intros _. apply orderly_outcome, callbackSnapshot_orderly.
      * intros _. reflexivity.
      * intros _. apply orderly_outcome, callbackRoutineEntry_orderly.
      * intros _. apply orderly_outcome, callbackRoutineExit_orderly.
  - intros Hg Hw.
    destruct e as [img|trace|code|threadId ctx std|threadId ctx std
                  |threadId sig ctx hasHandler|threadId ctx flags|threadId ctx flags|f a];
      try discriminate Hg; cbn [dispatch].
    + now apply callbackSyscallEntry_inactive.
    + now apply callbackSyscallExit_inactive.
    + destruct (existsb (Z.eqb sig) intercepted_signals); [|reflexivity].
      unfold bind. now rewrite callbackSignals_inactive.
    + destruct f as [irb hasEA ea| | |writeSize|flag|callback|callback];
        try discriminate Hg; cbn [fire].
      * now apply callbackBefore_inactive.
      * now apply callbackAfter_inactive.
      * now apply callbackSnapshot_inactive.
      * now apply callbackRoutineEntry_inactive.
      * now apply callbackRoutineExit_inactive.
  - intros address. apply getBaseAddress_run.
Qed.

Lemma lock_released_on_every_exit_witness :
  (completes (dispatch pin_one engine_plain py_idle options_stop_address false
                (HE_Call (AF_callbackBefore (createIRBuilder engine_plain ins_store)
                            true (IARG_MEMORYOP_EA 0)) (iargs_at 4198560))
                world_active) = true
   /\ lock_balanced
        (events (dispatch pin_one engine_plain py_idle options_stop_address false
                   (HE_Call (AF_callbackBefore (createIRBuilder engine_plain ins_store)
                               true (IARG_MEMORYOP_EA 0)) (iargs_at 4198560))
                   world_active)) = true)
  /\ (gated (HE_Signal 1 SIGSEGV 0 false) = true
      /\ Trigger.getState (analysisTrigger world_inactive) = false
      /\ dispatch pin_one engine_plain py_idle options_stop_address false
           (HE_Signal 1 SIGSEGV 0 false) world_inactive
         = Returned tt world_inactive []).
Proof.
  split.
  - split; [vm_compute; reflexivity|].
    apply (proj1 (lock_released_on_every_exit pin_one engine_plain py_idle
                    options_stop_address false _ world_active)).
    vm_compute; reflexivity.
  - split; [reflexivity|]. split; [reflexivity|].
    apply (proj1 (proj2 (lock_released_on_every_exit pin_one engine_plain py_idle
                           options_stop_address false _ world_inactive)));
      reflexivity.
Defined.

(** ** Nothing happens while the Trigger is inactive *)

Ltac dormant_now :=
  eexists _, _, _; split; [reflexivity|]; split; [assumption || reflexivity|reflexivity].

Section Dormant.

Variable pin : Pin.API.
Variable engine : Engine.
Variable processingPyConf : ProcessingPyConf.t.
Variable options : PyTritonOptions.t.
Variable LIGHT_VERSION : bool.

Lemma dormant_if {A} (c : bool) (m1 m2 : M A) :
  dormant m1 -> dormant m2 -> dormant (if c then m1 else m2).
Proof. apply ensures_if. Qed.

Lemma callbackImageLoad_dormant (img : IMG) :
  dormant (callbackImageLoad pin processingPyConf img).
Proof. intros w Hw. unfold callbackImageLoad. cbn. dormant_now. Qed.

Lemma insert_routine_calls_dormant img ipoint f table :
  dormant (insert_routine_calls pin img ipoint f table).
Proof.
  induction table as [|[name callback] rest IH]; cbn [insert_routine_calls].
  - apply dormant_ret.
  - apply dormant_bind; [|intros _; exact IH].
    apply dormant_if; [|apply dormant_ret].
    repeat (apply dormant_bind; [|intros _]); now apply dormant_emit.
Qed.

Lemma IMG_Instrumentation_dormant (img : IMG) :
  dormant (IMG_Instrumentation pin processingPyConf options img).
Proof.
  unfold IMG_Instrumentation.
  apply dormant_bind; [|intros _].
  { destruct (PyTritonOptions.startAnalysisFromSymbol options); [|apply dormant_ret].
    apply dormant_if; [|apply dormant_ret].
    repeat (apply dormant_bind; [|intros _]); now apply dormant_emit. }
  apply dormant_bind; [apply insert_routine_calls_dormant|intros _].
  apply dormant_bind; [apply insert_routine_calls_dormant|intros _].
  apply dormant_if; [apply callbackImageLoad_dormant|apply dormant_ret].
Qed.

(** A trace without instruction is walked to its end. *)
Lemma TRACE_Instrumentation_loop_empty (trace : TRACE) (w : World) :
  List.concat trace = [] ->
  TRACE_Instrumentation_loop pin engine options trace w = Returned true w [].
Proof.
  induction trace as [|bbl rest IH]; cbn [List.concat TRACE_Instrumentation_loop];
    [reflexivity|].
  intros Hnil. apply List.app_eq_nil in Hnil as [-> Hrest].
  unfold bind. cbn. now rewrite (IH Hrest).
Qed.

(** The first instruction matches no start rule: the installer leaves
    at the gate. *)
Lemma TRACE_Instrumentation_INS_no_match (ins : INS) (w : World) :
  Trigger.getState (analysisTrigger w) = false ->
  start_rule pin options (INS_Address ins) = false ->
  exists evs,
    TRACE_Instrumentation_INS pin engine options ins w = Returned false w evs
    /\ no_record evs = true.
Proof.
  intros Hw Hrule.
  unfold TRACE_Instrumentation_INS, bind, trigger_getState, get.
  rewrite checkUnlockAnalysis_run. unfold start_rule in Hrule.
  destruct (PyTritonOptions.startAnalysisFromSymbol options) as [symbol|].
  - rewrite Hrule, Hw. cbn. eauto.
  - apply orb_false_elim in Hrule as [-> ->]. rewrite Hw. cbn. eauto.
Qed.

Lemma TRACE_Instrumentation_loop_no_match (trace : TRACE) (ins : INS)
    (rest : list INS) (w : World) :
  List.concat trace = ins :: rest ->
  Trigger.getState (analysisTrigger w) = false ->
  start_rule pin options (INS_Address ins) = false ->
  exists evs,
    TRACE_Instrumentation_loop pin engine options trace w = Returned false w evs
    /\ no_record evs = true.
Proof.
  intros Hcat Hw Hrule.
  induction trace as [|bbl others IH]; [discriminate|].
  cbn [List.concat] in Hcat. cbn [TRACE_Instrumentation_loop].
  destruct bbl as [|ins' bbl'].
  - destruct (IH Hcat) as (evs & Hrun & Hevs).
    exists evs. unfold bind. cbn. rewrite Hrun. auto.
  - injection Hcat as -> _.
    destruct (TRACE_Instrumentation_INS_no_match ins w Hw Hrule) as (evs & Hrun & Hevs).
    exists evs. cbn [TRACE_Instrumentation_BBL]. unfold bind. rewrite Hrun. cbn.
    now rewrite !List.app_nil_r.
Qed.

Lemma TRACE_Instrumentation_dormant (trace : TRACE) :
  no_activation pin options (HE_Trace trace) = true ->
  dormant (TRACE_Instrumentation pin engine options trace).
Proof.
  intros Hquiet w Hw. unfold TRACE_Instrumentation, bind.
  cbn [no_activation] in Hquiet.
  destruct (List.concat trace) as [|ins rest] eqn:Hcat.
  - rewrite (TRACE_Instrumentation_loop_empty trace w Hcat). cbn. eauto 10.
  - apply negb_true_iff in Hquiet.
    destruct (TRACE_Instrumentation_loop_no_match trace ins rest w Hcat Hw Hquiet)
      as (evs & -> & Hevs).
    cbn. rewrite List.app_nil_r. eauto 10.
Qed.

Lemma checkLockAnalysis_dormant (address : Z) :
  dormant (checkLockAnalysis pin options address).
Proof.
  intros w Hw. rewrite checkLockAnalysis_run.
  destruct (bool_decide (elem_of address _));
    [|destruct (bool_decide (elem_of (offset_of pin address) _))]; dormant_now.
Qed.

Lemma fire_dormant (f : AFUNPTR) (a : IARGS) :
  no_activation pin options (HE_Call f a) = true ->
  dormant (fire pin engine processingPyConf options LIGHT_VERSION f a).
Proof.
  intros Hquiet w Hw.
  destruct f as [irb hasEA ea| | |writeSize|flag|callback|callback]; cbn [fire].
  - rewrite callbackBefore_inactive by exact Hw. eauto 10.
  - rewrite callbackAfter_inactive by exact Hw. eauto 10.
  - now apply checkLockAnalysis_dormant.
  - rewrite callbackSnapshot_inactive by exact Hw. eauto 10.
  - cbn in Hquiet. apply negb_true_iff in Hquiet as ->.
    rewrite toggleWrapper_run. dormant_now.
  - rewrite callbackRoutineEntry_inactive by exact Hw. eauto 10.
  - rewrite callbackRoutineExit_inactive by exact Hw. eauto 10.
Qed.

Lemma dispatch_dormant (e : HostEvent) :
  no_activation pin options e = true ->
  dormant (dispatch pin engine processingPyConf options LIGHT_VERSION e).
Proof.
  intros Hquiet.
  destruct e as [img|trace|code|threadId ctx std|threadId ctx std
                |threadId sig ctx hasHandler|threadId ctx flags|threadId ctx flags|f a];
    cbn [dispatch].
  - apply IMG_Instrumentation_dormant.
  - now apply TRACE_Instrumentation_dormant.
  - intros w Hw. unfold callbackFini. cbn. dormant_now.
  - intros w Hw. rewrite callbackSyscallEntry_inactive by exact Hw. eauto 10.
  - intros w Hw. rewrite callbackSyscallExit_inactive by exact Hw. eauto 10.
  - intros w Hw. destruct (existsb (Z.eqb sig) intercepted_signals).
    + unfold bind. rewrite callbackSignals_inactive by exact Hw. cbn. eauto 10.
    + cbn. eauto 10.
  - intros w Hw. cbn. eauto 10.
  - intros w Hw. cbn. eauto 10.
  - now apply fire_dormant.
Qed.

Lemma run_dormant (es : list HostEvent) :
  forallb (no_activation pin options) es = true ->
  dormant (run pin engine processingPyConf options LIGHT_VERSION es).
Proof.
  induction es as [|e rest IH]; cbn [forallb run]; intros Hquiet.
  - apply dormant_ret.
  - apply andb_true_iff in Hquiet as [He Hrest].
    apply dormant_bind; [now apply dispatch_dormant|intros _; now apply IH].
Qed.

End Dormant.

(** ** Claim C6 *)

(** For an instruction that is not a system call, the installer puts
    the stop-rule check right behind the after callback, at the same
    point. *)
Lemma INS_InsertCalls_after_point (engine : Engine) (ins : INS) (w : World) :
  INS_IsSyscall ins = false ->
  exists pre post,
    INS_InsertCalls engine ins w =
    Returned tt w
      (pre
       ++ [EvINS_InsertCall ins
             (if negb (INS_HasFallThrough ins) then IPOINT_TAKEN_BRANCH else IPOINT_AFTER)
             AF_callbackAfter;
           EvINS_InsertCall ins
             (if negb (INS_HasFallThrough ins) then IPOINT_TAKEN_BRANCH else IPOINT_AFTER)
             AF_callbackLockCheck]
       ++ post).
Proof.
  intros Hsys. unfold INS_InsertCalls, bind. rewrite Hsys. cbn [negb].
  destruct (0 <? INS_MemoryOperandCount ins);
    destruct ((1 <? INS_OperandCount ins) && INS_MemoryOperandIsWritten ins 0);
    cbn; eexists [_], _; reflexivity.
Qed.

(** Claim C6.  Let [address] be a member of [stopAnalysisFromAddr].
    The installer places the stop-rule check at the after point of a
    non-syscall instruction, right behind the after callback.  When
    that check fires for the instruction at [address], it sets the
    Trigger to inactive, whatever the state.  From then on, along any
    sequence of requests of the host in which no activation rule
    matches (instrumented traces start at an instruction matching no
    start rule), every invocation returns, the Trigger stays inactive
    and no instruction record is created: in particular the before
    callback of the very next instruction, whatever its address,
    produces none. *)
Theorem stop_address_deactivates
    (pin : Pin.API) (engine : Engine) (processingPyConf : ProcessingPyConf.t)
    (options : PyTritonOptions.t) (LIGHT_VERSION : bool)
    (address : Z) (a : IARGS) (es : list HostEvent) (w : World) :
  elem_of address (PyTritonOptions.stopAnalysisFromAddr options) ->
  IARG_INST_PTR a = address ->
  forallb (no_activation pin options) es = true ->
  (forall ins w0, INS_IsSyscall ins = false ->
     exists pre post,
       INS_InsertCalls engine ins w0 =
       Returned tt w0
         (pre
          ++ [EvINS_InsertCall ins
                (if negb (INS_HasFallThrough ins) then IPOINT_TAKEN_BRANCH
                 else IPOINT_AFTER) AF_callbackAfter;
              EvINS_InsertCall ins
                (if negb (INS_HasFallThrough ins) then IPOINT_TAKEN_BRANCH
                 else IPOINT_AFTER) AF_callbackLockCheck]
          ++ post))
  /\ fire pin engine processingPyConf options LIGHT_VERSION AF_callbackLockCheck a w
     = Returned tt (set_trigger false w) [EvLock; EvTriggerUpdate false; EvUnlock]
  /\ exists w' evs,
       run pin engine processingPyConf options LIGHT_VERSION
         (HE_Call AF_callbackLockCheck a :: es) w
       = Returned tt w' ([EvLock; EvTriggerUpdate false; EvUnlock] ++ evs)
       /\ Trigger.getState (analysisTrigger w') = false
       /\ no_record evs = true.
Proof.
  intros Hstop Ha Hquiet.
  assert (Hfire :
            fire pin engine processingPyConf options LIGHT_VERSION AF_callbackLockCheck a w
            = Returned tt (set_trigger false w) [EvLock; EvTriggerUpdate false; EvUnlock]).
  { cbn [fire]. unfold callbackLockCheck. rewrite checkLockAnalysis_run, Ha.
    now rewrite (bool_decide_eq_true_2 _ Hstop). }
  split; [intros ins w0; apply INS_InsertCalls_after_point|].
  split; [exact Hfire|].
  destruct (run_dormant pin engine processingPyConf options LIGHT_VERSION es Hquiet
              (set_trigger false w) eq_refl) as (u & w' & evs & Hrun & Hw' & Hevs).
  exists w', evs. split; [|auto].
  cbn [run dispatch]. unfold bind. rewrite Hfire, Hrun. destruct u. reflexivity.
Qed.

Lemma stop_address_deactivates_witness :
  (elem_of 4198560 (PyTritonOptions.stopAnalysisFromAddr options_stop_address)
   /\ IARG_INST_PTR (iargs_at 4198560) = 4198560
   /\ forallb (no_activation pin_one options_stop_address)
        [HE_Call (AF_callbackBefore (createIRBuilder engine_plain ins_store)
                    true (IARG_MEMORYOP_EA 0)) (iargs_at 4198564)] = true)
  /\ fire pin_one engine_plain py_idle options_stop_address false
       AF_callbackLockCheck (iargs_at 4198560) world_active
     = Returned tt (set_trigger false world_active)
         [EvLock; EvTriggerUpdate false; EvUnlock]
  /\ exists w' evs,
       run pin_one engine_plain py_idle options_stop_address false
         [HE_Call AF_callbackLockCheck (iargs_at 4198560);
          HE_Call (AF_callbackBefore (createIRBuilder engine_plain ins_store)
                     true (IARG_MEMORYOP_EA 0)) (iargs_at 4198564)]
         world_active
       = Returned tt w' ([EvLock; EvTriggerUpdate false; EvUnlock] ++ evs)
       /\ Trigger.getState (analysisTrigger w') = false
       /\ no_record evs = true.
Proof.
  assert (Hstop : elem_of 4198560
                    (PyTritonOptions.stopAnalysisFromAddr options_stop_address)).
  { apply (bool_decide_unpack _). vm_compute. exact I. }
  split; [split; [exact Hstop|split; reflexivity]|].
  apply (stop_address_deactivates pin_one engine_plain py_idle options_stop_address
           false 4198560 (iargs_at 4198560)
           [HE_Call (AF_callbackBefore (createIRBuilder engine_plain ins_store)
                       true (IARG_MEMORYOP_EA 0)) (iargs_at 4198564)]
           world_active Hstop eq_refl eq_refl).
Defined.

(** ** Claim C10 *)

Lemma installs_safely_ret {A} (a : A) : installs_safely (ret a).
Proof. apply ensures_ret. reflexivity. Qed.

Lemma installs_safely_bind {A B} (m : M A) (k : A -> M B) :
  installs_safely m -> (forall a, installs_safely (k a)) -> installs_safely (bind m k).
Proof.
  apply ensures_bind. intros e1 e2 H1 H2. now rewrite forallb_app, H1, H2.
Qed.

Lemma installs_safely_emit (e : Event) :
  syscall_insert_ok e = true -> installs_safely (emit e).
Proof. intros He w _. exists tt, w, [e]. cbn. rewrite He. auto. Qed.

Lemma installs_safely_if {A} (c : bool) (m1 m2 : M A) :
  installs_safely m1 -> installs_safely m2 -> installs_safely (if c then m1 else m2).
Proof. apply ensures_if. Qed.

Section Installer.

Variable pin : Pin.API.
Variable engine : Engine.
Variable processingPyConf : ProcessingPyConf.t.
Variable options : PyTritonOptions.t.
Variable LIGHT_VERSION : bool.

Lemma checkUnlockAnalysis_installs_safely (address : Z) :
  installs_safely (checkUnlockAnalysis pin options address).
Proof.
  intros w _. rewrite checkUnlockAnalysis_run.
  destruct (PyTritonOptions.startAnalysisFromSymbol options) as [symbol|];
    [destruct (String.eqb _ symbol)
    |destruct (bool_decide (elem_of address _));
       [|destruct (bool_decide (elem_of (offset_of pin address) _))]]; eauto 10.
Qed.

Lemma INS_InsertCalls_installs_safely (ins : INS) :
  installs_safely (INS_InsertCalls engine ins).
Proof.
  unfold INS_InsertCalls.
  apply installs_safely_bind; [|intros _; apply installs_safely_bind; [|intros _]].
  - apply installs_safely_if; apply installs_safely_emit; cbn;
      now destruct (INS_IsSyscall ins).
  - destruct (INS_IsSyscall ins) eqn:Hsys; cbn [negb]; [apply installs_safely_ret|].
    apply installs_safely_bind; [|intros _];
      apply installs_safely_emit; cbn; now rewrite Hsys.
  - apply installs_safely_if; [|apply installs_safely_ret].
    apply installs_safely_emit. cbn. now destruct (INS_IsSyscall ins).
Qed.

Lemma TRACE_Instrumentation_INS_installs_safely (ins : INS) :
  installs_safely (TRACE_Instrumentation_INS pin engine options ins).
Proof.
  unfold TRACE_Instrumentation_INS.
  apply installs_safely_bind; [apply checkUnlockAnalysis_installs_safely|intros _].
  apply installs_safely_bind; [intros w _; cbn; eauto 10|intros active].
  apply installs_safely_if; [apply installs_safely_ret|].
  apply installs_safely_bind;
    [apply INS_InsertCalls_installs_safely|intros _; apply installs_safely_ret].
Qed.

Lemma TRACE_Instrumentation_installs_safely (trace : TRACE) :
  installs_safely (TRACE_Instrumentation pin engine options trace).
Proof.
  unfold TRACE_Instrumentation.
  apply installs_safely_bind; [|intros _; apply installs_safely_ret].
  induction trace as [|bbl rest IH]; cbn [TRACE_Instrumentation_loop].
  - apply installs_safely_ret.
  - apply installs_safely_bind; [|intros continue].
    + induction bbl as [|ins bbl' IHb]; cbn [TRACE_Instrumentation_BBL].
      * apply installs_safely_ret.
      * apply installs_safely_bind;
          [apply TRACE_Instrumentation_INS_installs_safely|intros continue].
        apply installs_safely_if; [exact IHb|apply installs_safely_ret].
    + apply installs_safely_if; [exact IH|apply installs_safely_ret].
Qed.

(** The before and the snapshot callbacks never write the Trigger. *)
Lemma callbackBefore_keeps_trigger irb ctx hasEA ea taken target threadId (w : World) :
  analysisTrigger
    (final (callbackBefore engine processingPyConf irb ctx hasEA ea taken target
              threadId w))
  = analysisTrigger w.
Proof.
  destruct (Trigger.getState (analysisTrigger w)) eqn:Hw.
  - unfold callbackBefore, bind, trigger_getState, get. rewrite Hw. reflexivity.
  - now rewrite callbackBefore_inactive.
Qed.

Lemma callbackSnapshot_keeps_trigger mem writeSize (w : World) :
  analysisTrigger (final (callbackSnapshot LIGHT_VERSION mem writeSize w))
  = analysisTrigger w.
Proof.
  unfold callbackSnapshot, bind, trigger_getState, ap_get, get.
  destruct (Trigger.getState (analysisTrigger w)); cbn [negb]; [|reflexivity].
  destruct LIGHT_VERSION; [reflexivity|].
  destruct (AnalysisProcessor.isSnapshotLocked (ap w)); [reflexivity|].
  unfold ap_lock, emit. rewrite snapshot_loop_run. reflexivity.
Qed.

End Installer.

(** Claim C10.  Whatever trace the installer instruments and from
    whatever state, a call that it inserts for a system call
    instruction is neither the after-instruction callback nor the
    stop-rule check; and whenever such a call fires, on any arguments
    and in any state, the Trigger is afterwards what it was before.  So
    a stop address or stop offset that designates the instruction is
    not evaluated by the functions inserted for it, and an active
    Trigger is not deactivated there. *)
Theorem syscall_has_no_stop_check
    (pin : Pin.API) (engine : Engine) (processingPyConf : ProcessingPyConf.t)
    (options : PyTritonOptions.t) (LIGHT_VERSION : bool)
    (trace : TRACE) (w : World) (ins : INS) (ipoint : IPOINT) (f : AFUNPTR) :
  In (EvINS_InsertCall ins ipoint f)
     (events (TRACE_Instrumentation pin engine options trace w)) ->
  INS_IsSyscall ins = true ->
  f <> AF_callbackAfter
  /\ f <> AF_callbackLockCheck
  /\ forall (a : IARGS) (w' : World),
       analysisTrigger
         (final (fire pin engine processingPyConf options LIGHT_VERSION f a w'))
       = analysisTrigger w'.
Proof.
  intros Hin Hsys.
  destruct (TRACE_Instrumentation_installs_safely pin engine options trace w I)
    as (u & w1 & evs & Hrun & _ & Hevs).
  rewrite Hrun in Hin. cbn [events] in Hin.
  rewrite forallb_forall in Hevs. specialize (Hevs _ Hin).
  cbn in Hevs. rewrite Hsys in Hevs.
  destruct f as [irb hasEA ea| | |writeSize|flag|callback|callback];
    try discriminate Hevs.
  - repeat split; try discriminate. intros a w'. cbn [fire].
    apply callbackBefore_keeps_trigger.
  - repeat split; try discriminate. intros a w'. cbn [fire].
    apply callbackSnapshot_keeps_trigger.
Qed.

Lemma syscall_has_no_stop_check_witness :
  (In (EvINS_InsertCall ins_syscall IPOINT_BEFORE
         (AF_callbackBefore (createIRBuilder engine_plain ins_syscall) false
            (IARG_ADDRINT 0)))
      (events (TRACE_Instrumentation pin_one engine_plain options_stop_address
                 [[ins_syscall; ins_store]] world_active))
   /\ INS_IsSyscall ins_syscall = true)
  /\ elem_of (INS_Address ins_syscall)
       (PyTritonOptions.stopAnalysisFromAddr options_stop_address)
  /\ analysisTrigger
       (final (fire pin_one engine_plain py_idle options_stop_address false
                 (AF_callbackBefore (createIRBuilder engine_plain ins_syscall) false
                    (IARG_ADDRINT 0))
                 (iargs_at 4198560) world_active))
     = true.
Proof.
  assert (Hin : In (EvINS_InsertCall ins_syscall IPOINT_BEFORE
                      (AF_callbackBefore (createIRBuilder engine_plain ins_syscall) false
                         (IARG_ADDRINT 0)))
                   (events (TRACE_Instrumentation pin_one engine_plain
                              options_stop_address [[ins_syscall; ins_store]]
                              world_active))).
  { vm_compute. right. right. left. reflexivity. }
  split; [split; [exact Hin|reflexivity]|].
  split; [apply (bool_decide_unpack _); vm_compute; exact I|].
  apply (proj2 (proj2 (syscall_has_no_stop_check pin_one engine_plain py_idle
                         options_stop_address false _ _ _ _ _ Hin eq_refl))).
Defined.

(** * Further properties of the code *)

(** ** The instruction pipeline while the Trigger is active *)

(** X1.  While the Trigger is active, [callbackBefore] never faults
    and performs, under one acquisition of the lock, the configuration
    hook, the replacement of the context handle, the hook before the
    IR processing, the creation of exactly one record and the before
    hook, in this order, and then returns; the record given to the
    before hook is the created one, with the thread and the address it
    was created with.  The descriptor handed to the hook before the IR processing carries the
    thread identifier and the branch outcome of this execution,
    whatever the configuration hook did to it, and its effective
    address is the one of this execution exactly when [hasEA] holds. *)
Theorem callbackBefore_active
    (engine : Engine) (processingPyConf : ProcessingPyConf.t)
    (irb : IRBuilder) (ctx : CONTEXT) (hasEA : bool) (ea : ADDRINT)
    (taken : bool) (target : ADDRINT) (threadId : THREADID) (w : World) :
  Trigger.getState (analysisTrigger w) = true ->
  let h := {| pch_ctx := ctx; pch_threadId := threadId |} in
  let irb' := bound_irb processingPyConf irb hasEA ea taken target threadId in
  (exists w' fresh inst,
      callbackBefore engine processingPyConf irb ctx hasEA ea taken target threadId w
      = Returned tt w'
          [EvLock;
           EvHook (ProcessingPyConf.applyConfBeforeProcessing irb);
           EvUpdateCtxH h;
           EvHook (ProcessingPyConf.callbackBeforeIRProc irb');
           EvRecord fresh;
           EvHook (ProcessingPyConf.callbackBefore inst);
           EvUnlock]
      /\ inst_threadId inst = inst_threadId fresh
      /\ inst_address inst = inst_address fresh)
  /\ irb_threadID irb' = threadId
  /\ irb_branchTaken irb' = taken
  /\ irb_branchTargetAddress irb' = target
  /\ irb_ea irb'
     = (if hasEA then Some ea
        else irb_ea (ProcessingPyConf.applyConf processingPyConf irb)).
Proof.
  intros Hw. cbv zeta. split.
  - unfold callbackBefore, bind, trigger_getState, get. rewrite Hw.
    eexists _, _, _. split; [reflexivity|]. split; reflexivity.
  - unfold bound_irb. destruct hasEA; repeat split.
Qed.

Lemma callbackBefore_active_witness :
  Trigger.getState (analysisTrigger world_active) = true
  /\ (exists w' fresh inst,
         callbackBefore engine_plain py_idle
           (createIRBuilder engine_plain ins_store_next) 0 true 6295616 false 0 3
           world_active
         = Returned tt w'
             [EvLock;
              EvHook (ProcessingPyConf.applyConfBeforeProcessing
                        (createIRBuilder engine_plain ins_store_next));
              EvUpdateCtxH {| pch_ctx := 0; pch_threadId := 3 |};
              EvHook (ProcessingPyConf.callbackBeforeIRProc
                        (bound_irb py_idle
                           (createIRBuilder engine_plain ins_store_next)
                           true 6295616 false 0 3));
              EvRecord fresh;
              EvHook (ProcessingPyConf.callbackBefore inst);
              EvUnlock]
         /\ inst_threadId inst = inst_threadId fresh
         /\ inst_address inst = inst_address fresh)
  /\ irb_threadID
       (bound_irb py_idle (createIRBuilder engine_plain ins_store_next)
          true 6295616 false 0 3) = 3.
Proof.
  split; [reflexivity|].
  pose proof (callbackBefore_active engine_plain py_idle
                (createIRBuilder engine_plain ins_store_next) 0 true 6295616 false 0 3
                world_active eq_refl) as H.
  cbv zeta in H.
  split; [exact (proj1 H)|exact (proj1 (proj2 H))].
Defined.

Lemma removelast_snoc {A} (l : list A) (x : A) : List.removelast (l ++ [x]) = l.
Proof. now rewrite List.removelast_app, List.app_nil_r. Qed.

(** X2.  When the scripting hooks and the IR engine leave the trace of
    the analysis context alone, an invocation of [callbackBefore] with
    the Trigger active appends exactly one record to the trace, the
    one handed to the before hook; with the Trigger inactive the trace
    is unchanged. *)
Theorem callbackBefore_appends_one_record
    (engine : Engine) (processingPyConf : ProcessingPyConf.t)
    (irb : IRBuilder) (ctx : CONTEXT) (hasEA : bool) (ea : ADDRINT)
    (taken : bool) (target : ADDRINT) (threadId : THREADID) (w : World) :
  (forall c a,
      AnalysisProcessor.trace (ProcessingPyConf.hook processingPyConf c a)
      = AnalysisProcessor.trace a) ->
  (forall d a,
      AnalysisProcessor.trace (snd (process engine d a)) = AnalysisProcessor.trace a) ->
  let o := callbackBefore engine processingPyConf irb ctx hasEA ea taken target
             threadId w in
  if Trigger.getState (analysisTrigger w) then
    exists inst,
      AnalysisProcessor.trace (ap (final o)) = AnalysisProcessor.trace (ap w) ++ [inst]
      /\ In (EvHook (ProcessingPyConf.callbackBefore inst)) (events o)
      /\ inst_branchTaken inst = taken
      /\ List.length (List.filter is_record (events o)) = 1%nat
  else AnalysisProcessor.trace (ap (final o)) = AnalysisProcessor.trace (ap w)
       /\ events o = [].
Proof.
  intros Hhook Hproc. cbv zeta.
  destruct (Trigger.getState (analysisTrigger w)) eqn:Hw.
  - unfold callbackBefore, bind, trigger_getState, get. rewrite Hw.
    eexists. split; [|split; [|split]].
    + cbn. rewrite Hhook. cbn. rewrite removelast_snoc, Hproc, Hhook. cbn.
      rewrite Hhook. reflexivity.
    + cbn. auto 10.
    + destruct hasEA; reflexivity.
    + reflexivity.
  - rewrite callbackBefore_inactive by exact Hw. split; reflexivity.
Qed.

Lemma callbackBefore_appends_one_record_witness :
  (forall c a,
      AnalysisProcessor.trace (ProcessingPyConf.hook py_idle c a)
      = AnalysisProcessor.trace a)
  /\ (forall d a,
         AnalysisProcessor.trace (snd (process engine_plain d a))
         = AnalysisProcessor.trace a)
  /\ exists inst,
       AnalysisProcessor.trace
         (ap (final (callbackBefore engine_plain py_idle
                       (createIRBuilder engine_plain ins_store_next) 0 true 6295616
                       false 0 3 world_traced)))
       = [inst_sample] ++ [inst]
       /\ In (EvHook (ProcessingPyConf.callbackBefore inst))
            (events (callbackBefore engine_plain py_idle
                       (createIRBuilder engine_plain ins_store_next) 0 true 6295616
                       false 0 3 world_traced))
       /\ inst_branchTaken inst = false
       /\ List.length
            (List.filter is_record
               (events (callbackBefore engine_plain py_idle
                          (createIRBuilder engine_plain ins_store_next) 0 true
                          6295616 false 0 3 world_traced))) = 1%nat.
Proof.
  split; [intros; reflexivity|]. split; [intros; reflexivity|].
  exact (callbackBefore_appends_one_record engine_plain py_idle
           (createIRBuilder engine_plain ins_store_next) 0 true 6295616
           false 0 3 world_traced (fun _ _ => eq_refl) (fun _ _ => eq_refl)).
Defined.

Lemma last_map_Some_snoc {A} (l : list A) (x : A) :
  List.last (List.map Some (l ++ [x])) None = Some x.
Proof. rewrite List.map_app. cbn. apply List.last_last. Qed.

(** X3.  While the Trigger is active and the trace ends with the
    record [i], [callbackAfter] returns after these operations under
    the lock: replacement of the context handle, then the after hook
    on [i].  In the full build the counter of taken branches has been
    increased by one (modulo 2^64) exactly when [i] is a branch before
    the hook runs; in the light build it is not touched. *)
Theorem callbackAfter_active
    (engine : Engine) (processingPyConf : ProcessingPyConf.t) (LIGHT_VERSION : bool)
    (ctx : CONTEXT) (threadId : THREADID) (w : World)
    (l : list Inst) (i : Inst) :
  Trigger.getState (analysisTrigger w) = true ->
  AnalysisProcessor.trace (ap w) = l ++ [i] ->
  let h := {| pch_ctx := ctx; pch_threadId := threadId |} in
  let counted :=
    if LIGHT_VERSION then AnalysisProcessor.updateCurrentCtxH h (ap w)
    else AnalysisProcessor.incNumberOfBranchesTaken (isBranch engine i)
           (AnalysisProcessor.updateCurrentCtxH h (ap w)) in
  callbackAfter engine processingPyConf LIGHT_VERSION ctx threadId w
  = Returned tt
      (set_ap (ProcessingPyConf.hook processingPyConf
                 (ProcessingPyConf.callbackAfter (Some i)) counted) w)
      [EvLock; EvUpdateCtxH h;
       EvHook (ProcessingPyConf.callbackAfter (Some i)); EvUnlock]
  /\ AnalysisProcessor.numberOfBranchesTaken counted
     = (if negb LIGHT_VERSION && isBranch engine i then
          wrap64 (AnalysisProcessor.numberOfBranchesTaken (ap w) + 1)
        else AnalysisProcessor.numberOfBranchesTaken (ap w))
  /\ AnalysisProcessor.trace counted = AnalysisProcessor.trace (ap w).
Proof.
  intros Hw Htrace. cbv zeta. split; [|split].
  - unfold callbackAfter, bind, trigger_getState, ap_get, get. rewrite Hw.
    cbn [negb ap_lock emit ap_updateCurrentCtxH bind ap_do modify].
    unfold AnalysisProcessor.getLastInstruction. cbn [ap set_ap AnalysisProcessor.trace
      AnalysisProcessor.updateCurrentCtxH].
    rewrite Htrace, last_map_Some_snoc.
    destruct LIGHT_VERSION; reflexivity.
  - destruct LIGHT_VERSION; cbn; [reflexivity|].
    destruct (isBranch engine i); reflexivity.
  - destruct LIGHT_VERSION; reflexivity.
Qed.

Lemma callbackAfter_active_witness :
  (Trigger.getState (analysisTrigger world_traced) = true
   /\ AnalysisProcessor.trace (ap world_traced) = [] ++ [inst_sample])
  /\ events (callbackAfter engine_branch py_idle false 0 1 world_traced)
     = [EvLock; EvUpdateCtxH {| pch_ctx := 0; pch_threadId := 1 |};
        EvHook (ProcessingPyConf.callbackAfter (Some inst_sample)); EvUnlock]
  /\ AnalysisProcessor.numberOfBranchesTaken
       (ap (final (callbackAfter engine_branch py_idle false 0 1 world_traced)))
     = 6.
Proof.
  split; [split; reflexivity|].
  pose proof (callbackAfter_active engine_branch py_idle false 0 1 world_traced
                [] inst_sample eq_refl eq_refl) as H.
  cbv zeta in H. destruct H as (Hrun & _ & _).
  rewrite Hrun. split; reflexivity.
Defined.

(** ** The rule checks *)

Lemma stop_rule_iff (pin : Pin.API) (options : PyTritonOptions.t) (address : Z) :
  stop_rule pin options address = true <->
  elem_of address (PyTritonOptions.stopAnalysisFromAddr options)
  \/ elem_of (offset_of pin address) (PyTritonOptions.stopAnalysisFromOffset options).
Proof.
  unfold stop_rule. rewrite orb_true_iff, !bool_decide_eq_true. reflexivity.
Qed.

(** X4.  [checkLockAnalysis] always returns, releases the lock as
    often as it takes it, invokes no hook and touches neither the
    analysis context nor the memory.  It disables the Trigger exactly
    when the address is a stop address or its offset is a stop offset,
    and otherwise leaves the state as it is: it never enables the
    Trigger. *)
Theorem checkLockAnalysis_disjunction
    (pin : Pin.API) (options : PyTritonOptions.t) (address : Z) (w : World) :
  exists w' evs,
    checkLockAnalysis pin options address w = Returned tt w' evs
    /\ lock_balanced evs = true /\ no_hook evs = true /\ no_record evs = true
    /\ ap w' = ap w /\ memory w' = memory w
    /\ (elem_of address (PyTritonOptions.stopAnalysisFromAddr options)
        \/ elem_of (offset_of pin address)
             (PyTritonOptions.stopAnalysisFromOffset options) ->
        analysisTrigger w' = false)
    /\ (~ elem_of address (PyTritonOptions.stopAnalysisFromAddr options) ->
        ~ elem_of (offset_of pin address)
            (PyTritonOptions.stopAnalysisFromOffset options) ->
        w' = w)
    /\ getInsOffset pin address w = Returned (offset_of pin address) w [EvLock; EvUnlock].
Proof.
  rewrite checkLockAnalysis_run, getInsOffset_run.
  destruct (bool_decide (elem_of address _)) eqn:Ha;
    [|destruct (bool_decide (elem_of (offset_of pin address) _)) eqn:Ho];
    eexists _, _; (split; [reflexivity|]);
    do 5 (split; [reflexivity|]); (split; [|split; [|reflexivity]]).
  - reflexivity.
  - intros Hna. apply bool_decide_eq_true in Ha. contradiction.
  - reflexivity.
  - intros _ Hno. apply bool_decide_eq_true in Ho. contradiction.
  - apply bool_decide_eq_false in Ha, Ho. intros [H|H]; contradiction.
  - reflexivity.
Qed.

(** X5.  [checkUnlockAnalysis] always returns with the lock released,
    invokes no hook and touches neither the analysis context nor the
    memory; it never disables the Trigger.  When no start symbol is
    configured it enables the Trigger exactly when the address is a
    start address or its offset is a start offset, and otherwise
    leaves the state as it is. *)
Theorem checkUnlockAnalysis_never_disables
    (pin : Pin.API) (options : PyTritonOptions.t) (address : Z) (w : World) :
  exists w' evs,
    checkUnlockAnalysis pin options address w = Returned tt w' evs
    /\ lock_balanced evs = true /\ no_hook evs = true /\ no_record evs = true
    /\ ap w' = ap w /\ memory w' = memory w
    /\ (analysisTrigger w = true -> analysisTrigger w' = true)
    /\ (PyTritonOptions.startAnalysisFromSymbol options = None ->
        (elem_of address (PyTritonOptions.startAnalysisFromAddr options)
         \/ elem_of (offset_of pin address)
              (PyTritonOptions.startAnalysisFromOffset options) ->
         analysisTrigger w' = true)
        /\ (~ elem_of address (PyTritonOptions.startAnalysisFromAddr options) ->
            ~ elem_of (offset_of pin address)
                (PyTritonOptions.startAnalysisFromOffset options) ->
            w' = w)).
Proof.
  rewrite checkUnlockAnalysis_run.
  destruct (PyTritonOptions.startAnalysisFromSymbol options) as [symbol|].
  - destruct (String.eqb _ symbol);
      eexists _, _; (split; [reflexivity|]);
      do 5 (split; [reflexivity|]); (split; [|discriminate]); auto.
  - destruct (bool_decide (elem_of address _)) eqn:Ha;
      [|destruct (bool_decide (elem_of (offset_of pin address) _)) eqn:Ho];
      eexists _, _; (split; [reflexivity|]);
      do 5 (split; [reflexivity|]); (split; [auto|intros _; split]).
    + reflexivity.
    + intros Hna. apply bool_decide_eq_true in Ha. contradiction.
    + reflexivity.
    + intros _ Hno. apply bool_decide_eq_true in Ho. contradiction.
    + apply bool_decide_eq_false in Ha, Ho. intros [H|H]; contradiction.
    + reflexivity.
Qed.

(** X6.  For an address inside a valid image loaded at a non-null base,
    [getInsOffset] returns the distance of the address from the base,
    so that base plus offset is the address again; the lock is taken
    and released once and the state is unchanged.  An image whose low
    address is 0 is treated like no image: the offset is 0 for all of
    its addresses. *)
Theorem getInsOffset_round_trip (pin : Pin.API) (address : Z) (w : World) :
  resolves pin address = true ->
  let base :=
    IMG_LowAddress pin (SEC_Img pin (RTN_Sec pin (RTN_FindByAddress pin address))) in
  (0 < base <= address -> address < 2 ^ 64 ->
   exists offset,
     getInsOffset pin address w = Returned offset w [EvLock; EvUnlock]
     /\ base + offset = address /\ 0 <= offset < 2 ^ 64)
  /\ (base = 0 ->
      getInsOffset pin address w = Returned 0 w [EvLock; EvUnlock]).
Proof.
  intros Hres. cbv zeta. split.
  - intros Hbase Haddr. rewrite getInsOffset_run.
    unfold offset_of, base_of. rewrite Hres.
    destruct (_ =? 0) eqn:Hz; [apply Z.eqb_eq in Hz; lia|].
    eexists. split; [reflexivity|]. unfold wrap64.
    rewrite Z.mod_small by lia. lia.
  - intros Hzero. rewrite getInsOffset_run. unfold offset_of, base_of.
    rewrite Hres, Hzero. reflexivity.
Qed.

Lemma getInsOffset_round_trip_witness :
  (resolves pin_one 4198560 = true
   /\ 0 < 4194304 <= 4198560 /\ 4198560 < 2 ^ 64)
  /\ exists offset,
       getInsOffset pin_one 4198560 world_active
       = Returned offset world_active [EvLock; EvUnlock]
       /\ 4194304 + offset = 4198560 /\ 0 <= offset < 2 ^ 64.
Proof.
  split; [split; [reflexivity|lia]|].
  apply (proj1 (getInsOffset_round_trip pin_one 4198560 world_active eq_refl));
    cbn; lia.
Defined.

Lemma checkLockAnalysis_disjunction_witness :
  exists w' evs,
    checkLockAnalysis pin_one options_stop_address 4198560 world_active
    = Returned tt w' evs
    /\ lock_balanced evs = true /\ analysisTrigger w' = false.
Proof.
  destruct (checkLockAnalysis_disjunction pin_one options_stop_address 4198560
              world_active)
    as (w' & evs & Hrun & Hbal & _ & _ & _ & _ & Hoff & _).
  exists w', evs. split; [exact Hrun|]. split; [exact Hbal|].
  apply Hoff. left. apply (bool_decide_unpack _). vm_compute. exact I.
Defined.

Lemma checkUnlockAnalysis_never_disables_witness :
  exists w' evs,
    checkUnlockAnalysis pin_one options_start_address 4198564 world_inactive
    = Returned tt w' evs
    /\ lock_balanced evs = true /\ analysisTrigger w' = true.
Proof.
  destruct (checkUnlockAnalysis_never_disables pin_one options_start_address 4198564
              world_inactive)
    as (w' & evs & Hrun & Hbal & _ & _ & _ & _ & _ & Hon).
  exists w', evs. split; [exact Hrun|]. split; [exact Hbal|].
  apply (proj1 (Hon eq_refl)). left. apply (bool_decide_unpack _). vm_compute. exact I.
Defined.

(** ** The trace installer *)

Section TraceInstaller.

Variable pin : Pin.API.
Variable engine : Engine.
Variable options : PyTritonOptions.t.

(** The state after the start rules have been checked. *)
Lemma checkUnlockAnalysis_world (address : Z) (w : World) :
  exists evs,
    checkUnlockAnalysis pin options address w =
    Returned tt
      (set_trigger (start_rule pin options address || analysisTrigger w) w) evs
    /\ (evs = [] \/ evs = [EvLock; EvUnlock]
        \/ start_rule pin options address = true).
Proof.
  rewrite checkUnlockAnalysis_run. unfold start_rule.
  destruct w as [tr a m].
  destruct (PyTritonOptions.startAnalysisFromSymbol options) as [symbol|];
    [destruct (String.eqb _ symbol)
    |destruct (bool_decide (elem_of address _));
       [|destruct (bool_decide (elem_of (offset_of pin address) _))]];
    eexists; (split; [reflexivity|]); auto.
Qed.

Lemma INS_InsertCalls_before (ins : INS) (w : World) :
  exists post,
    INS_InsertCalls engine ins w = Returned tt w (before_call engine ins :: post).
Proof.
  unfold INS_InsertCalls, before_call, bind.
  destruct (0 <? INS_MemoryOperandCount ins);
    destruct (INS_IsSyscall ins);
    destruct ((1 <? INS_OperandCount ins) && INS_MemoryOperandIsWritten ins 0);
    cbn; eexists; reflexivity.
Qed.

(** The installer leaves at the gate without any insertion. *)
Lemma TRACE_Instrumentation_INS_gate (ins : INS) (w : World) :
  Trigger.getState (analysisTrigger w) = false ->
  start_rule pin options (INS_Address ins) = false ->
  exists evs,
    TRACE_Instrumentation_INS pin engine options ins w = Returned false w evs
    /\ (evs = [] \/ evs = [EvLock; EvUnlock]).
Proof.
  intros Hw Hrule.
  destruct (checkUnlockAnalysis_world (INS_Address ins) w) as (evs & Hrun & Hevs).
  unfold TRACE_Instrumentation_INS, bind, trigger_getState, get.
  rewrite Hrun, Hrule. unfold Trigger.getState in *. cbn. rewrite Hw. cbn.
  exists evs. rewrite List.app_nil_r. split.
  - destruct w as [tr a m]. cbn in *. now rewrite Hw.
  - destruct Hevs as [H|[H|H]]; auto. congruence.
Qed.

(** The installer goes through the gate and inserts the before call. *)
Lemma TRACE_Instrumentation_INS_through (ins : INS) (w : World) :
  analysisTrigger w = true \/ start_rule pin options (INS_Address ins) = true ->
  exists w' evs,
    TRACE_Instrumentation_INS pin engine options ins w = Returned true w' evs
    /\ analysisTrigger w' = true /\ ap w' = ap w /\ memory w' = memory w
    /\ In (before_call engine ins) evs.
Proof.
  intros Hpre.
  destruct (checkUnlockAnalysis_world (INS_Address ins) w) as (evs & Hrun & _).
  assert (Hon : start_rule pin options (INS_Address ins) || analysisTrigger w = true).
  { destruct Hpre as [-> | ->]; [apply orb_true_r|reflexivity]. }
  unfold TRACE_Instrumentation_INS, bind, trigger_getState, get.
  rewrite Hrun, Hon. cbn.
  destruct (INS_InsertCalls_before ins (set_trigger true w)) as (post & ->).
  eexists _, _. split; [reflexivity|]. repeat split.
  apply List.in_or_app. right. cbn. auto.
Qed.

Lemma TRACE_Instrumentation_BBL_through (bbl : BBL) :
  forall w,
    analysisTrigger w = true
    \/ (exists ins rest, bbl = ins :: rest
                         /\ start_rule pin options (INS_Address ins) = true) ->
    exists w' evs,
      TRACE_Instrumentation_BBL pin engine options bbl w = Returned true w' evs
      /\ analysisTrigger w' = true /\ ap w' = ap w /\ memory w' = memory w
      /\ forall ins, In ins bbl -> In (before_call engine ins) evs.
Proof.
  induction bbl as [|ins rest IH]; intros w Hpre.
  - destruct Hpre as [Hw|(ins & rest & Hnil & _)]; [|discriminate].
    exists w, []. cbn. repeat split; auto; intros ? [].
  - assert (Hins : analysisTrigger w = true
                   \/ start_rule pin options (INS_Address ins) = true).
    { destruct Hpre as [Hw|(ins' & rest' & Heq & Hrule)]; [auto|].
      injection Heq as -> _. auto. }
    destruct (TRACE_Instrumentation_INS_through ins w Hins)
      as (w1 & e1 & Hrun1 & Hw1 & Hap1 & Hmem1 & Hin1).
    destruct (IH w1 (or_introl Hw1)) as (w2 & e2 & Hrun2 & Hw2 & Hap2 & Hmem2 & Hin2).
    exists w2, (e1 ++ e2). cbn [TRACE_Instrumentation_BBL]. unfold bind.
    rewrite Hrun1, Hrun2. split; [reflexivity|].
    split; [exact Hw2|]. split; [congruence|]. split; [congruence|].
    intros ins' [<-|Hin]; apply List.in_or_app; auto.
Qed.

Lemma TRACE_Instrumentation_loop_through (trace : TRACE) :
  forall w,
    analysisTrigger w = true
    \/ (exists ins rest, List.concat trace = ins :: rest
                         /\ start_rule pin options (INS_Address ins) = true) ->
    exists w' evs,
      TRACE_Instrumentation_loop pin engine options trace w = Returned true w' evs
      /\ analysisTrigger w' = true /\ ap w' = ap w /\ memory w' = memory w
      /\ forall ins, In ins (List.concat trace) -> In (before_call engine ins) evs.
Proof.
  induction trace as [|bbl others IH]; intros w Hpre.
  - destruct Hpre as [Hw|(ins & rest & Hnil & _)]; [|discriminate].
    exists w, []. cbn. repeat split; auto; intros ? [].
  - cbn [List.concat TRACE_Instrumentation_loop]. unfold bind.
    destruct bbl as [|ins bbl'].
    + destruct (IH w Hpre) as (w2 & e2 & Hrun2 & Hw2 & Hap2 & Hmem2 & Hin2).
      exists w2, e2. cbn. rewrite Hrun2. auto 10.
    + assert (Hbbl : analysisTrigger w = true
                     \/ (exists i r, ins :: bbl' = i :: r
                                     /\ start_rule pin options (INS_Address i) = true)).
      { destruct Hpre as [Hw|(i & r & Heq & Hrule)]; [auto|].
        cbn in Heq. injection Heq as -> _. right. eauto. }
      destruct (TRACE_Instrumentation_BBL_through (ins :: bbl') w Hbbl)
        as (w1 & e1 & Hrun1 & Hw1 & Hap1 & Hmem1 & Hin1).
      destruct (IH w1 (or_introl Hw1)) as (w2 & e2 & Hrun2 & Hw2 & Hap2 & Hmem2 & Hin2).
      exists w2, (e1 ++ e2). rewrite Hrun1, Hrun2.
      split; [reflexivity|].
      split; [exact Hw2|]. split; [congruence|]. split; [congruence|].
      intros i Hi. apply List.in_app_or in Hi as [Hi|Hi];
        apply List.in_or_app; auto.
Qed.

End TraceInstaller.

(** X7.  When a trace is instrumented while the Trigger is inactive
    and its first instruction matches no start rule, the installer
    returns at once: it inserts no call for any instruction of the
    trace, invokes no hook and leaves the state unchanged; the start
    rules are not evaluated for the instructions that follow the
    first, whatever their addresses.  Its only operations are the
    acquisition and release of the lock made by the offset lookup, if
    any. *)
Theorem TRACE_Instrumentation_returns_at_gate
    (pin : Pin.API) (engine : Engine) (options : PyTritonOptions.t)
    (trace : TRACE) (ins : INS) (rest : list INS) (w : World) :
  Trigger.getState (analysisTrigger w) = false ->
  List.concat trace = ins :: rest ->
  start_rule pin options (INS_Address ins) = false ->
  exists evs,
    TRACE_Instrumentation pin engine options trace w = Returned tt w evs
    /\ (evs = [] \/ evs = [EvLock; EvUnlock])
    /\ no_insert evs = true.
Proof.
  intros Hw Hcat Hrule.
  assert (Hloop : exists evs,
             TRACE_Instrumentation_loop pin engine options trace w
             = Returned false w evs
             /\ (evs = [] \/ evs = [EvLock; EvUnlock])).
  { clear - Hw Hcat Hrule.
    induction trace as [|bbl others IH]; [discriminate|].
    cbn [List.concat] in Hcat. cbn [TRACE_Instrumentation_loop].
    destruct bbl as [|ins' bbl'].
    - destruct (IH Hcat) as (evs & Hrun & Hevs).
      exists evs. unfold bind. cbn. rewrite Hrun. auto.
    - injection Hcat as -> _.
      destruct (TRACE_Instrumentation_INS_gate pin engine options ins w Hw Hrule)
        as (evs & Hrun & Hevs).
      exists evs. cbn [TRACE_Instrumentation_BBL]. unfold bind. rewrite Hrun. cbn.
      now rewrite !List.app_nil_r. }
  destruct Hloop as (evs & Hrun & Hevs).
  exists evs. unfold TRACE_Instrumentation, bind. rewrite Hrun. cbn.
  rewrite List.app_nil_r. split; [reflexivity|]. split; [exact Hevs|].
  destruct Hevs as [-> | ->]; reflexivity.
Qed.

Lemma TRACE_Instrumentation_returns_at_gate_witness :
  (Trigger.getState (analysisTrigger world_inactive) = false
   /\ List.concat [[ins_plain; ins_store_next]] = ins_plain :: [ins_store_next]
   /\ start_rule pin_one options_start_address (INS_Address ins_plain) = false
   /\ start_rule pin_one options_start_address (INS_Address ins_store_next) = true)
  /\ exists evs,
       TRACE_Instrumentation pin_one engine_plain options_start_address
         [[ins_plain; ins_store_next]] world_inactive
       = Returned tt world_inactive evs
       /\ (evs = [] \/ evs = [EvLock; EvUnlock])
       /\ no_insert evs = true.
Proof.
  split; [repeat split; vm_compute; reflexivity|].
  apply (TRACE_Instrumentation_returns_at_gate pin_one engine_plain
           options_start_address [[ins_plain; ins_store_next]] ins_plain
           [ins_store_next] world_inactive); vm_compute; reflexivity.
Defined.

(** X8.  When a trace is instrumented while the Trigger is active, or
    while its first instruction matches a start rule, the installer
    walks the whole trace: it returns with the Trigger active, the
    analysis context and the memory untouched, and for every
    instruction of the trace it has inserted the before call, bound to
    the effective address of the first memory operand when the
    instruction has one and to 0 otherwise. *)
Theorem TRACE_Instrumentation_covers_trace
    (pin : Pin.API) (engine : Engine) (options : PyTritonOptions.t)
    (trace : TRACE) (w : World) :
  analysisTrigger w = true
  \/ (exists ins rest, List.concat trace = ins :: rest
                       /\ start_rule pin options (INS_Address ins) = true) ->
  exists w' evs,
    TRACE_Instrumentation pin engine options trace w = Returned tt w' evs
    /\ analysisTrigger w' = true /\ ap w' = ap w /\ memory w' = memory w
    /\ forall ins, In ins (List.concat trace) -> In (before_call engine ins) evs.
Proof.
  intros Hpre.
  destruct (TRACE_Instrumentation_loop_through pin engine options trace w Hpre)
    as (w' & evs & Hrun & Hw' & Hap & Hmem & Hin).
  exists w', evs. unfold TRACE_Instrumentation, bind. rewrite Hrun. cbn.
  rewrite List.app_nil_r. auto.
Qed.

Lemma TRACE_Instrumentation_covers_trace_witness :
  (exists ins rest,
      List.concat [[ins_store_next; ins_plain]] = ins :: rest
      /\ start_rule pin_one options_start_address (INS_Address ins) = true)
  /\ exists w' evs,
       TRACE_Instrumentation pin_one engine_plain options_start_address
         [[ins_store_next; ins_plain]] world_inactive
       = Returned tt w' evs
       /\ analysisTrigger w' = true
       /\ ap w' = ap world_inactive /\ memory w' = memory world_inactive
       /\ forall ins,
            In ins (List.concat [[ins_store_next; ins_plain]]) ->
            In (before_call engine_plain ins) evs.
Proof.
  assert (Hhead : exists ins rest,
             List.concat [[ins_store_next; ins_plain]] = ins :: rest
             /\ start_rule pin_one options_start_address (INS_Address ins) = true).
  { exists ins_store_next, [ins_plain]. split; vm_compute; reflexivity. }
  split; [exact Hhead|].
  apply (TRACE_Instrumentation_covers_trace pin_one engine_plain
           options_start_address [[ins_store_next; ins_plain]] world_inactive).
  right. exact Hhead.
Defined.

(** ** The image installer and the image-load callback *)

Lemma image_size_wrap (low high : Z) :
  0 <= low <= high -> high < 2 ^ 64 -> high - low + 1 < 2 ^ 64 ->
  wrap64 (wrap64 (high + 1) - low) = high - low + 1.
Proof.
  intros Hlow Hhigh Hsize. unfold wrap64.
  rewrite Zminus_mod_idemp_l.
  replace (high + 1 - low) with (high - low + 1) by lia.
  apply Z.mod_small. lia.
Qed.

(** X9.  [callbackImageLoad] is not gated: whatever the Trigger, it
    takes the lock, invokes the image-load hook once and releases the
    lock.  For an image spanning [low..high] in the 64-bit address
    space (the whole space excepted) the hook receives the name, the
    low address and the exact number of bytes [high - low + 1], also
    when [high] is the last address and [high + 1] wraps to 0. *)
Theorem callbackImageLoad_reports_size
    (pin : Pin.API) (processingPyConf : ProcessingPyConf.t) (img : IMG) (w : World) :
  0 <= IMG_LowAddress pin img <= IMG_HighAddress pin img ->
  IMG_HighAddress pin img < 2 ^ 64 ->
  IMG_HighAddress pin img - IMG_LowAddress pin img + 1 < 2 ^ 64 ->
  let c :=
    ProcessingPyConf.callbackImageLoad (IMG_Name pin img) (IMG_LowAddress pin img)
      (IMG_HighAddress pin img - IMG_LowAddress pin img + 1) in
  callbackImageLoad pin processingPyConf img w
  = Returned tt (set_ap (ProcessingPyConf.hook processingPyConf c (ap w)) w)
      [EvLock; EvHook c; EvUnlock].
Proof.
  intros Hlow Hhigh Hsize. cbv zeta.
  unfold callbackImageLoad. rewrite image_size_wrap by assumption. reflexivity.
Qed.

Lemma callbackImageLoad_reports_size_witness :
  (0 <= IMG_LowAddress pin_one 1 <= IMG_HighAddress pin_one 1
   /\ IMG_HighAddress pin_one 1 < 2 ^ 64
   /\ IMG_HighAddress pin_one 1 - IMG_LowAddress pin_one 1 + 1 < 2 ^ 64)
  /\ callbackImageLoad pin_one py_idle 1 world_inactive
     = Returned tt world_inactive
         [EvLock;
          EvHook (ProcessingPyConf.callbackImageLoad "a.out" 4194304 1048576);
          EvUnlock].
Proof.
  split; [cbn; lia|].
  apply (callbackImageLoad_reports_size pin_one py_idle 1 world_inactive); cbn; lia.
Defined.

Lemma insert_routine_calls_run (pin : Pin.API) (img : IMG) (ipoint : IPOINT)
    (f : PyObject -> AFUNPTR) (table : list (string * PyObject)) (w : World) :
  insert_routine_calls pin img ipoint f table w
  = Returned tt w (routine_insertions pin img ipoint f table).
Proof.
  induction table as [|[name callback] rest IH]; [reflexivity|].
  cbn [insert_routine_calls]. unfold bind.
  destruct (RTN_Valid pin (RTN_FindByName pin img name)) eqn:Hv;
    cbn [emit ret]; rewrite IH;
    unfold routine_insertions; cbn [List.flat_map fst snd]; rewrite Hv; reflexivity.
Qed.

Lemma in_routine_insertions (pin : Pin.API) (img : IMG) (ipoint : IPOINT)
    (f : PyObject -> AFUNPTR) (table : list (string * PyObject))
    (rtn : RTN) (ip : IPOINT) (g : AFUNPTR) :
  In (EvRTN_InsertCall rtn ip g) (routine_insertions pin img ipoint f table) <->
  exists name callback,
    In (name, callback) table
    /\ rtn = RTN_FindByName pin img name /\ RTN_Valid pin rtn = true
    /\ ip = ipoint /\ g = f callback.
Proof.
  unfold routine_insertions. rewrite List.in_flat_map. split.
  - intros ([name callback] & Hin & He). cbn [fst snd] in He.
    destruct (RTN_Valid pin (RTN_FindByName pin img name)) eqn:Hv; [|destruct He].
    destruct He as [He|[He|[He|[]]]]; try discriminate.
    injection He as <- <- <-. exists name, callback. auto.
  - intros (name & callback & Hin & -> & Hv & -> & ->).
    exists (name, callback). split; [exact Hin|]. cbn [fst snd]. rewrite Hv.
    cbn. auto.
Qed.

(** The whole of [IMG_Instrumentation]: the three blocks of
    insertions, then the image-load callback for a valid image. *)
Lemma IMG_Instrumentation_run
    (pin : Pin.API) (processingPyConf : ProcessingPyConf.t)
    (options : PyTritonOptions.t) (img : IMG) (w : World) :
  IMG_Instrumentation pin processingPyConf options img w
  = Returned tt
      (if IMG_Valid pin img then
         set_ap (ProcessingPyConf.hook processingPyConf (image_load_call pin img)
                   (ap w)) w
       else w)
      (symbol_insertions pin options img
       ++ routine_insertions pin img IPOINT_BEFORE AF_callbackRoutineEntry
            (PyTritonOptions.callbackRoutineEntry options)
       ++ routine_insertions pin img IPOINT_AFTER AF_callbackRoutineExit
            (PyTritonOptions.callbackRoutineExit options)
       ++ (if IMG_Valid pin img then
             [EvLock; EvHook (image_load_call pin img); EvUnlock]
           else [])).
Proof.
  unfold IMG_Instrumentation, bind, symbol_insertions.
  destruct (PyTritonOptions.startAnalysisFromSymbol options) as [symbol|];
    cbv zeta; [destruct (RTN_Valid pin (RTN_FindByName pin img symbol))|];
    cbn [emit ret]; rewrite !insert_routine_calls_run;
    destruct (IMG_Valid pin img); unfold callbackImageLoad, image_load_call;
    cbn; rewrite ?List.app_nil_r; reflexivity.
Qed.

Lemma routine_insertions_quiet (pin : Pin.API) (img : IMG) (ipoint : IPOINT)
    (f : PyObject -> AFUNPTR) (table : list (string * PyObject)) (e : Event) :
  In e (routine_insertions pin img ipoint f table) ->
  is_lock e = false /\ is_hook e = false /\ e <> EvUnlock.
Proof.
  unfold routine_insertions. rewrite List.in_flat_map.
  intros ([name callback] & _ & He). cbn [fst snd] in He.
  destruct (RTN_Valid pin (RTN_FindByName pin img name)); [|destruct He].
  destruct He as [<-|[<-|[<-|[]]]]; repeat split; discriminate.
Qed.

Lemma symbol_insertions_quiet (pin : Pin.API) (options : PyTritonOptions.t)
    (img : IMG) (e : Event) :
  In e (symbol_insertions pin options img) ->
  is_lock e = false /\ is_hook e = false /\ e <> EvUnlock.
Proof.
  unfold symbol_insertions.
  destruct (PyTritonOptions.startAnalysisFromSymbol options) as [symbol|];
    [|intros []].
  destruct (RTN_Valid pin (RTN_FindByName pin img symbol)); [|intros []].
  intros [<-|[<-|[<-|[]]]]; repeat split; discriminate.
Qed.

Lemma in_symbol_insertions (pin : Pin.API) (options : PyTritonOptions.t)
    (img : IMG) (rtn : RTN) (ip : IPOINT) (g : AFUNPTR) :
  In (EvRTN_InsertCall rtn ip g) (symbol_insertions pin options img) <->
  exists symbol,
    PyTritonOptions.startAnalysisFromSymbol options = Some symbol
    /\ rtn = RTN_FindByName pin img symbol /\ RTN_Valid pin rtn = true
    /\ ip = IPOINT_AFTER /\ g = AF_toggleWrapper false.
Proof.
  unfold symbol_insertions. split.
  - destruct (PyTritonOptions.startAnalysisFromSymbol options) as [symbol|];
      [|intros []].
    destruct (RTN_Valid pin (RTN_FindByName pin img symbol)) eqn:Hv; [|intros []].
    intros [H|[H|[H|[]]]]; try discriminate.
    injection H as <- <- <-. exists symbol. auto.
  - intros (symbol & -> & -> & Hv & -> & ->). cbv zeta. rewrite Hv. cbn. auto.
Qed.

(** X10.  [IMG_Instrumentation] returns for every image, whatever the
    Trigger, without touching it.  Its operations are, in this order:
    the insertions for the start symbol, those of the routine-entry
    table, those of the routine-exit table, none of which takes the
    lock or invokes a hook, and then, exactly when the image is valid,
    the lock, the image-load hook on the name, the low address and the
    size of the image, and the unlock; the analysis context is changed
    by that hook only.  A routine-entry call is inserted, before the
    routine and with the callback handle unchanged, exactly for the
    entries of the entry table whose name is found in the image, and a
    routine-exit call, after the routine, exactly for those of the
    exit table; a name that is not found is skipped silently. *)
Theorem IMG_Instrumentation_inserts_found_routines
    (pin : Pin.API) (processingPyConf : ProcessingPyConf.t)
    (options : PyTritonOptions.t) (img : IMG) (w : World) :
  exists w' inserted,
    IMG_Instrumentation pin processingPyConf options img w
    = Returned tt w'
        (inserted
         ++ (if IMG_Valid pin img then
               [EvLock;
                EvHook (ProcessingPyConf.callbackImageLoad (IMG_Name pin img)
                          (IMG_LowAddress pin img)
                          (wrap64 (wrap64 (IMG_HighAddress pin img + 1)
                                   - IMG_LowAddress pin img)));
                EvUnlock]
             else []))
    /\ inserted
       = symbol_insertions pin options img
         ++ routine_insertions pin img IPOINT_BEFORE AF_callbackRoutineEntry
              (PyTritonOptions.callbackRoutineEntry options)
         ++ routine_insertions pin img IPOINT_AFTER AF_callbackRoutineExit
              (PyTritonOptions.callbackRoutineExit options)
    /\ (forall e, In e inserted ->
                  is_lock e = false /\ is_hook e = false /\ e <> EvUnlock)
    /\ analysisTrigger w' = analysisTrigger w
    /\ ap w'
       = (if IMG_Valid pin img then
            ProcessingPyConf.hook processingPyConf
              (ProcessingPyConf.callbackImageLoad (IMG_Name pin img)
                 (IMG_LowAddress pin img)
                 (wrap64 (wrap64 (IMG_HighAddress pin img + 1)
                          - IMG_LowAddress pin img)))
              (ap w)
          else ap w)
    /\ (forall rtn ip callback,
           In (EvRTN_InsertCall rtn ip (AF_callbackRoutineEntry callback)) inserted <->
           exists name,
             In (name, callback) (PyTritonOptions.callbackRoutineEntry options)
             /\ rtn = RTN_FindByName pin img name /\ RTN_Valid pin rtn = true
             /\ ip = IPOINT_BEFORE)
    /\ (forall rtn ip callback,
           In (EvRTN_InsertCall rtn ip (AF_callbackRoutineExit callback)) inserted <->
           exists name,
             In (name, callback) (PyTritonOptions.callbackRoutineExit options)
             /\ rtn = RTN_FindByName pin img name /\ RTN_Valid pin rtn = true
             /\ ip = IPOINT_AFTER).
Proof.
  rewrite IMG_Instrumentation_run. fold (image_load_call pin img).
  eexists _,
    (symbol_insertions pin options img
     ++ routine_insertions pin img IPOINT_BEFORE AF_callbackRoutineEntry
          (PyTritonOptions.callbackRoutineEntry options)
     ++ routine_insertions pin img IPOINT_AFTER AF_callbackRoutineExit
          (PyTritonOptions.callbackRoutineExit options)).
  split; [rewrite <- !List.app_assoc; reflexivity|].
  split; [reflexivity|].
  split; [|split; [|split; [|split]]].
  - intros e He. apply List.in_app_or in He as [He|He];
      [now apply symbol_insertions_quiet in He|].
    apply List.in_app_or in He as [He|He];
      now apply routine_insertions_quiet in He.
  - destruct (IMG_Valid pin img); reflexivity.
  - destruct (IMG_Valid pin img); reflexivity.
  - intros rtn ip callback. rewrite !List.in_app_iff.
    rewrite in_symbol_insertions, !in_routine_insertions. split.
    + intros [(symbol & _ & _ & _ & _ & Hg)|[H|H]]; [discriminate Hg| |].
      * destruct H as (name & cb & Hin & Hr & Hv & Hip & Hg).
        injection Hg as ->. eauto.
      * destruct H as (name & cb & _ & _ & _ & _ & Hg). discriminate Hg.
    + intros (name & Hin & Hr & Hv & Hip). right. left.
      exists name, callback. auto.
  - intros rtn ip callback. rewrite !List.in_app_iff.
    rewrite in_symbol_insertions, !in_routine_insertions. split.
    + intros [(symbol & _ & _ & _ & _ & Hg)|[H|H]]; [discriminate Hg| |].
      * destruct H as (name & cb & _ & _ & _ & _ & Hg). discriminate Hg.
      * destruct H as (name & cb & Hin & Hr & Hv & Hip & Hg).
        injection Hg as ->. eauto.
    + intros (name & Hin & Hr & Hv & Hip). right. right.
      exists name, callback. auto.
Qed.

Lemma IMG_Instrumentation_inserts_found_routines_witness :
  exists w' inserted,
    IMG_Instrumentation pin_one py_idle options_routines 1 world_inactive
    = Returned tt w'
        (inserted
         ++ [EvLock;
             EvHook (ProcessingPyConf.callbackImageLoad "a.out" 4194304 1048576);
             EvUnlock])
    /\ In (EvRTN_InsertCall 1 IPOINT_BEFORE (AF_callbackRoutineEntry 8)) inserted
    /\ ~ In (EvRTN_InsertCall 0 IPOINT_BEFORE (AF_callbackRoutineEntry 7)) inserted.
Proof.
  destruct (IMG_Instrumentation_inserts_found_routines pin_one py_idle options_routines
              1 world_inactive)
    as (w' & inserted & Hrun & _ & _ & _ & _ & Hentry & _).
  exists w', inserted. split; [exact Hrun|]. split.
  - apply Hentry. exists "main"%string. cbn. auto.
  - intros H. apply Hentry in H as (name & _ & _ & Hv & _). discriminate Hv.
Defined.

(** ** The snapshot callback *)

(** The cases of [callbackSnapshot] on a memory whose bytes can be
    read. *)
Lemma callbackSnapshot_cases
    (LIGHT_VERSION : bool) (mem writeSize : Z) (w : World) :
  exists entries evs,
    callbackSnapshot LIGHT_VERSION mem writeSize w
    = Returned tt (append_journal entries w) evs
    /\ AnalysisProcessor.snapshotJournal (ap (append_journal entries w))
       = AnalysisProcessor.snapshotJournal (ap w) ++ entries
    /\ (List.length entries <= Z.to_nat writeSize)%nat
    /\ (if Trigger.getState (analysisTrigger w)
           && negb LIGHT_VERSION
           && negb (AnalysisProcessor.isSnapshotLocked (ap w))
        then entries = written_bytes_wrapped (memory w) mem writeSize
             /\ evs = [EvLock; EvUnlock]
        else entries = [] /\ evs = []).
Proof.
  unfold callbackSnapshot, bind, trigger_getState, ap_get, get.
  destruct (Trigger.getState (analysisTrigger w)); cbn [negb andb];
    [|exists [], []; rewrite append_journal_nil, List.app_nil_r;
      repeat split; cbn; lia].
  destruct LIGHT_VERSION; cbn [negb andb];
    [exists [], []; rewrite append_journal_nil, List.app_nil_r;
     repeat split; cbn; lia|].
  destruct (AnalysisProcessor.isSnapshotLocked (ap w)); cbn [negb];
    [exists [], []; rewrite append_journal_nil, List.app_nil_r;
     repeat split; cbn; lia|].
  unfold ap_lock, emit. rewrite snapshot_loop_run. cbn [ap_unlock emit app].
  assert (Hsame : written_bytes_wrapped (memory w) (mem + 0)
                    (Z.of_nat (Z.to_nat writeSize))
                  = written_bytes_wrapped (memory w) mem writeSize).
  { rewrite Z.add_0_r. unfold written_bytes_wrapped.
    destruct (Z.le_gt_cases 0 writeSize) as [Hs|Hs].
    - now rewrite Z2Nat.id.
    - replace (Z.to_nat writeSize) with 0%nat by lia. cbn [Z.of_nat].
      now rewrite !seqZ_nil by lia. }
  rewrite Hsame.
  exists (written_bytes_wrapped (memory w) mem writeSize), [EvLock; EvUnlock].
  split; [reflexivity|]. split; [reflexivity|]. split; [|auto].
  unfold written_bytes_wrapped. rewrite List.length_map, length_seqZ. lia.
Qed.

(** X11.  Whenever [callbackSnapshot] returns, that is when the bytes
    it had to read could be read, the only thing it has changed is the
    journal, which it has only extended: the entries already there are
    kept, in place, and at most [writeSize] entries follow them; the
    Trigger, the memory, the trace, the context handle, the branch
    counter and the journal lock flag are as before.  In the full
    build, with the Trigger active and the journal unlocked, the new
    entries are those of the bytes at [mem + k] modulo 2^64 for [k]
    below [writeSize], in order, under one acquisition of the lock; in
    every other case nothing is appended and the lock is not taken. *)
Theorem callbackSnapshot_only_extends_journal
    (LIGHT_VERSION : bool) (mem writeSize : Z) (w w' : World) (evs : list Event) :
  callbackSnapshot LIGHT_VERSION mem writeSize w = Returned tt w' evs ->
  exists entries,
    w' = append_journal entries w
    /\ AnalysisProcessor.snapshotJournal (ap w')
       = AnalysisProcessor.snapshotJournal (ap w) ++ entries
    /\ analysisTrigger w' = analysisTrigger w /\ memory w' = memory w
    /\ AnalysisProcessor.trace (ap w') = AnalysisProcessor.trace (ap w)
    /\ AnalysisProcessor.currentCtxH (ap w') = AnalysisProcessor.currentCtxH (ap w)
    /\ AnalysisProcessor.numberOfBranchesTaken (ap w')
       = AnalysisProcessor.numberOfBranchesTaken (ap w)
    /\ AnalysisProcessor.snapshotLocked (ap w') = AnalysisProcessor.snapshotLocked (ap w)
    /\ (List.length entries <= Z.to_nat writeSize)%nat
    /\ (if Trigger.getState (analysisTrigger w)
           && negb LIGHT_VERSION
           && negb (AnalysisProcessor.isSnapshotLocked (ap w))
        then entries = written_bytes_wrapped (memory w) mem writeSize
             /\ evs = [EvLock; EvUnlock]
        else entries = [] /\ evs = []).
Proof.
  intros Hrun.
  destruct (callbackSnapshot_cases LIGHT_VERSION mem writeSize w)
    as (entries & evs0 & Hcase & Hjournal & Hlen & Hwhich).
  rewrite Hcase in Hrun. injection Hrun as <- <-.
  exists entries. repeat (split; [reflexivity|]). split; [exact Hlen|exact Hwhich].
Qed.

Lemma callbackSnapshot_only_extends_journal_witness :
  callbackSnapshot false 6295616 4 world_active
  = Returned tt
      (append_journal (written_bytes_wrapped memory_ramp 6295616 4) world_active)
      [EvLock; EvUnlock]
  /\ exists entries,
       append_journal (written_bytes_wrapped memory_ramp 6295616 4) world_active
       = append_journal entries world_active
       /\ (List.length entries <= Z.to_nat 4)%nat
       /\ entries = written_bytes_wrapped (memory world_active) 6295616 4.
Proof.
  assert (Hrun : callbackSnapshot false 6295616 4 world_active
                 = Returned tt
                     (append_journal (written_bytes_wrapped memory_ramp 6295616 4)
                        world_active)
                     [EvLock; EvUnlock]).
  { vm_compute. reflexivity. }
  split; [exact Hrun|].
  destruct (callbackSnapshot_only_extends_journal false 6295616 4 world_active _ _ Hrun)
    as (entries & Hw & _ & _ & _ & _ & _ & _ & _ & Hlen & Hwhich).
  exists entries. split; [exact Hw|]. split; [exact Hlen|exact (proj1 Hwhich)].
Defined.

(** ** What can write the Trigger *)

Section TriggerWriters.

Variable pin : Pin.API.
Variable engine : Engine.
Variable processingPyConf : ProcessingPyConf.t.
Variable options : PyTritonOptions.t.
Variable LIGHT_VERSION : bool.

Lemma callbackAfter_keeps_trigger ctx threadId (w : World) :
  analysisTrigger
    (final (callbackAfter engine processingPyConf LIGHT_VERSION ctx threadId w))
  = analysisTrigger w.
Proof.
  destruct (Trigger.getState (analysisTrigger w)) eqn:Hw.
  - unfold callbackAfter, bind, trigger_getState, get, ap_get, get.
    rewrite Hw. cbn.
    destruct LIGHT_VERSION; cbn; [reflexivity|].
    destruct (List.last _ None); reflexivity.
  - now rewrite callbackAfter_inactive.
Qed.

Lemma callbackSignals_keeps_trigger threadId sig ctx hasHandler (w : World) :
  analysisTrigger
    (final (callbackSignals processingPyConf threadId sig ctx hasHandler w))
  = analysisTrigger w.
Proof.
  destruct (Trigger.getState (analysisTrigger w)) eqn:Hw.
  - now rewrite callbackSignals_active.
  - now rewrite callbackSignals_inactive.
Qed.

Lemma gated_lifecycle_keeps_trigger threadId ctx std callback (w : World) :
  analysisTrigger (final (callbackSyscallEntry processingPyConf threadId ctx std w))
  = analysisTrigger w
  /\ analysisTrigger (final (callbackSyscallExit processingPyConf threadId ctx std w))
     = analysisTrigger w
  /\ analysisTrigger
       (final (callbackRoutineEntry processingPyConf ctx threadId callback w))
     = analysisTrigger w
  /\ analysisTrigger
       (final (callbackRoutineExit processingPyConf ctx threadId callback w))
     = analysisTrigger w.
Proof.
  destruct (Trigger.getState (analysisTrigger w)) eqn:Hw.
  - rewrite callbackSyscallEntry_active, callbackSyscallExit_active,
      callbackRoutineEntry_active, callbackRoutineExit_active by exact Hw.
    repeat split.
  - rewrite callbackSyscallEntry_inactive, callbackSyscallExit_inactive,
      callbackRoutineEntry_inactive, callbackRoutineExit_inactive by exact Hw.
    repeat split.
Qed.

Lemma IMG_Instrumentation_keeps_trigger (img : IMG) (w : World) :
  analysisTrigger (final (IMG_Instrumentation pin processingPyConf options img w))
  = analysisTrigger w.
Proof.
  unfold IMG_Instrumentation, bind.
  destruct (PyTritonOptions.startAnalysisFromSymbol options) as [symbol|];
    cbv zeta; [destruct (RTN_Valid pin (RTN_FindByName pin img symbol))|];
    cbn [emit ret]; rewrite !insert_routine_calls_run;
    destruct (IMG_Valid pin img); reflexivity.
Qed.

Lemma TRACE_Instrumentation_stays_active (trace : TRACE) (w : World) :
  analysisTrigger w = true ->
  analysisTrigger (final (TRACE_Instrumentation pin engine options trace w)) = true.
Proof.
  intros Hw.
  destruct (TRACE_Instrumentation_loop_through pin engine options trace w
              (or_introl Hw)) as (w' & evs & Hrun & Hw' & _).
  unfold TRACE_Instrumentation, bind. rewrite Hrun. exact Hw'.
Qed.

End TriggerWriters.

(** X12.  Nothing but the stop rules disables the Trigger.  Whatever
    the host asks of the tool while the Trigger is active (an image or
    a trace to instrument, a system call, a signal, a thread event,
    the end of the run, or any inserted call), the Trigger is still
    active when the invocation is over, be it by return, by [exit] or
    by a fault, unless the request is a stop-rule check at an address
    matching a stop rule or a fired [toggleWrapper(false)]. *)
Theorem only_stop_rules_disable
    (pin : Pin.API) (engine : Engine) (processingPyConf : ProcessingPyConf.t)
    (options : PyTritonOptions.t) (LIGHT_VERSION : bool)
    (e : HostEvent) (w : World) :
  analysisTrigger w = true ->
  keeps_active pin options e = true ->
  analysisTrigger
    (final (dispatch pin engine processingPyConf options LIGHT_VERSION e w)) = true.
Proof.
  intros Hw Hkeep.
  destruct e as [img|trace|code|threadId ctx std|threadId ctx std
                |threadId sig ctx hasHandler|threadId ctx flags|threadId ctx flags|f a];
    cbn [dispatch].
  - rewrite IMG_Instrumentation_keeps_trigger. exact Hw.
  - now apply TRACE_Instrumentation_stays_active.
  - exact Hw.
  - rewrite <- Hw. apply (gated_lifecycle_keeps_trigger processingPyConf threadId ctx
                            std 0 w).
  - rewrite <- Hw. apply (gated_lifecycle_keeps_trigger processingPyConf threadId ctx
                            std 0 w).
  - destruct (existsb (Z.eqb sig) intercepted_signals); [|exact Hw].
    pose proof (callbackSignals_keeps_trigger processingPyConf threadId sig ctx
                  hasHandler w) as Hs.
    unfold bind.
    destruct (callbackSignals processingPyConf threadId sig ctx hasHandler w);
      cbn in *; congruence.
  - exact Hw.
  - exact Hw.
  - destruct f as [irb hasEA ea| | |writeSize|flag|callback|callback]; cbn [fire].
    + rewrite callbackBefore_keeps_trigger. exact Hw.
    + rewrite callbackAfter_keeps_trigger. exact Hw.
    + unfold callbackLockCheck. rewrite checkLockAnalysis_trigger.
      cbn in Hkeep. apply negb_true_iff in Hkeep. now rewrite Hkeep.
    + rewrite callbackSnapshot_keeps_trigger. exact Hw.
    + cbn in Hkeep. subst flag. reflexivity.
    + rewrite <- Hw. apply (gated_lifecycle_keeps_trigger processingPyConf
                              (IARG_THREAD_ID a) (IARG_CONTEXT a) 0 callback w).
    + rewrite <- Hw. apply (gated_lifecycle_keeps_trigger processingPyConf
                              (IARG_THREAD_ID a) (IARG_CONTEXT a) 0 callback w).
Qed.

Lemma only_stop_rules_disable_witness :
  (analysisTrigger world_traced = true
   /\ keeps_active pin_one options_stop_address
        (HE_Call AF_callbackLockCheck (iargs_at 4198564)) = true)
  /\ analysisTrigger
       (final (dispatch pin_one engine_plain py_idle options_stop_address false
                 (HE_Call AF_callbackLockCheck (iargs_at 4198564)) world_traced))
     = true.
Proof.
  split; [split; vm_compute; reflexivity|].
  apply (only_stop_rules_disable pin_one engine_plain py_idle options_stop_address
           false (HE_Call AF_callbackLockCheck (iargs_at 4198564)) world_traced);
    vm_compute; reflexivity.
Defined.

(** X14.  An intercepted signal delivered while the Trigger is active
    ends the run: the signal hook is invoked once under the lock, the
    process exits with status 0, and none of the requests that the
    host would have made afterwards is served. *)
Theorem intercepted_signal_ends_run
    (pin : Pin.API) (engine : Engine) (processingPyConf : ProcessingPyConf.t)
    (options : PyTritonOptions.t) (LIGHT_VERSION : bool)
    (threadId : THREADID) (sig : Z) (ctx : CONTEXT) (hasHandler : bool)
    (es : list HostEvent) (w : World) :
  In sig intercepted_signals ->
  Trigger.getState (analysisTrigger w) = true ->
  run pin engine processingPyConf options LIGHT_VERSION
    (HE_Signal threadId sig ctx hasHandler :: es) w
  = Exited 0
      (hooked processingPyConf w ctx threadId
         (ProcessingPyConf.callbackSignals threadId sig))
      [EvLock; EvUpdateCtxH {| pch_ctx := ctx; pch_threadId := threadId |};
       EvHook (ProcessingPyConf.callbackSignals threadId sig); EvUnlock].
Proof.
  intros Hsig Hw. cbn [run dispatch]. unfold bind.
  assert (Hin : existsb (Z.eqb sig) intercepted_signals = true).
  { apply existsb_exists. exists sig. split; [exact Hsig|apply Z.eqb_refl]. }
  rewrite Hin, callbackSignals_active by exact Hw. reflexivity.
Qed.

Lemma intercepted_signal_ends_run_witness :
  (In SIGSEGV intercepted_signals
   /\ Trigger.getState (analysisTrigger world_active) = true)
  /\ events
       (run pin_one engine_plain py_idle options_none false
          [HE_Signal 1 SIGSEGV 0 false;
           HE_Call (AF_callbackBefore (createIRBuilder engine_plain ins_plain) false
                      (IARG_ADDRINT 0)) (iargs_at 4198560)]
          world_active)
     = [EvLock; EvUpdateCtxH {| pch_ctx := 0; pch_threadId := 1 |};
        EvHook (ProcessingPyConf.callbackSignals 1 SIGSEGV); EvUnlock].
Proof.
  assert (Hsig : In SIGSEGV intercepted_signals) by (cbn; auto 10).
  split; [split; [exact Hsig|reflexivity]|].
  rewrite (intercepted_signal_ends_run pin_one engine_plain py_idle options_none false
             1 SIGSEGV 0 false _ world_active Hsig eq_refl).
  reflexivity.
Defined.

(** ** The toggles that the installers insert *)

Lemma inserts_no_toggle_ret {A} (a : A) : inserts_no_toggle (ret a).
Proof. apply ensures_ret. reflexivity. Qed.

Lemma inserts_no_toggle_bind {A B} (m : M A) (k : A -> M B) :
  inserts_no_toggle m -> (forall a, inserts_no_toggle (k a)) ->
  inserts_no_toggle (bind m k).
Proof.
  apply ensures_bind. intros e1 e2 H1 H2. now rewrite forallb_app, H1, H2.
Qed.

Lemma inserts_no_toggle_emit (e : Event) :
  toggle_insert e = false -> inserts_no_toggle (emit e).
Proof. intros He w _. exists tt, w, [e]. cbn. rewrite He. auto. Qed.

Lemma inserts_no_toggle_if {A} (c : bool) (m1 m2 : M A) :
  inserts_no_toggle m1 -> inserts_no_toggle m2 ->
  inserts_no_toggle (if c then m1 else m2).
Proof. apply ensures_if. Qed.

Ltac no_toggle_steps :=
  repeat first
    [ apply inserts_no_toggle_ret
    | apply inserts_no_toggle_emit; reflexivity
    | apply inserts_no_toggle_if
    | apply inserts_no_toggle_bind; [|intros ?] ].

Lemma TRACE_Instrumentation_no_toggle
    (pin : Pin.API) (engine : Engine) (options : PyTritonOptions.t) (trace : TRACE) :
  inserts_no_toggle (TRACE_Instrumentation pin engine options trace).
Proof.
  assert (Hins : forall ins,
             inserts_no_toggle (TRACE_Instrumentation_INS pin engine options ins)).
  { intros ins. unfold TRACE_Instrumentation_INS.
    apply inserts_no_toggle_bind; [|intros _].
    - intros w _.
      rewrite checkUnlockAnalysis_run.
      generalize (INS_Address ins). unfold ADDRINT. intros address.
      destruct (PyTritonOptions.startAnalysisFromSymbol options) as [symbol|];
        [destruct (String.eqb _ symbol)
        |destruct (bool_decide (elem_of address _));
           [|destruct (bool_decide (elem_of (offset_of pin address) _))]];
        eauto 10.
    - apply inserts_no_toggle_bind; [intros w _; cbn; eauto 10|intros active].
      apply inserts_no_toggle_if; [apply inserts_no_toggle_ret|].
      unfold INS_InsertCalls. no_toggle_steps. }
  unfold TRACE_Instrumentation.
  apply inserts_no_toggle_bind; [|intros _; apply inserts_no_toggle_ret].
  induction trace as [|bbl rest IH]; cbn [TRACE_Instrumentation_loop].
  - apply inserts_no_toggle_ret.
  - apply inserts_no_toggle_bind; [|intros continue].
    + induction bbl as [|ins bbl' IHb]; cbn [TRACE_Instrumentation_BBL].
      * apply inserts_no_toggle_ret.
      * apply inserts_no_toggle_bind; [apply Hins|intros continue].
        apply inserts_no_toggle_if; [exact IHb|apply inserts_no_toggle_ret].
    + apply inserts_no_toggle_if; [exact IH|apply inserts_no_toggle_ret].
Qed.

(** The image installer inserts calls on routines only. *)
Lemma IMG_Instrumentation_inserts_on_routines
    (pin : Pin.API) (processingPyConf : ProcessingPyConf.t)
    (options : PyTritonOptions.t) (img : IMG) (w : World)
    (ins : INS) (ip : IPOINT) (f : AFUNPTR) :
  ~ In (EvINS_InsertCall ins ip f)
       (events (IMG_Instrumentation pin processingPyConf options img w)).
Proof.
  rewrite IMG_Instrumentation_run. cbn [events]. rewrite !List.in_app_iff.
  intros [H|[H|[H|H]]].
  - unfold symbol_insertions in H.
    destruct (PyTritonOptions.startAnalysisFromSymbol options) as [symbol|];
      [|destruct H].
    destruct (RTN_Valid pin (RTN_FindByName pin img symbol)); [|destruct H].
    destruct H as [H|[H|[H|[]]]]; discriminate.
  - unfold routine_insertions in H. apply List.in_flat_map in H as (x & _ & H).
    destruct (RTN_Valid pin (RTN_FindByName pin img (fst x))); [|destruct H].
    destruct H as [H|[H|[H|[]]]]; discriminate.
  - unfold routine_insertions in H. apply List.in_flat_map in H as (x & _ & H).
    destruct (RTN_Valid pin (RTN_FindByName pin img (fst x))); [|destruct H].
    destruct H as [H|[H|[H|[]]]]; discriminate.
  - destruct (IMG_Valid pin img); [|destruct H].
    destruct H as [H|[H|[H|[]]]]; discriminate.
Qed.

(** X13.  The only toggle that the installers insert is the disabling
    one, after the routine of the start symbol.  Whatever the image,
    the configuration and the state, a call of [toggleWrapper] is
    among the insertions of [IMG_Instrumentation] exactly when its
    flag is [false], its point is after the routine, and the routine
    is the one that the image holds for the configured start symbol;
    [IMG_Instrumentation] inserts nothing on instructions.  Whatever
    the trace, [TRACE_Instrumentation] inserts no call of
    [toggleWrapper] at all, with either flag, on a routine or on an
    instruction.  Hence no installer inserts [toggleWrapper(true)];
    the inserted toggle, when it fires, disables the Trigger under the
    lock. *)
Theorem installers_insert_only_disabling_toggle
    (pin : Pin.API) (engine : Engine) (processingPyConf : ProcessingPyConf.t)
    (options : PyTritonOptions.t) (img : IMG) (trace : TRACE) (w : World) :
  (forall rtn ip flag,
      In (EvRTN_InsertCall rtn ip (AF_toggleWrapper flag))
         (events (IMG_Instrumentation pin processingPyConf options img w)) <->
      flag = false /\ ip = IPOINT_AFTER
      /\ exists symbol,
           PyTritonOptions.startAnalysisFromSymbol options = Some symbol
           /\ rtn = RTN_FindByName pin img symbol /\ RTN_Valid pin rtn = true)
  /\ (forall ins ip f,
         ~ In (EvINS_InsertCall ins ip f)
              (events (IMG_Instrumentation pin processingPyConf options img w)))
  /\ (forall e, In e (events (TRACE_Instrumentation pin engine options trace w)) ->
                toggle_insert e = false)
  /\ (forall LIGHT_VERSION a w0,
         fire pin engine processingPyConf options LIGHT_VERSION
           (AF_toggleWrapper false) a w0
         = Returned tt (set_trigger false w0)
             [EvLock; EvTriggerUpdate false; EvUnlock]).
Proof.
  split; [|split; [|split]].
  - intros rtn ip flag. rewrite IMG_Instrumentation_run. cbn [events].
    rewrite !List.in_app_iff, in_symbol_insertions, !in_routine_insertions. split.
    + intros [(symbol & Hsym & Hr & Hv & Hip & Hg)|[H|[H|H]]].
      * injection Hg as ->. eauto 10.
      * destruct H as (name & cb & _ & _ & _ & _ & Hg). discriminate Hg.
      * destruct H as (name & cb & _ & _ & _ & _ & Hg). discriminate Hg.
      * destruct (IMG_Valid pin img); [|destruct H].
        destruct H as [H|[H|[H|[]]]]; discriminate.
    + intros (-> & -> & symbol & Hsym & Hr & Hv). left. exists symbol. auto.
  - intros ins ip f. apply IMG_Instrumentation_inserts_on_routines.
  - destruct (TRACE_Instrumentation_no_toggle pin engine options trace w I)
      as (u & w' & evs & -> & _ & Hevs).
    cbn [events]. intros e He. rewrite forallb_forall in Hevs.
    apply negb_true_iff. now apply Hevs.
  - intros. reflexivity.
Qed.

Lemma installers_insert_only_disabling_toggle_witness :
  (PyTritonOptions.startAnalysisFromSymbol options_routines = Some "main"%string
   /\ RTN_Valid pin_one (RTN_FindByName pin_one 1 "main") = true)
  /\ In (EvRTN_InsertCall 1 IPOINT_AFTER (AF_toggleWrapper false))
        (events (IMG_Instrumentation pin_one py_idle options_routines 1 world_inactive))
  /\ ~ In (EvRTN_InsertCall 1 IPOINT_AFTER (AF_toggleWrapper true))
          (events (IMG_Instrumentation pin_one py_idle options_routines 1
                     world_inactive)).
Proof.
  split; [split; reflexivity|].
  pose proof (proj1 (installers_insert_only_disabling_toggle pin_one engine_plain
                       py_idle options_routines 1 [] world_inactive)) as H.
  split.
  - apply H. split; [reflexivity|]. split; [reflexivity|].
    exists "main"%string. repeat split.
  - intros Hin. apply H in Hin as [Hflag _]. discriminate Hflag.
Defined.

(** ** [main] *)

(** X15.  When [PIN_Init] fails, [main] prints the summary of the
    knobs and returns -1 without having registered any function or
    loaded the script.  Otherwise it registers the two installers and
    the fini, syscall and thread functions, intercepts exactly the
    five signals that the signal dispatch of the tool expects, in this
    order, and loads the script last; its status is then 0 when the
    script is found and [exit(1)], after an error line, when it is
    not. *)
Theorem main_outcomes (summary script : string) (found : bool) :
  main true summary script found
  = ([PIN_InitSymbols; PIN_SetSyntaxIntel; cerr summary], Return (-1))
  /\ registers_callbacks (fst (main true summary script found)) = false
  /\ intercepted_by (fst (main false summary script found)) = intercepted_signals
  /\ (forall s,
         In s [initBindings; IMG_AddInstrumentFunction; TRACE_AddInstrumentFunction;
               PIN_AddFiniFunction; PIN_AddSyscallEntryFunction;
               PIN_AddSyscallExitFunction; PIN_AddThreadStartFunction;
               PIN_AddThreadFiniFunction; execBindings script] ->
         In s (fst (main false summary script found)))
  /\ snd (main false summary script found) = (if found then Return 0 else Exit 1)
  /\ (In (cerr "Error: Script file can't be found!")
         (fst (main false summary script found)) <-> found = false).
Proof.
  split; [reflexivity|]. split; [reflexivity|].
  split; [destruct found; reflexivity|].
  split; [|split].
  - intros s Hs. destruct found; cbn in *; intuition (subst; auto 20).
  - destruct found; reflexivity.
  - destruct found; cbn; split; intros H; try discriminate; auto 20.
    repeat (destruct H as [H|H]; [discriminate|]). destruct H.
Qed.

(** ** The calls inserted for one instruction *)

(** X16.  For every instruction that passes the gate, the installer
    inserts between one and four calls, the before call first, and
    changes no state.  The snapshot call is inserted, before the
    instruction and with the write size of the instruction, exactly
    when the instruction has more than one operand and its memory
    operand 0 is written: a write by an instruction that fails this
    test is never journaled.  The after call and the stop-rule check
    are inserted exactly when the instruction is not a system call, at
    the taken-branch point when it has no fall-through and after it
    otherwise. *)
Theorem INS_InsertCalls_shape (engine : Engine) (ins : INS) (w : World) :
  exists evs,
    INS_InsertCalls engine ins w = Returned tt w evs
    /\ List.hd_error evs = Some (before_call engine ins)
    /\ (1 <= List.length evs <= 4)%nat
    /\ (forall ip n,
           In (EvINS_InsertCall ins ip (AF_callbackSnapshot n)) evs <->
           ip = IPOINT_BEFORE /\ n = INS_MemoryWriteSize ins
           /\ (1 <? INS_OperandCount ins) && INS_MemoryOperandIsWritten ins 0 = true)
    /\ (forall ip,
           In (EvINS_InsertCall ins ip AF_callbackLockCheck) evs <->
           INS_IsSyscall ins = false
           /\ ip = (if INS_HasFallThrough ins then IPOINT_AFTER
                    else IPOINT_TAKEN_BRANCH))
    /\ (forall ip,
           In (EvINS_InsertCall ins ip AF_callbackAfter) evs <->
           INS_IsSyscall ins = false
           /\ ip = (if INS_HasFallThrough ins then IPOINT_AFTER
                    else IPOINT_TAKEN_BRANCH)).
Proof.
  unfold INS_InsertCalls, before_call, bind.
  destruct (0 <? INS_MemoryOperandCount ins);
    destruct (INS_IsSyscall ins);
    destruct (INS_HasFallThrough ins);
    destruct ((1 <? INS_OperandCount ins) && INS_MemoryOperandIsWritten ins 0);
    cbn; eexists; (split; [reflexivity|]); (split; [reflexivity|]);
    (split; [cbn; lia|]);
    repeat split; intros; cbn [In] in *;
    repeat match goal with
           | H : _ \/ _ |- _ => destruct H
           | H : _ /\ _ |- _ => destruct H
           | H : False |- _ => destruct H
           | H : EvINS_InsertCall _ _ _ = EvINS_InsertCall _ _ _ |- _ =>
               first [discriminate H | injection H as ? ?; subst
                     | injection H as ?; subst]
           end;
    subst; try discriminate; try reflexivity; auto 10.
Qed.
